(** * Office 365 cache middleware: subscription lifecycle and change-notification correlation

    A shallow embedding of the two variants of the service, [app.py]
    (module [App]) and [application.py] (module [Application]), together with
    the library functions they rely on (string methods, [hashlib.sha512],
    [datetime], [re.findall] for one pattern, [urlparse] for the network
    location, [ipaddress] for bracketed hosts), and the properties of the key
    codec, the resync scheduler, the subscription manager, the notification
    correlator, the cache forwarder and the pass-through route.

    Conventions.
    - A Python [str] is a [string] whose characters are the code points
      0..255; [encode('utf-8')] is [utf8_encode].
    - A JSON document (what [json.loads] / [r.json()] give, and what
      [json.dumps] takes) is a [Json] value; numbers are integers.  The
      Python operations on such values ([j[k]], [k in j], iteration, string
      methods, [+]) raise as Python does on a value of the wrong shape.
    - A [datetime] is the number of microseconds since 0001-01-01T00:00:00 on
      the naive local time line; a [timedelta] is a number of microseconds.
    - The outside world (upstream Graph API, cache webhooks, wall clock) is an
      oracle [Env]: it answers every HTTP call, as a function of the calls
      made before, and gives every reading of the clock.  Every HTTP call is
      appended to the trace [calls].
    - A computation is a function of the environment and of the world; it
      ends with a value, with a Python exception, or, for the pagination loop
      that follows [@odata.nextLink] while the upstream gives one, out of the
      iterations it was allowed.
    - The libraries are read as CPython 3.11 and werkzeug have them:
      [urlparse] checks what stands between square brackets with
      [ipaddress], and a header that is not there raises [KeyError] with the
      key of the WSGI environ.
    - Log records at WARNING level and above are kept; those at DEBUG level
      (among them the one of [debugging_decorator]) are not, but an argument
      of theirs that can raise is still evaluated. *)

From Stdlib Require Import ZArith Ascii String Lia.
From stdpp Require Import base strings gmap list.

Local Open Scope Z_scope.

(** ** Python string methods *)

Module PyStr.

Definition ord (c : ascii) : Z := Z.of_nat (nat_of_ascii c).
Definition chr (z : Z) : ascii := ascii_of_nat (Z.to_nat z).

(** [s[0:n]] and [s[n:]] *)
Fixpoint take (n : nat) (s : string) : string :=
  match n, s with
  | S n', String c s' => String c (take n' s')
  | _, _ => EmptyString
  end.

Fixpoint drop (n : nat) (s : string) : string :=
  match n, s with
  | S n', String _ s' => drop n' s'
  | _, _ => s
  end.

Definition len (s : string) : nat := String.length s.

(** [s.startswith(p)] *)
Fixpoint startswith (p s : string) : bool :=
  match p, s with
  | EmptyString, _ => true
  | String a p', String b s' => if Ascii.eqb a b then startswith p' s' else false
  | String _ _, EmptyString => false
  end.

(** [s.endswith(p)] *)
Definition endswith (p s : string) : bool :=
  (len p <=? len s)%nat && String.eqb (drop (len s - len p) s) p.

(** [p in s] for strings *)
Fixpoint contains (p s : string) : bool :=
  startswith p s || match s with
                    | EmptyString => false
                    | String _ s' => contains p s'
                    end.

(** [c.lower()] on the code points below 256: A-Z, and the Latin-1 capitals
    U+00C0..U+00DE without the multiplication sign U+00D7. *)
Definition lower_char (c : ascii) : ascii :=
  let n := ord c in
  if ((65 <=? n) && (n <=? 90)) || ((192 <=? n) && (n <=? 222) && negb (n =? 215))
  then chr (n + 32) else c.

Fixpoint lower (s : string) : string :=
  match s with
  | EmptyString => EmptyString
  | String c s' => String (lower_char c) (lower s')
  end.

(** [c.upper()] where the result is one code point below 256: a-z, and the
    Latin-1 small letters U+00E0..U+00FE without the division sign U+00F7.
    (The upper cases of U+00B5, U+00DF and U+00FF are not below 256; no header
    name, the only text upper-cased here, holds them.) *)
Definition upper_char (c : ascii) : ascii :=
  let n := ord c in
  if ((97 <=? n) && (n <=? 122)) || ((224 <=? n) && (n <=? 254) && negb (n =? 247))
  then chr (n - 32) else c.

Fixpoint upper (s : string) : string :=
  match s with
  | EmptyString => EmptyString
  | String c s' => String (upper_char c) (upper s')
  end.

(** [s.replace(a, b)] for one-character [a] and [b] *)
Fixpoint replace (a b : ascii) (s : string) : string :=
  match s with
  | EmptyString => EmptyString
  | String c s' => String (if Ascii.eqb c a then b else c) (replace a b s')
  end.

(** [s.split(sep)] for a one-character separator: all the fields. *)
Fixpoint split (sep : ascii) (s : string) : list string :=
  match s with
  | EmptyString => [EmptyString]
  | String c s' =>
      if Ascii.eqb c sep then EmptyString :: split sep s'
      else match split sep s' with
           | f :: fs => String c f :: fs
           | [] => [String c EmptyString]
           end
  end.

(** [s.split(sep, 1)]: cut at the first separator only. *)
Fixpoint split1 (sep : ascii) (s : string) : list string :=
  match s with
  | EmptyString => [EmptyString]
  | String c s' =>
      if Ascii.eqb c sep then [EmptyString; s']
      else match split1 sep s' with
           | f :: fs => String c f :: fs
           | [] => [String c EmptyString]
           end
  end.

(** [s.rsplit(sep, 1)]: cut at the last separator only. *)
Fixpoint rsplit1 (sep : ascii) (s : string) : list string :=
  match s with
  | EmptyString => [EmptyString]
  | String c s' =>
      match rsplit1 sep s' with
      | [f] => if Ascii.eqb c sep then [EmptyString; f] else [String c f]
      | [f; g] => [String c f; g]
      | fs => fs
      end
  end.

Fixpoint join (sep : string) (l : list string) : string :=
  match l with
  | [] => EmptyString
  | [x] => x
  | x :: l' => x +:+ sep +:+ join sep l'
  end.

(** [str(n)] for an integer *)
Definition digit (d : Z) : ascii := chr (48 + d).

Fixpoint digits (fuel : nat) (n : Z) (acc : string) : string :=
  match fuel with
  | O => acc
  | S fuel' =>
      let acc' := String (digit (n mod 10)) acc in
      if n <? 10 then acc' else digits fuel' (n / 10) acc'
  end.

Definition of_Z (n : Z) : string :=
  if n <? 0 then String "-" (digits (Z.to_nat (Z.log2 (- n)) + 1) (- n) EmptyString)
  else digits (Z.to_nat (Z.log2 n) + 1) n EmptyString.

(** ["%0wd" % n] for a non-negative [n] *)
Fixpoint zeros (k : nat) : string :=
  match k with O => EmptyString | S k' => String "0" (zeros k') end.

Definition zpad (w : nat) (n : Z) : string :=
  let s := of_Z n in zeros (w - len s) +:+ s.

End PyStr.

(** ** hashlib.sha512 *)

Module Sha512.

Definition mask64 : Z := Z.ones 64.
Definition w64 (x : Z) : Z := Z.land x mask64.
Definition add64 (x y : Z) : Z := w64 (x + y).
Definition rotr (n x : Z) : Z := Z.lor (Z.shiftr x n) (w64 (Z.shiftl x (64 - n))).
Definition not64 (x : Z) : Z := Z.lxor x mask64.

Definition Ch (x y z : Z) : Z := Z.lxor (Z.land x y) (Z.land (not64 x) z).
Definition Maj (x y z : Z) : Z :=
  Z.lxor (Z.lxor (Z.land x y) (Z.land x z)) (Z.land y z).
Definition Sigma0 (x : Z) : Z := Z.lxor (Z.lxor (rotr 28 x) (rotr 34 x)) (rotr 39 x).
Definition Sigma1 (x : Z) : Z := Z.lxor (Z.lxor (rotr 14 x) (rotr 18 x)) (rotr 41 x).
Definition sigma0 (x : Z) : Z := Z.lxor (Z.lxor (rotr 1 x) (rotr 8 x)) (Z.shiftr x 7).
Definition sigma1 (x : Z) : Z := Z.lxor (Z.lxor (rotr 19 x) (rotr 61 x)) (Z.shiftr x 6).

Definition K : list Z :=
  [ 0x428a2f98d728ae22; 0x7137449123ef65cd; 0xb5c0fbcfec4d3b2f; 0xe9b5dba58189dbbc;
    0x3956c25bf348b538; 0x59f111f1b605d019; 0x923f82a4af194f9b; 0xab1c5ed5da6d8118;
    0xd807aa98a3030242; 0x12835b0145706fbe; 0x243185be4ee4b28c; 0x550c7dc3d5ffb4e2;
    0x72be5d74f27b896f; 0x80deb1fe3b1696b1; 0x9bdc06a725c71235; 0xc19bf174cf692694;
    0xe49b69c19ef14ad2; 0xefbe4786384f25e3; 0x0fc19dc68b8cd5b5; 0x240ca1cc77ac9c65;
    0x2de92c6f592b0275; 0x4a7484aa6ea6e483; 0x5cb0a9dcbd41fbd4; 0x76f988da831153b5;
    0x983e5152ee66dfab; 0xa831c66d2db43210; 0xb00327c898fb213f; 0xbf597fc7beef0ee4;
    0xc6e00bf33da88fc2; 0xd5a79147930aa725; 0x06ca6351e003826f; 0x142929670a0e6e70;
    0x27b70a8546d22ffc; 0x2e1b21385c26c926; 0x4d2c6dfc5ac42aed; 0x53380d139d95b3df;
    0x650a73548baf63de; 0x766a0abb3c77b2a8; 0x81c2c92e47edaee6; 0x92722c851482353b;
    0xa2bfe8a14cf10364; 0xa81a664bbc423001; 0xc24b8b70d0f89791; 0xc76c51a30654be30;
    0xd192e819d6ef5218; 0xd69906245565a910; 0xf40e35855771202a; 0x106aa07032bbd1b8;
    0x19a4c116b8d2d0c8; 0x1e376c085141ab53; 0x2748774cdf8eeb99; 0x34b0bcb5e19b48a8;
    0x391c0cb3c5c95a63; 0x4ed8aa4ae3418acb; 0x5b9cca4f7763e373; 0x682e6ff3d6b2b8a3;
    0x748f82ee5defb2fc; 0x78a5636f43172f60; 0x84c87814a1f0ab72; 0x8cc702081a6439ec;
    0x90befffa23631e28; 0xa4506cebde82bde9; 0xbef9a3f7b2c67915; 0xc67178f2e372532b;
    0xca273eceea26619c; 0xd186b8c721c0c207; 0xeada7dd6cde0eb1e; 0xf57d4f7fee6ed178;
    0x06f067aa72176fba; 0x0a637dc5a2c898a6; 0x113f9804bef90dae; 0x1b710b35131c471b;
    0x28db77f523047d84; 0x32caab7b40c72493; 0x3c9ebe0a15c9bebc; 0x431d67c49c100d4c;
    0x4cc5d4becb3e42b6; 0x597f299cfc657e2a; 0x5fcb6fab3ad6faec; 0x6c44198c4a475817 ].

(** The eight working variables / the chaining value. *)
Record hstate := HState { ha : Z; hb : Z; hc : Z; hd : Z; he : Z; hf : Z; hg : Z; hh : Z }.

Definition H0 : hstate :=
  HState 0x6a09e667f3bcc908 0xbb67ae8584caa73b 0x3c6ef372fe94f82b 0xa54ff53a5f1d36f1
         0x510e527fade682d1 0x9b05688c2b3e6c1f 0x1f83d9abfb41bd6b 0x5be0cd19137e2179.

(** Padding: 0x80, zeros up to 112 mod 128, then the bit length on 16 bytes. *)
Fixpoint be_bytes (k : nat) (x : Z) : list Z :=
  match k with
  | O => []
  | S k' => Z.land (Z.shiftr x (8 * Z.of_nat k')) 255 :: be_bytes k' x
  end.

Definition pad (msg : list Z) : list Z :=
  let l := Z.of_nat (length msg) in
  let z := (111 - l) mod 128 in
  msg ++ [128] ++ repeat 0 (Z.to_nat z) ++ be_bytes 16 (8 * l).

Fixpoint be_word (bs : list Z) (acc : Z) : Z :=
  match bs with
  | [] => acc
  | b :: bs' => be_word bs' (Z.lor (Z.shiftl acc 8) b)
  end.

(** [n] big-endian 64-bit words read off the front of [bs]. *)
Fixpoint words (n : nat) (bs : list Z) : list Z :=
  match n with
  | O => []
  | S n' => be_word (firstn 8 bs) 0 :: words n' (skipn 8 bs)
  end.

(** Message schedule: [win] holds the last sixteen words, oldest first. *)
Fixpoint schedule (n : nat) (win : list Z) : list Z :=
  match n with
  | O => []
  | S n' =>
      let w16 := nth 0 win 0 in
      let w15 := nth 1 win 0 in
      let w7 := nth 9 win 0 in
      let w2 := nth 14 win 0 in
      let w := add64 (add64 (add64 (sigma1 w2) w7) (sigma0 w15)) w16 in
      w :: schedule n' (skipn 1 win ++ [w])
  end.

Definition round (s : hstate) (kw : Z * Z) : hstate :=
  let t1 := add64 (add64 (add64 (add64 (hh s) (Sigma1 (he s))) (Ch (he s) (hf s) (hg s)))
                         (fst kw)) (snd kw) in
  let t2 := add64 (Sigma0 (ha s)) (Maj (ha s) (hb s) (hc s)) in
  HState (add64 t1 t2) (ha s) (hb s) (hc s) (add64 (hd s) t1) (he s) (hf s) (hg s).

Definition compress (s : hstate) (block : list Z) : hstate :=
  let w := words 16 block in
  let ws := w ++ schedule 64 w in
  let r := fold_left round (combine K ws) s in
  HState (add64 (ha s) (ha r)) (add64 (hb s) (hb r)) (add64 (hc s) (hc r))
         (add64 (hd s) (hd r)) (add64 (he s) (he r)) (add64 (hf s) (hf r))
         (add64 (hg s) (hg r)) (add64 (hh s) (hh r)).

Fixpoint blocks (n : nat) (bs : list Z) (s : hstate) : hstate :=
  match n with
  | O => s
  | S n' => blocks n' (skipn 128 bs) (compress s (firstn 128 bs))
  end.

Definition digest_state (msg : list Z) : hstate :=
  let p := pad msg in blocks (length p / 128)%nat p H0.

(** Lower-case hexadecimal, as [hexdigest] prints it. *)
Definition hexdigit (d : Z) : ascii :=
  if d <? 10 then PyStr.chr (48 + d) else PyStr.chr (87 + d).

Definition nib (x : Z) (i : Z) : ascii := hexdigit (Z.land (Z.shiftr x (4 * i)) 15).

Definition hex64 (x : Z) (rest : string) : string :=
  String (nib x 15) (String (nib x 14) (String (nib x 13) (String (nib x 12)
  (String (nib x 11) (String (nib x 10) (String (nib x 9) (String (nib x 8)
  (String (nib x 7) (String (nib x 6) (String (nib x 5) (String (nib x 4)
  (String (nib x 3) (String (nib x 2) (String (nib x 1) (String (nib x 0) rest))))))))))))))).

Definition hex_of_state (s : hstate) : string :=
  hex64 (ha s) (hex64 (hb s) (hex64 (hc s) (hex64 (hd s)
  (hex64 (he s) (hex64 (hf s) (hex64 (hg s) (hex64 (hh s) EmptyString))))))).

(** [hashlib.sha512(bs).hexdigest()] *)
Definition hexdigest (msg : list Z) : string := hex_of_state (digest_state msg).

End Sha512.

(** [s.encode('utf-8')] on code points below 256 *)
Fixpoint utf8_encode (s : string) : list Z :=
  match s with
  | EmptyString => []
  | String c s' =>
      let n := PyStr.ord c in
      if n <? 128 then n :: utf8_encode s'
      else (192 + n / 64) :: (128 + n mod 64) :: utf8_encode s'
  end.

Example sha512_abc :
  Sha512.hexdigest (utf8_encode "abc") =
  "ddaf35a193617abacc417349ae20413112e6fa4e89a97ea20a9eeee64b55d39a2192992a274fc1a836ba3c23a3feebbd454d4423643ce80e2a9ac94fa54ca49f"%string.
Proof. vm_compute. reflexivity. Qed.

Example sha512_empty :
  Sha512.hexdigest (utf8_encode "") =
  "cf83e1357eefb8bdf1542850d66d8007d620e4050b5715dc83f4a921d36ce9ce47d0d13c5d85f2b0ff8318d2877eec2f63b931bd47417a81a538327af927da3e"%string.
Proof. vm_compute. reflexivity. Qed.

(** ** datetime *)

Module DateTime.

(** Microseconds since 0001-01-01T00:00:00. *)
Definition datetime : Type := Z.

Definition usec_per_sec : Z := 1000000.
Definition usec_per_day : Z := 86400 * usec_per_sec.

(** [timedelta(hours=h)] and [timedelta(days=d)] *)
Definition timedelta_hours (h : Z) : Z := h * 3600 * usec_per_sec.
Definition timedelta_days (d : Z) : Z := d * usec_per_day.

Definition is_leap (y : Z) : bool :=
  (y mod 4 =? 0) && (negb (y mod 100 =? 0) || (y mod 400 =? 0)).

Definition days_in_month (y m : Z) : Z :=
  if m =? 2 then (if is_leap y then 29 else 28)
  else if (m =? 4) || (m =? 6) || (m =? 9) || (m =? 11) then 30 else 31.

Definition days_before_year (y : Z) : Z :=
  let p := y - 1 in p * 365 + p / 4 - p / 100 + p / 400.

Fixpoint days_before_month_aux (k : nat) (y : Z) : Z :=
  match k with
  | O => 0
  | S k' => days_before_month_aux k' y + days_in_month y (Z.of_nat k)
  end.

Definition days_before_month (y m : Z) : Z := days_before_month_aux (Z.to_nat (m - 1)) y.

(** [datetime(y, mo, d, h, mi, s, us)] for components in range *)
Definition make (y mo d h mi s us : Z) : datetime :=
  ((days_before_year y + days_before_month y mo + (d - 1)) * 86400
   + h * 3600 + mi * 60 + s) * usec_per_sec + us.

(** The calendar date of a day number (days since 0001-01-01). *)
Definition year_of_day (n : Z) : Z * Z :=
  let n400 := n / 146097 in
  let r400 := n mod 146097 in
  let n100 := r400 / 36524 in
  let r100 := r400 mod 36524 in
  let n4 := r100 / 1461 in
  let r4 := r100 mod 1461 in
  let n1 := r4 / 365 in
  let r1 := r4 mod 365 in
  let y := n400 * 400 + n100 * 100 + n4 * 4 + n1 + 1 in
  if (n1 =? 4) || (n100 =? 4) then (y - 1, 365) else (y, r1).

Fixpoint month_of_yday (k : nat) (y m r : Z) : Z * Z :=
  match k with
  | O => (m, r)
  | S k' => if r <? days_in_month y m then (m, r)
            else month_of_yday k' y (m + 1) (r - days_in_month y m)
  end.

Record civil := Civil { year : Z; month : Z; day : Z; hour : Z; minute : Z;
                        second : Z; microsecond : Z }.

Definition to_civil (t : datetime) : civil :=
  let secs := t / usec_per_sec in
  let days := secs / 86400 in
  let sod := secs mod 86400 in
  let '(y, yd) := year_of_day days in
  let '(m, md) := month_of_yday 11 y 1 yd in
  Civil y m (md + 1) (sod / 3600) (sod mod 3600 / 60) (sod mod 60) (t mod usec_per_sec).

Definition date_time_string (c : civil) : string :=
  PyStr.zpad 4 (year c) +:+ "-" +:+ PyStr.zpad 2 (month c) +:+ "-" +:+ PyStr.zpad 2 (day c)
  +:+ "T" +:+ PyStr.zpad 2 (hour c) +:+ ":" +:+ PyStr.zpad 2 (minute c) +:+ ":"
  +:+ PyStr.zpad 2 (second c).

(** [t.strftime("%Y-%m-%dT%H:%M:%S.0000000Z")] (years from 1000 on) *)
Definition strftime_graph (t : datetime) : string :=
  date_time_string (to_civil t) +:+ ".0000000Z".

(** [t.isoformat()] *)
Definition isoformat (t : datetime) : string :=
  let c := to_civil t in
  if microsecond c =? 0 then date_time_string c
  else date_time_string c +:+ "." +:+ PyStr.zpad 6 (microsecond c).

(** Parsing, for [datetime.strptime(s, '%Y-%m-%dT%H:%M:%S')].  The directives
    stand for the patterns
      %Y  \d\d\d\d
      %m  1[0-2]|0[1-9]|[1-9]
      %d  3[01]|[12]\d|0[1-9]|[1-9]| [1-9]
      %H  2[0-3]|[0-1]\d|\d
      %M  [0-5]\d|\d
      %S  6[0-1]|[0-5]\d|\d
    the literal T matches in either case, and the whole string must be used.
    Every field is followed by a character that no field can contain, so a
    field is the text up to that character. *)
Definition is_digit (c : ascii) : bool :=
  let n := PyStr.ord c in (48 <=? n) && (n <=? 57).

Definition digit_val (c : ascii) : Z := PyStr.ord c - 48.

(** One or two digits, as a number. *)
Definition num12 (s : string) : option Z :=
  match s with
  | String a EmptyString => if is_digit a then Some (digit_val a) else None
  | String a (String b EmptyString) =>
      if is_digit a && is_digit b then Some (10 * digit_val a + digit_val b) else None
  | _ => None
  end.

Definition field_month (s : string) : option Z :=
  match num12 s with
  | Some n => if (1 <=? n) && (n <=? 12) then Some n else None
  | None => None
  end.

Definition field_day (s : string) : option Z :=
  match s with
  | String " " (String b EmptyString) =>
      if is_digit b && negb (digit_val b =? 0) then Some (digit_val b) else None
  | _ => match num12 s with
         | Some n => if (1 <=? n) && (n <=? 31) then Some n else None
         | None => None
         end
  end.

Definition field_upto (hi : Z) (s : string) : option Z :=
  match num12 s with
  | Some n => if n <=? hi then Some n else None
  | None => None
  end.

Definition field_year (s : string) : option Z :=
  match s with
  | String a (String b (String c (String d EmptyString))) =>
      if is_digit a && is_digit b && is_digit c && is_digit d
      then Some (1000 * digit_val a + 100 * digit_val b + 10 * digit_val c + digit_val d)
      else None
  | _ => None
  end.

(** Cut [s] at the first character satisfying [sep]. *)
Fixpoint cut (sep : ascii -> bool) (s : string) : option (string * string) :=
  match s with
  | EmptyString => None
  | String c s' =>
      if sep c then Some (EmptyString, s')
      else match cut sep s' with
           | Some (f, r) => Some (String c f, r)
           | None => None
           end
  end.

Definition is_char (x : ascii) (c : ascii) : bool := Ascii.eqb c x.
Definition is_T (c : ascii) : bool := Ascii.eqb c "T" || Ascii.eqb c "t".

(** [None] stands for the [ValueError] of [strptime]: no match, a date that
    does not exist, or a second above 59 (which the pattern admits and the
    [datetime] constructor refuses). *)
Definition strptime (s : string) : option datetime :=
  '(fy, r) ← cut (is_char "-") s;
  '(fm, r) ← cut (is_char "-") r;
  '(fd, r) ← cut is_T r;
  '(fH, r) ← cut (is_char ":") r;
  '(fM, fS) ← cut (is_char ":") r;
  y ← field_year fy;
  mo ← field_month fm;
  d ← field_day fd;
  h ← field_upto 23 fH;
  mi ← field_upto 59 fM;
  sec ← field_upto 61 fS;
  if (1 <=? y) && (d <=? days_in_month y mo) && (sec <=? 59)
  then Some (make y mo d h mi sec 0) else None.

End DateTime.

Example strptime_ok :
  DateTime.strftime_graph <$> DateTime.strptime "2026-11-03T10:15:00" =
  Some "2026-11-03T10:15:00.0000000Z"%string.
Proof. vm_compute. reflexivity. Qed.

Example strptime_short_fields :
  DateTime.isoformat <$> DateTime.strptime "2024-2-29t7:5:9" = Some "2024-02-29T07:05:09"%string.
Proof. vm_compute. reflexivity. Qed.

Example strptime_no_such_day : DateTime.strptime "2026-02-29T10:15:00" = None.
Proof. vm_compute. reflexivity. Qed.

Example isoformat_microseconds :
  DateTime.isoformat (DateTime.make 2026 12 31 23 59 58 1500) = "2026-12-31T23:59:58.001500"%string.
Proof. vm_compute. reflexivity. Qed.

(** ** Python values and exceptions *)

#[local] Set Warnings "-register-all".

Inductive Json : Type :=
| JNull
| JBool (b : bool)
| JNum (n : Z)
| JStr (s : string)
| JList (l : list Json)
| JObj (kvs : list (string * Json)).

Inductive exn : Type :=
| MiddlewareException (msg : string)
| KeyError (key : string)
| ValueError (msg : string)
| TypeError
| AttributeError
| IndexError
| RequestException.

(** How a computation ends.  [OutOfFuel] is not a Python outcome: it marks a
    run of the pagination loop that needed more iterations than it was given. *)
Inductive outcome (A : Type) : Type :=
| Ok (a : A)
| Raise (e : exn)
| OutOfFuel.

Arguments Ok {A} a.
Arguments Raise {A} e.
Arguments OutOfFuel {A}.

Module Py.

(** [bool(j)] *)
Definition truthy (j : Json) : bool :=
  match j with
  | JNull => false
  | JBool b => b
  | JNum n => negb (n =? 0)
  | JStr s => negb (String.eqb s "")
  | JList l => match l with [] => false | _ => true end
  | JObj kvs => match kvs with [] => false | _ => true end
  end.

(** [j == s] for a string [s] *)
Definition eq_str (j : Json) (s : string) : bool :=
  match j with JStr t => String.eqb t s | _ => false end.

Fixpoint assoc (k : string) (kvs : list (string * Json)) : option Json :=
  match kvs with
  | [] => None
  | (k', v) :: kvs' => if String.eqb k' k then Some v else assoc k kvs'
  end.

(** [j[k]] for a string key *)
Definition getitem (j : Json) (k : string) : outcome Json :=
  match j with
  | JObj kvs => match assoc k kvs with Some v => Ok v | None => Raise (KeyError k) end
  | _ => Raise TypeError
  end.

(** [k in j] for a string [k] *)
Definition contains (k : string) (j : Json) : outcome bool :=
  match j with
  | JObj kvs => Ok (match assoc k kvs with Some _ => true | None => false end)
  | JList l => Ok (existsb (fun x => eq_str x k) l)
  | JStr s => Ok (PyStr.contains k s)
  | _ => Raise TypeError
  end.

(** [d[k] = v] on the key-value list of a dict: an existing key keeps its
    place, a new one goes last. *)
Fixpoint set_assoc (k : string) (v : Json) (kvs : list (string * Json)) : list (string * Json) :=
  match kvs with
  | [] => [(k, v)]
  | (k', v') :: kvs' => if String.eqb k' k then (k, v) :: kvs' else (k', v') :: set_assoc k v kvs'
  end.

Definition setitem (j : Json) (k : string) (v : Json) : outcome Json :=
  match j with
  | JObj kvs => Ok (JObj (set_assoc k v kvs))
  | _ => Raise TypeError
  end.

(** [d.update({k1: v1, ...})] *)
Definition update (j : Json) (new : list (string * Json)) : outcome Json :=
  match j with
  | JObj kvs => Ok (JObj (fold_left (fun acc kv => set_assoc (fst kv) (snd kv) acc) new kvs))
  | _ => Raise AttributeError
  end.

Fixpoint chars (s : string) : list Json :=
  match s with
  | EmptyString => []
  | String c s' => JStr (String c EmptyString) :: chars s'
  end.

(** The elements that [for x in j] and [list.extend(j)] go through. *)
Definition iter (j : Json) : outcome (list Json) :=
  match j with
  | JList l => Ok l
  | JObj kvs => Ok (map (fun kv => JStr (fst kv)) kvs)
  | JStr s => Ok (chars s)
  | _ => Raise TypeError
  end.

(** The receiver of a [str] method ([split], [rsplit], [startswith], [lower]) *)
Definition str_method (j : Json) : outcome string :=
  match j with JStr s => Ok s | _ => Raise AttributeError end.

(** The right operand of [str + j] *)
Definition str_operand (j : Json) : outcome string :=
  match j with JStr s => Ok s | _ => Raise TypeError end.

(** [repr(j)], up to the quoting of strings, which are put between single
    quotes as they are. *)
Fixpoint repr (j : Json) : string :=
  match j with
  | JNull => "None"
  | JBool true => "True"
  | JBool false => "False"
  | JNum n => PyStr.of_Z n
  | JStr s => "'" +:+ s +:+ "'"
  | JList l => "[" +:+ PyStr.join ", " (map repr l) +:+ "]"
  | JObj kvs =>
      "{" +:+ PyStr.join ", " (map (fun kv => match kv with
                                              | (k, v) => "'" +:+ k +:+ "': " +:+ repr v
                                              end) kvs) +:+ "}"
  end.

(** [f"{j}"] *)
Definition format (j : Json) : string :=
  match j with JStr s => s | _ => repr j end.

Definition of_option_str (o : option string) : Json :=
  match o with Some s => JStr s | None => JNull end.

End Py.

(** ** The outside world *)

Definition Headers : Type := list (string * option string).

(** The calls of the [requests] library. *)
Inductive Call : Type :=
| GET (url : string) (headers : Headers)
| DELETE (url : string) (headers : Headers)
| POST (url : string) (headers : Headers) (data : Json)
| PUT (url : string) (data : Json).

(** A [requests.Response]; [json = None] when the body is not JSON. *)
Record HttpResponse := { status_code : Z; text : string; json : option Json }.

(** [r.ok]: the status is neither a client nor a server error. *)
Definition ok (r : HttpResponse) : bool :=
  negb ((400 <=? status_code r) && (status_code r <? 600)).

(** The environment answers every call, given the calls made before it, and
    gives the reading of the wall clock at each [datetime.now()]. *)
Record Env := { http : list Call -> Call -> HttpResponse; clock : nat -> DateTime.datetime }.

Inductive Level := WARNING | ERROR.

(** The state threaded through a request: the state store, the trace of HTTP
    calls (oldest first), the log at WARNING level and above (records at
    DEBUG level are not kept) and the number of clock readings so far. *)
Record World (S : Type) := MkWorld {
  store : S;
  calls : list Call;
  logs : list (Level * string);
  ticks : nat }.

Arguments MkWorld {S}.
Arguments store {S}.
Arguments calls {S}.
Arguments logs {S}.
Arguments ticks {S}.

Definition M (S A : Type) : Type := Env -> World S -> outcome A * World S.

Section Monad.
Context {S : Type}.

Definition ret {A} (a : A) : M S A := fun _ w => (Ok a, w).

Definition bind {A B} (m : M S A) (k : A -> M S B) : M S B :=
  fun env w =>
    match m env w with
    | (Ok a, w') => k a env w'
    | (Raise e, w') => (Raise e, w')
    | (OutOfFuel, w') => (OutOfFuel, w')
    end.

Definition raise {A} (e : exn) : M S A := fun _ w => (Raise e, w).

Definition out_of_fuel {A} : M S A := fun _ w => (OutOfFuel, w).

Definition lift {A} (o : outcome A) : M S A := fun _ w => (o, w).

(** [try: m  except <the exceptions h is defined on>: h e] *)
Definition try_except {A} (m : M S A) (h : exn -> option (M S A)) : M S A :=
  fun env w =>
    match m env w with
    | (Raise e, w') => match h e with Some k => k env w' | None => (Raise e, w') end
    | r => r
    end.

Definition logging (l : Level) (msg : string) : M S unit :=
  fun _ w => (Ok tt, MkWorld (store w) (calls w) (logs w ++ [(l, msg)]) (ticks w)).

(** [datetime.now()] *)
Definition datetime_now : M S DateTime.datetime :=
  fun env w => (Ok (clock env (ticks w)), MkWorld (store w) (calls w) (logs w) (Datatypes.S (ticks w))).

(** One call of [requests].  The exceptions of the transport itself (no
    connection, a URL that is none, a timeout) are not modelled: the
    environment answers every call. *)
Definition requests (c : Call) : M S HttpResponse :=
  fun env w => (Ok (http env (calls w) c), MkWorld (store w) (calls w ++ [c]) (logs w) (ticks w)).

Definition get_store : M S S := fun _ w => (Ok (store w), w).

Definition put_store (s : S) : M S unit :=
  fun _ w => (Ok tt, MkWorld s (calls w) (logs w) (ticks w)).

(** [raise MiddlewareException(msg)]: the constructor logs the message. *)
Definition raise_MiddlewareException {A} (msg : string) : M S A :=
  bind (logging ERROR msg) (fun _ => raise (MiddlewareException msg)).

(** [for x in l: body x] *)
Fixpoint for_each {A} (l : list A) (body : A -> M S unit) : M S unit :=
  match l with
  | [] => ret tt
  | x :: l' => bind (body x) (fun _ => for_each l' body)
  end.

(** A loop that rebuilds the list it goes through, element by element. *)
Fixpoint for_each_update {A} (l : list A) (body : A -> M S A) : M S (list A) :=
  match l with
  | [] => ret []
  | x :: l' => bind (body x) (fun y => bind (for_each_update l' body) (fun ys => ret (y :: ys)))
  end.

(** [for i in range(0, n): r = m], giving the last [r] *)
Fixpoint repeat_last {A} (n : nat) (m : M S A) (last : option A) : M S (option A) :=
  match n with
  | O => ret last
  | Datatypes.S n' => bind m (fun r => repeat_last n' m (Some r))
  end.

End Monad.

Declare Scope py_scope.
Delimit Scope py_scope with py.
Notation "x <- m ;; k" := (bind m (fun x => k))
  (at level 20, m at level 99, k at level 200, right associativity) : py_scope.
Notation "' pat <- m ;; k" := (bind m (fun x => match x with pat => k end))
  (at level 20, pat pattern, m at level 99, k at level 200, right associativity) : py_scope.
Notation "m ;; k" := (bind m (fun _ => k))
  (at level 100, k at level 200, right associativity) : py_scope.

Local Open Scope string_scope.
Local Open Scope list_scope.
Local Open Scope Z_scope.
Local Open Scope py_scope.

(** ** The meeting-link extractor *)

(** [\s] on the code points below 256 *)
Definition is_space (c : ascii) : bool :=
  let n := PyStr.ord c in
  ((9 <=? n) && (n <=? 13)) || ((28 <=? n) && (n <=? 32)) || (n =? 133) || (n =? 160).

(** The longest prefix matching [\S*] *)
Fixpoint nonspace_prefix (s : string) : string :=
  match s with
  | EmptyString => EmptyString
  | String c s' => if is_space c then EmptyString else String c (nonspace_prefix s')
  end.

(** [re.findall(r'(https://\S+)', s)]: the matches from left to right, none
    overlapping another; [skip] characters of the current match are still to
    be passed over. *)
Fixpoint findall_https (skip : nat) (s : string) : list string :=
  match s with
  | EmptyString => []
  | String _ s' =>
      match skip with
      | Datatypes.S k => findall_https k s'
      | O =>
          if PyStr.startswith "https://" s then
            match nonspace_prefix (PyStr.drop 8 s) with
            | EmptyString => findall_https 0 s'
            | run => ("https://" +:+ run) :: findall_https (7 + PyStr.len run) s'
            end
          else findall_https 0 s'
      end
  end.

(** ** ipaddress.ip_address, as [urlparse] asks for it

    [urlparse] hands what stands between square brackets to
    [ipaddress.ip_address]; an address that is read gives its integer, one
    that is not raises ([None] below, where the library raises
    [AddressValueError]). *)

Module IpAddress.

Definition is_digit (c : ascii) : bool :=
  let n := PyStr.ord c in (48 <=? n) && (n <=? 57).

Definition is_hex_digit (c : ascii) : bool :=
  let n := PyStr.ord c in
  ((48 <=? n) && (n <=? 57)) || ((65 <=? n) && (n <=? 70)) || ((97 <=? n) && (n <=? 102)).

Fixpoint all_chars (p : ascii -> bool) (s : string) : bool :=
  match s with
  | EmptyString => true
  | String c s' => p c && all_chars p s'
  end.

(** [int(s, base)] for a string of digits of the base *)
Definition digit_value (c : ascii) : Z :=
  let n := PyStr.ord c in
  if n <=? 57 then n - 48 else if n <=? 70 then n - 55 else n - 87.

Fixpoint int_of (base : Z) (s : string) (acc : Z) : Z :=
  match s with
  | EmptyString => acc
  | String c s' => int_of base s' (base * acc + digit_value c)
  end.

(** ['%x' % n] for a non-negative [n] *)
Fixpoint hex_digits (fuel : nat) (n : Z) (acc : string) : string :=
  match fuel with
  | O => acc
  | Datatypes.S fuel' =>
      let acc' := String (Sha512.hexdigit (n mod 16)) acc in
      if n <? 16 then acc' else hex_digits fuel' (n / 16) acc'
  end.

Definition hex (n : Z) : string := hex_digits (Z.to_nat (Z.log2 n) + 1) n EmptyString.

(** [_BaseV4._parse_octet] *)
Definition _parse_octet (octet_str : string) : option Z :=
  if String.eqb octet_str "" then None
  else if negb (all_chars is_digit octet_str) then None
  else if (3 <? PyStr.len octet_str)%nat then None
  else if negb (String.eqb octet_str "0") && PyStr.startswith "0" octet_str then None
  else
    let octet_int := int_of 10 octet_str 0 in
    if 255 <? octet_int then None else Some octet_int.

(** [int.from_bytes(map(cls._parse_octet, octets), 'big')] *)
Fixpoint from_octets (octets : list string) (acc : Z) : option Z :=
  match octets with
  | [] => Some acc
  | octet_str :: octets' =>
      match _parse_octet octet_str with
      | Some octet_int => from_octets octets' (256 * acc + octet_int)
      | None => None
      end
  end.

(** [_BaseV4._ip_int_from_string] *)
Definition v4_int_from_string (ip_str : string) : option Z :=
  if String.eqb ip_str "" then None
  else
    let octets := PyStr.split "." ip_str in
    if negb (length octets =? 4)%nat then None else from_octets octets 0.

(** [IPv4Address(address)._ip] *)
Definition IPv4Address (address : string) : option Z :=
  if PyStr.contains "/" address then None else v4_int_from_string address.

(** [_BaseV6._parse_hextet]; [int('', 16)] raises. *)
Definition _parse_hextet (hextet_str : string) : option Z :=
  if negb (all_chars is_hex_digit hextet_str) then None
  else if (4 <? PyStr.len hextet_str)%nat then None
  else if String.eqb hextet_str "" then None
  else Some (int_of 16 hextet_str 0).

(** [ip_int <<= 16; ip_int |= cls._parse_hextet(part)] for the parts in turn *)
Fixpoint hextets (parts : list string) (ip_int : Z) : option Z :=
  match parts with
  | [] => Some ip_int
  | part :: parts' =>
      match _parse_hextet part with
      | Some h => hextets parts' (Z.lor (Z.shiftl ip_int 16) h)
      | None => None
      end
  end.

(** The loop that looks for the one empty part that is not an endpoint:
    [parts] are the parts from index [i] on, the last of which is an endpoint.
    [None] when a second empty part is found. *)
Fixpoint find_skip (i : nat) (parts : list string) (skip_index : option nat)
  : option (option nat) :=
  match parts with
  | [] => Some skip_index
  | [_] => Some skip_index
  | part :: parts' =>
      if String.eqb part "" then
        match skip_index with
        | Some _ => None
        | None => find_skip (Datatypes.S i) parts' (Some i)
        end
      else find_skip (Datatypes.S i) parts' skip_index
  end.

(** [parts[-n:]] for [n] at most the length, [[]] for [n = 0] *)
Definition last_parts (n : nat) (parts : list string) : list string :=
  skipn (length parts - n) parts.

(** The parts once an IPv4-style suffix is turned into two hextets *)
Definition ipv4_suffix (parts : list string) : option (list string) :=
  let suffix := List.last parts "" in
  if PyStr.contains "." suffix then
    match IPv4Address suffix with
    | Some ipv4_int =>
        Some (removelast parts ++ [hex (Z.land (Z.shiftr ipv4_int 16) 65535);
                                   hex (Z.land ipv4_int 65535)])
    | None => None
    end
  else Some parts.

(** [_BaseV6._ip_int_from_string] *)
Definition v6_int_from_string (ip_str : string) : option Z :=
  if String.eqb ip_str "" then None
  else
    let parts := PyStr.split ":" ip_str in
    if (length parts <? 3)%nat then None
    else
      match ipv4_suffix parts with
      | None => None
      | Some parts =>
          if (9 <? length parts)%nat then None
          else
            let first_empty := String.eqb (List.hd "" parts) "" in
            let last_empty := String.eqb (List.last parts "") "" in
            match find_skip 1 (List.tl parts) None with
            | None => None
            | Some (Some skip_index) =>
                let parts_hi := skip_index in
                let parts_lo := (length parts - skip_index - 1)%nat in
                let parts_hi := if first_empty then (parts_hi - 1)%nat else parts_hi in
                if first_empty && negb (parts_hi =? 0)%nat then None
                else
                  let parts_lo := if last_empty then (parts_lo - 1)%nat else parts_lo in
                  if last_empty && negb (parts_lo =? 0)%nat then None
                  else if (8 <=? parts_hi + parts_lo)%nat then None
                  else
                    let parts_skipped := (8 - (parts_hi + parts_lo))%nat in
                    match hextets (firstn parts_hi parts) 0 with
                    | Some ip_int =>
                        hextets (last_parts parts_lo parts)
                          (Z.shiftl ip_int (16 * Z.of_nat parts_skipped))
                    | None => None
                    end
            | Some None =>
                if negb (length parts =? 8)%nat then None
                else if first_empty then None
                else if last_empty then None
                else hextets parts 0
            end
      end.

(** [s.partition(sep)]: what stands before the first [sep], whether there is
    one, and what stands after it *)
Fixpoint partition (sep : ascii) (s : string) : string * bool * string :=
  match s with
  | EmptyString => (EmptyString, false, EmptyString)
  | String c s' =>
      if Ascii.eqb c sep then (EmptyString, true, s')
      else let '(before, found, after) := partition sep s' in (String c before, found, after)
  end.

(** [IPv6Address(address)._ip], the scope id after a [%] set aside *)
Definition IPv6Address (address : string) : option Z :=
  if PyStr.contains "/" address then None
  else
    let '(addr, sep, scope_id) := partition "%" address in
    if sep && (String.eqb scope_id "" || PyStr.contains "%" scope_id) then None
    else v6_int_from_string addr.

Inductive address := IPv4 (ip : Z) | IPv6 (ip : Z).

(** [ipaddress.ip_address(address)].  The message of the library starts
    with the [repr] of the address, which is left out here. *)
Definition ip_address (a : string) : outcome address :=
  match IPv4Address a with
  | Some ip => Ok (IPv4 ip)
  | None =>
      match IPv6Address a with
      | Some ip => Ok (IPv6 ip)
      | None => Raise (ValueError "does not appear to be an IPv4 or IPv6 address")
      end
  end.

End IpAddress.

(** ** urlparse: the network location *)

Fixpoint upto_delim (s : string) : string :=
  match s with
  | EmptyString => EmptyString
  | String c s' =>
      if Ascii.eqb c "/" || Ascii.eqb c "?" || Ascii.eqb c "#" then EmptyString
      else String c (upto_delim s')
  end.

(** [re.match(r"\Av[a-fA-F0-9]+\..+\Z", hostname)] for a [hostname] that starts
    with [v]: [s] is what follows the [v], or the hexadecimal digits read so
    far ([digits] says whether there is one). *)
Fixpoint ipvfuture_tail (s : string) (digits : bool) : bool :=
  match s with
  | EmptyString => false
  | String c s' =>
      if IpAddress.is_hex_digit c then ipvfuture_tail s' true
      else digits && Ascii.eqb c "." && negb (String.eqb s' "")
           && negb (PyStr.contains (String "010" EmptyString) s')
  end.

(** [urllib.parse._check_bracketed_host] *)
Definition _check_bracketed_host (hostname : string) : outcome unit :=
  if PyStr.startswith "v" hostname then
    if ipvfuture_tail (PyStr.drop 1 hostname) false then Ok tt
    else Raise (ValueError "IPvFuture address is invalid")
  else
    match IpAddress.ip_address hostname with
    | Ok (IpAddress.IPv4 _) => Raise (ValueError "An IPv4 address cannot be in brackets")
    | Ok (IpAddress.IPv6 _) => Ok tt
    | Raise e => Raise e
    | OutOfFuel => OutOfFuel
    end.

(** [urllib.parse._check_bracketed_netloc] *)
Definition _check_bracketed_netloc (netloc : string) : outcome unit :=
  let hostname_and_port := List.last (PyStr.rsplit1 "@" netloc) "" in
  let '(before_bracket, have_open_br, bracketed) :=
    IpAddress.partition "[" hostname_and_port in
  if have_open_br then
    if negb (String.eqb before_bracket "") then Raise (ValueError "Invalid IPv6 URL")
    else
      let '(hostname, _, port) := IpAddress.partition "]" bracketed in
      if negb (String.eqb port "") && negb (PyStr.startswith ":" port)
      then Raise (ValueError "Invalid IPv6 URL")
      else _check_bracketed_host hostname
  else
    let '(hostname, _, _) := IpAddress.partition ":" hostname_and_port in
    _check_bracketed_host hostname.

(** [urlparse.urlparse(url).netloc] for a [url] that starts with [https://]
    and holds no white space: the text up to the first of [/ ? #].  Square
    brackets in it are checked as [urlsplit] does: one without the other
    raises [ValueError]; with both, what stands between them has to be an
    IPv6 or IPvFuture address, with nothing before the opening bracket and
    only a port after the closing one.  (The NFKC check of [urlsplit] never
    raises on code points below 256.) *)
Definition netloc (url : string) : outcome string :=
  let netloc := upto_delim (PyStr.drop 8 url) in
  let opening := PyStr.contains "[" netloc in
  let closing := PyStr.contains "]" netloc in
  if xorb opening closing then Raise (ValueError "Invalid IPv6 URL")
  else if opening && closing then
    match _check_bracketed_netloc netloc with
    | Ok _ => Ok netloc
    | Raise e => Raise e
    | OutOfFuel => OutOfFuel
    end
  else Ok netloc.

Example netloc_brackets :
  netloc "https://[2001:db8::1]:443/x" = Ok "[2001:db8::1]:443"
  /\ netloc "https://[site].webex.com/meet" = Raise (ValueError "Invalid IPv6 URL")
  /\ netloc "https://[site]/meet"
     = Raise (ValueError "does not appear to be an IPv4 or IPv6 address")
  /\ netloc "https://[192.0.2.1]/"
     = Raise (ValueError "An IPv4 address cannot be in brackets")
  /\ netloc "https://[v1.x/" = Raise (ValueError "Invalid IPv6 URL").
Proof. repeat split; vm_compute; reflexivity. Qed.

Definition allowed_host (n : string) : bool :=
  existsb (String.eqb n)
          ["gotomeet.me"; "www.gotomeet.me"; "global.gotomeeting.com"; "teams.microsoft.com"]
  || PyStr.endswith ".webex.com" n.

Fixpoint first_allowed (urls : list string) : outcome (option string) :=
  match urls with
  | [] => Ok None
  | url :: urls' =>
      match netloc url with
      | Ok n => if allowed_host n then Ok (Some url) else first_allowed urls'
      | Raise e => Raise e
      | OutOfFuel => OutOfFuel
      end
  end.

Definition extract_meetinglink (astring : string) : outcome (option string) :=
  first_allowed (findall_https 0 astring).

Example extract_meetinglink_webex :
  extract_meetinglink "Room A^Join at https://foo.webex.com/meet https://evil.example.com"
  = Ok (Some "https://foo.webex.com/meet").
Proof. vm_compute. reflexivity. Qed.

Example extract_meetinglink_none :
  extract_meetinglink "see https://evil.example.com/teams.microsoft.com or http://teams.microsoft.com/x"
  = Ok None.
Proof. vm_compute. reflexivity. Qed.

(** ** The Flask request and response *)

Record FlaskRequest := {
  args : list (string * string);
  headers : list (string * string);
  data : option Json }.

Record FlaskResponse := { body : string; status : Z; mimetype : option string }.

Definition Response (b : string) (st : Z) : FlaskResponse :=
  {| body := b; status := st; mimetype := None |}.

Fixpoint lookup_arg (k : string) (l : list (string * string)) : option string :=
  match l with
  | [] => None
  | (k', v) :: l' => if String.eqb k' k then Some v else lookup_arg k l'
  end.

(** Header names compare without regard to case. *)
Fixpoint lookup_header (k : string) (l : list (string * string)) : option string :=
  match l with
  | [] => None
  | (k', v) :: l' =>
      if String.eqb (PyStr.lower k') (PyStr.lower k) then Some v else lookup_header k l'
  end.

(** [EnvironHeaders.__getitem__] of werkzeug: the key of the WSGI environ that
    holds the header [k]. *)
Definition environ_key (k : string) : string :=
  let key := PyStr.replace "-" "_" (PyStr.upper k) in
  if existsb (String.eqb key) ["CONTENT_TYPE"; "CONTENT_LENGTH"] then key
  else "HTTP_" +:+ key.

Example environ_key_of_headers :
  environ_key "Authorization" = "HTTP_AUTHORIZATION"
  /\ environ_key "Accept" = "HTTP_ACCEPT"
  /\ environ_key "Content-Type" = "CONTENT_TYPE".
Proof. repeat split; reflexivity. Qed.

(** The record kept per integration key. *)
Record State := {
  authorization : option string;
  calendar_webhook : string;
  email_webhook : string;
  next_sync : DateTime.datetime }.

(** ** Functions that read the same in both variants *)

Section Graph.
Context {S : Type}.
Variable GRAPH_API_URL : string.

(** [request.args[k]] *)
Definition args_getitem (request : FlaskRequest) (k : string) : M S string :=
  match lookup_arg k (args request) with
  | Some v => ret v
  | None => raise (KeyError k)
  end.

(** [request.headers[k]]: werkzeug looks the header up in the WSGI environ
    under [environ_key k], and the [KeyError] of a header that is not there
    carries that key. *)
Definition headers_getitem (request : FlaskRequest) (k : string) : M S string :=
  match lookup_header k (headers request) with
  | Some v => ret v
  | None => raise (KeyError (environ_key k))
  end.

(** [r.json()] *)
Definition response_json (r : HttpResponse) : M S Json :=
  match json r with
  | Some j => ret j
  | None => raise (ValueError "Expecting value")
  end.

(** [requests.get(url, headers=headers)] for a [url] that may be any value *)
Definition requests_get (url : Json) (hd : Headers) : M S HttpResponse :=
  match url with
  | JStr u => requests (GET u hd)
  | _ => raise RequestException
  end.

Definition odata_getone (url : Json) (hd : Headers) : M S (option Json) :=
  r <- requests_get url hd;;
  if negb (ok r) then
    logging WARNING ("Fetch url " +:+ Py.format url +:+ " hit " +:+ PyStr.of_Z (status_code r));;
    ret None
  else
    rjson <- response_json r;;
    has_error <- lift (Py.contains "error" rjson);;
    if has_error then
      logging WARNING ("Fetching of " +:+ Py.format url +:+ " returned error " +:+ text r);;
      ret None
    else ret (Some rjson).

(** The loop of [odata_get]: [url] is the page still to fetch, [all_values]
    what the pages gave so far.  The result is a Python value that the
    callers test against [None]. *)
Fixpoint odata_get_loop (fuel : nat) (url : Json) (hd : Headers) (all_values : list Json)
  : M S (option (list Json)) :=
  if Py.truthy url then
    match fuel with
    | O => out_of_fuel
    | Datatypes.S fuel' =>
        rjson <- odata_getone url hd;;
        match rjson with
        | Some j =>
            if Py.truthy j then
              value <- lift (Py.getitem j "value");;
              items <- lift (Py.iter value);;
              next <- try_except (lift (Py.getitem j "@odata.nextLink"))
                        (fun e => match e with KeyError _ => Some (ret JNull) | _ => None end);;
              odata_get_loop fuel' next hd (all_values ++ items)
            else odata_get_loop fuel' JNull hd all_values
        | None => odata_get_loop fuel' JNull hd all_values
        end
    end
  else ret (Some all_values).

Definition odata_get (fuel : nat) (url : string) (hd : Headers) : M S (option (list Json)) :=
  odata_get_loop fuel (JStr url) hd [].

Definition get_all_users (fuel : nat) (hd : Headers) : M S (list Json) :=
  users <- odata_get fuel (GRAPH_API_URL +:+ "/v1.0/users") hd;;
  match users with
  | None => raise_MiddlewareException "Failed to get users"
  | Some users =>
      for_each_update users (fun user =>
        uid <- lift (Py.getitem user "id");;
        manager <- odata_getone (JStr (GRAPH_API_URL +:+ "/v1.0/users/" +:+ Py.format uid +:+ "/"
                                       +:+ "manager?$select=mail")) hd;;
        has_mail <- match manager with
                    | Some m => if Py.truthy m then lift (Py.contains "mail" m) else ret false
                    | None => ret false
                    end;;
        manager_mail <- match manager with
                        | Some m =>
                            if has_mail then
                              mail <- lift (Py.getitem m "mail");;
                              s <- lift (Py.str_method mail);;
                              ret (PyStr.lower s)
                            else ret ""
                        | None => ret ""
                        end;;
        lift (Py.setitem user "manager_mail" (JStr manager_mail)))
  end.

End Graph.

(** [eventdt < now - timedelta(days=1) or eventdt > now + timedelta(days=n)],
    with the clock read once for each comparison that is evaluated. *)
Definition outside_window {S} (eventdt : DateTime.datetime) (days_to_cache : Z) : M S bool :=
  now <- datetime_now;;
  if eventdt <? now - DateTime.timedelta_days 1 then ret true
  else
    now <- datetime_now;;
    ret (now + DateTime.timedelta_days days_to_cache <? eventdt).

(** [datetime.strptime(s.split('.', 1)[0], '%Y-%m-%dT%H:%M:%S')] *)
Definition parse_start {S} (s : string) : M S DateTime.datetime :=
  match DateTime.strptime (List.hd "" (PyStr.split1 "." s)) with
  | Some t => ret t
  | None => raise (ValueError "time data does not match format")
  end.

(** [json.loads(request.data)]; [None] is a body that is not JSON. *)
Definition json_loads {S} (d : option Json) : M S Json :=
  match d with
  | Some j => ret j
  | None => raise (ValueError "Expecting value")
  end.

(** The text [{"status": "ok"}] *)
Definition dquote : string := String (ascii_of_nat 34) EmptyString.
Definition status_ok : string :=
  "{" +:+ dquote +:+ "status" +:+ dquote +:+ ": " +:+ dquote +:+ "ok" +:+ dquote +:+ "}".

(** [(a, b, c) = l] *)
Definition unpack3 {S} (l : list string) : M S (string * string * string) :=
  match l with
  | [a; b; c] => ret (a, b, c)
  | _ => raise (ValueError "wrong number of values to unpack")
  end.

(** [l[1]] *)
Definition index1 {S} (l : list string) : M S string :=
  match l with
  | _ :: x :: _ => ret x
  | _ => raise IndexError
  end.

(** The key of an integration: [_hkey] and its two parts [hkey[0]], [hkey[1]]. *)
Definition full_hkey (calendar_webhook email_webhook : string) : string :=
  Sha512.hexdigest (utf8_encode (calendar_webhook +:+ email_webhook)).

Definition split_hkey (_hkey : string) : string * string :=
  (PyStr.take 32 _hkey, PyStr.drop 32 _hkey).

(** ** The pass-through call

    The pass-through route sends the incoming request on with
    [requests.request(method, url, data=..., params=..., headers=...)]: a
    call whose method, body and query are the caller's.  It is kept apart
    from the four calls of the middleware's own traffic and is answered by an
    upstream of its own; the route gives, beside its response, the requests
    it has sent. *)
Record Forward := {
  fwd_method : string;
  fwd_url : string;
  fwd_data : option Json;
  fwd_params : list (string * string);
  fwd_headers : Headers }.

(** The answer to a forwarded request: the response, and its [content]. *)
Record Relayed := { response : HttpResponse; content : string }.

(** [x in l] for a list of strings *)
Definition in_list (x : string) (l : list string) : bool := existsb (String.eqb x) l.

(** [o == None] *)
Definition is_none {A} (o : option A) : bool :=
  match o with None => true | Some _ => false end.

(** [not r.ok or r.status_code < 200 or r.status_code > 299] *)
Definition failed_pass_through (r : HttpResponse) : bool :=
  negb (ok r) || (status_code r <? 200) || (299 <? status_code r).

(** * app.py *)

Module App.

Definition SUBSCRIPTION_CALLBACK_URL : string := "https://vs.breker.name".
Definition SUBSCRIPTION_CALLBACK_PATH : string := "handle_subscription_callback".
Definition GRAPH_API_URL : string := "https://graph.microsoft.com/".
Definition HOURS_BETWEEN_FULLSYNC_AND_RESCUBSCRIBE : Z := 23.
Definition HOURS_TO_SUBSCRIBE : Z := 24.
Definition CALENDAR_DAYS_TO_CACHE : Z := 8.

(** [globalstate], a dict in memory *)
Abbreviation Store := (gmap string State).

Definition store_data (hkey : string) (state : State) : M Store unit :=
  globalstate <- get_store;;
  put_store (<[hkey := state]> globalstate).

Definition get_data (hkey : string) : M Store State :=
  globalstate <- get_store;;
  match globalstate !! hkey with
  | Some state => ret state
  | None => raise (KeyError hkey)
  end.

Definition get_headers (authorization : option string) : Headers :=
  [("Authorization", authorization); ("Content-type", Some "application/json")].

Definition parse_event (event owner : Json) (calendar_webhook : string) : M Store unit :=
  start <- lift (Py.getitem event "start");;
  dateTime <- lift (Py.getitem start "dateTime");;
  s <- lift (Py.str_method dateTime);;
  eventdt <- parse_start s;;
  skip <- outside_window eventdt CALENDAR_DAYS_TO_CACHE;;
  if skip then ret tt
  else
    location <- lift (Py.getitem event "location");;
    displayName <- lift (Py.getitem location "displayName");;
    displayName <- lift (Py.str_operand displayName);;
    body <- lift (Py.getitem event "body");;
    content <- lift (Py.getitem body "content");;
    content <- lift (Py.str_operand content);;
    meeting_link <- lift (extract_meetinglink (displayName +:+ "^" +:+ content));;
    event <- lift (Py.update event [("owner", owner);
                                    ("meetingLink", Py.of_option_str meeting_link)]);;
    (* the id goes into a DEBUG record *)
    _ <- lift (Py.getitem event "id");;
    r <- repeat_last 5 (requests (PUT calendar_webhook event)) None;;
    match r with
    | Some r =>
        if negb (ok r)
        then logging WARNING ("Failed to put to " +:+ calendar_webhook +:+ ": " +:+ text r)
        else ret tt
    | None => ret tt
    end.

Definition process_message (globalstateentry : State) (mail manager_mail odata_id : string)
  : M Store unit :=
  let hd := get_headers (authorization globalstateentry) in
  jsondata <- odata_getone (JStr (GRAPH_API_URL +:+ "/v1.0/" +:+ odata_id +:+ "?"
                                  +:+ "$select=id,subject,from,toRecipients,"
                                  +:+ "importance,sentDateTime,webLink,isRead")) hd;;
  match jsondata with
  | Some jsondata =>
      if negb (Py.truthy jsondata) then
        raise_MiddlewareException ("Failed to resolve message in process_message " +:+ odata_id)
      else
        from <- lift (Py.getitem jsondata "from");;
        emailAddress <- lift (Py.getitem from "emailAddress");;
        address <- lift (Py.getitem emailAddress "address");;
        address <- lift (Py.str_method address);;
        let is_from_manager := String.eqb manager_mail (PyStr.lower address) in
        skip <- (if is_from_manager then ret false
                 else importance <- lift (Py.getitem jsondata "importance");;
                      ret (negb (Py.eq_str importance "high")));;
        if skip then ret tt
        else
          jsondata <- lift (Py.update jsondata [("owner", JStr mail);
                                                ("is_from_manager", JBool is_from_manager)]);;
          _ <- lift (Py.getitem jsondata "id");;
          r <- repeat_last 5 (requests (PUT (email_webhook globalstateentry) jsondata)) None;;
          match r with
          | Some r =>
              if negb (ok r)
              then logging WARNING ("Failed to put to " +:+ email_webhook globalstateentry
                                    +:+ ": " +:+ text r)
              else ret tt
          | None => ret tt
          end
  | None =>
      raise_MiddlewareException ("Failed to resolve message in process_message " +:+ odata_id)
  end.

Definition process_event (globalstateentry : State) (mail odata_id : string) : M Store unit :=
  let hd := get_headers (authorization globalstateentry) in
  jsondata <- odata_getone (JStr (GRAPH_API_URL +:+ "/v1.0/" +:+ odata_id +:+ "?"
                                  +:+ "$select=id,subject,location,organizer,start,"
                                  +:+ "end,weblink,responsestatus,body,attendees,"
                                  +:+ "isCancelled")) hd;;
  match jsondata with
  | Some jsondata =>
      if negb (Py.truthy jsondata) then
        raise_MiddlewareException ("Failed to resolve event in process_event " +:+ odata_id)
      else parse_event jsondata (JStr mail) (calendar_webhook globalstateentry)
  | None =>
      raise_MiddlewareException ("Failed to resolve event in process_event " +:+ odata_id)
  end.

Definition update_calendar (fuel : nat) (authorization : option string) (users : list Json)
    (calendar_webhook : string) : M Store unit :=
  startdatetime <- datetime_now;;
  let startdatetime_iso := DateTime.isoformat startdatetime in
  let enddatetime := startdatetime + DateTime.timedelta_days CALENDAR_DAYS_TO_CACHE in
  let enddatetime_iso := DateTime.isoformat enddatetime in
  let hd := get_headers authorization in
  for_each users (fun user =>
    uid <- lift (Py.getitem user "id");;
    events <- odata_get fuel ("https://graph.microsoft.com/v1.0/"
                              +:+ "users/" +:+ Py.format uid +:+ "/calendarview?"
                              +:+ "startdatetime=" +:+ startdatetime_iso
                              +:+ "&enddatetime=" +:+ enddatetime_iso
                              +:+ "&select=id,subject,location,organizer,start,"
                              +:+ "end,weblink,responsestatus,body,attendees,"
                              +:+ "isCancelled") hd;;
    match events with
    | None => logging ERROR "Failed to get events user user {user['id']}"
    | Some events =>
        logging WARNING ("Got " +:+ PyStr.of_Z (Z.of_nat (length events)) +:+ " events");;
        for_each events (fun event =>
          mail <- lift (Py.getitem user "mail");;
          parse_event event mail calendar_webhook)
    end).

Definition wipe_subscriptions (fuel : nat) (authorization : option string) : M Store unit :=
  let hd := get_headers authorization in
  subscriptions <- odata_get fuel (GRAPH_API_URL +:+ "/v1.0/subscriptions/?"
                                   +:+ "select=id,notificationUrl") hd;;
  match subscriptions with
  | None => raise_MiddlewareException "Failed to wipe subscriptions"
  | Some subscriptions =>
      for_each subscriptions (fun subscription =>
        notificationUrl <- lift (Py.getitem subscription "notificationUrl");;
        notificationUrl <- lift (Py.str_method notificationUrl);;
        if negb (PyStr.startswith SUBSCRIPTION_CALLBACK_URL notificationUrl) then ret tt
        else
          id <- lift (Py.getitem subscription "id");;
          r <- requests (DELETE (GRAPH_API_URL +:+ "/v1.0/subscriptions/" +:+ Py.format id) hd);;
          if negb (ok r) then
            raise_MiddlewareException ("Failed to delete subscription "
                                       +:+ Py.format id +:+ " due to "
                                       +:+ PyStr.of_Z (status_code r))
          else ret tt)
  end.

(** The body of one subscription request. *)
Definition subscription_data (hkey : string * string) (subscription uid mail manager_mail
    untilstring resource_end : string) : Json :=
  JObj [("changeType", JStr "created,updated,deleted");
        ("notificationUrl", JStr (SUBSCRIPTION_CALLBACK_URL +:+ "/" +:+
                                  SUBSCRIPTION_CALLBACK_PATH +:+ "/" +:+
                                  subscription +:+ "/" +:+ snd hkey));
        ("resource", JStr ("/users/" +:+ uid +:+ "/" +:+ subscription +:+ resource_end));
        ("expirationDateTime", JStr untilstring);
        ("clientState", JStr (fst hkey +:+ "^" +:+ mail +:+ "^" +:+ manager_mail))].

Definition register_subscriptions (authorization : option string) (hkey : string * string)
    (users : list Json) (calendar_webhook email_webhook : string) : M Store unit :=
  let hd := get_headers authorization in
  now <- datetime_now;;
  let future := now + DateTime.timedelta_hours HOURS_TO_SUBSCRIBE in
  let untilstring := DateTime.strftime_graph future in
  for_each users (fun user =>
    for_each ["messages"; "events"] (fun subscription =>
      uid <- lift (Py.getitem user "id");;
      mail <- lift (Py.getitem user "mail");;
      mail_str <- lift (Py.str_operand mail);;
      manager_mail <- lift (Py.getitem user "manager_mail");;
      manager_mail <- lift (Py.str_operand manager_mail);;
      let data := subscription_data hkey subscription (Py.format uid) mail_str manager_mail
                                    untilstring "/" in
      r <- requests (POST (GRAPH_API_URL +:+ "/v1.0/subscriptions") hd data);;
      if negb (ok r) then
        logging WARNING ("Unable to subscribe " +:+ Py.format mail +:+ " for "
                         +:+ subscription +:+ ": " +:+ text r)
      else ret tt)).

Definition trigger_middleware (fuel : nat) (request : FlaskRequest) : M Store FlaskResponse :=
  calendar_webhook <- args_getitem request "calendar_webhook";;
  email_webhook <- args_getitem request "email_webhook";;
  let _hkey := full_hkey calendar_webhook email_webhook in
  let hkey := split_hkey _hkey in
  (* the local [next_sync] is [None] where the code has 0 *)
  next_sync <- try_except (state <- get_data _hkey;; ret (Some (next_sync state)))
                 (fun e => match e with KeyError _ => Some (ret None) | _ => None end);;
  let authorization := lookup_header "Authorization" (headers request) in
  (* [request.args.get(k)] is the value that [request.args[k]] gave above *)
  let resync :=
    (let hd := get_headers authorization in
     users <- get_all_users GRAPH_API_URL fuel hd;;
     update_calendar fuel authorization users calendar_webhook;;
     wipe_subscriptions fuel authorization;;
     register_subscriptions authorization hkey users calendar_webhook email_webhook;;
     now <- datetime_now;;
     ret (now + DateTime.timedelta_hours HOURS_BETWEEN_FULLSYNC_AND_RESCUBSCRIBE)) in
  next_sync <- match next_sync with
               | None => resync
               | Some t =>
                   now <- datetime_now;;
                   if t <=? now then resync else ret t
               end;;
  let state := {| authorization := authorization;
                  calendar_webhook := calendar_webhook;
                  email_webhook := email_webhook;
                  next_sync := next_sync |} in
  store_data _hkey state;;
  ret (Response status_ok 200).

Definition _handle_subscription_callback_value (subscription hkey1 : string) (value : Json)
  : M Store (option FlaskResponse) :=
  client_state <- lift (Py.getitem value "clientState");;
  client_state <- lift (Py.str_method client_state);;
  '(hkey0, mail, manager_mail) <- unpack3 (PyStr.split "^" client_state);;
  let hkey := hkey0 +:+ hkey1 in
  globalstateentry <- try_except (state <- get_data hkey;; ret (Some state))
                        (fun e => match e with
                                  | KeyError _ =>
                                      Some (logging WARNING ("Received unexpected hkey " +:+ hkey);;
                                            ret None)
                                  | _ => None
                                  end);;
  match globalstateentry with
  | None => ret (Some (Response "" 202))
  | Some globalstateentry =>
      resourceData <- lift (Py.getitem value "resourceData");;
      odata_id <- lift (Py.getitem resourceData "@odata.id");;
      odata_id <- lift (Py.str_method odata_id);;
      shortid <- index1 (PyStr.rsplit1 "/" odata_id);;
      if String.eqb subscription "messages" then
        changeType <- lift (Py.getitem value "changeType");;
        if Py.eq_str changeType "deleted" then
          requests (DELETE (email_webhook globalstateentry +:+ "/?id=" +:+ shortid) []);;
          ret None
        else
          process_message globalstateentry mail manager_mail odata_id;;
          ret None
      else if String.eqb subscription "events" then
        changeType <- lift (Py.getitem value "changeType");;
        if Py.eq_str changeType "deleted" then
          requests (DELETE (calendar_webhook globalstateentry +:+ "/?id=" +:+ shortid) []);;
          ret None
        else
          process_event globalstateentry mail odata_id;;
          ret None
      else raise_MiddlewareException "Unknown subscription type"
  end.

Definition handle_subscription_callback (subscription hkey1 : string) (request : FlaskRequest)
  : M Store FlaskResponse :=
  match lookup_arg "validationToken" (args request) with
  | Some validationToken =>
      ret {| body := validationToken; status := 200;
             mimetype := Some "text/plain; charset=utf-8" |}
  | None =>
      jsonbody <- json_loads (data request);;
      value <- lift (Py.getitem jsonbody "value");;
      values <- lift (Py.iter value);;
      for_each values (fun value =>
        try_except (_handle_subscription_callback_value subscription hkey1 value;; ret tt)
          (fun e => match e with MiddlewareException _ => Some (ret tt) | _ => None end));;
      ret (Response "" 202)
  end.

(** [request.method] is the parameter [request_method]; [pathsplit[0]]
    always exists, a split being never empty. *)
Definition pass_through (upstream : Forward -> Relayed) (request_method path : string)
    (request : FlaskRequest) : M Store (FlaskResponse * list Forward) :=
  let pathsplit := PyStr.split1 "/" path in
  if (length pathsplit <? 2)%nat
     || negb (in_list (List.hd "" pathsplit) ["v1.0"; "beta"])
     || is_none (lookup_header "Authorization" (headers request))
  then
    logging WARNING ("Ignoring unknown forwarding request for " +:+ path);;
    ret (Response "" 503, [])
  else
    let sent := {| fwd_method := request_method;
                   fwd_url := GRAPH_API_URL +:+ "/" +:+ path;
                   fwd_data := data request;
                   fwd_params := args request;
                   fwd_headers := map (fun kv => (fst kv, Some (snd kv))) (headers request) |} in
    let r := upstream sent in
    (if failed_pass_through (response r) then
       logging WARNING ("Failed pass-through of " +:+ request_method +:+ " to " +:+ path
                        +:+ " with " +:+ PyStr.of_Z (status_code (response r)) +:+ " "
                        +:+ "due to " +:+ text (response r))
     else ret tt);;
    ret (Response (content r) (status_code (response r)), [sent]).

End App.

(** * application.py *)

Module Application.

Definition SUBSCRIPTION_CALLBACK_URL : string := "https://<app_name>.azurewebsites.net".
Definition SUBSCRIPTION_CALLBACK_PATH : string := "handle_subscription_callback".
Definition GRAPH_API_URL : string := "https://graph.microsoft.com".
Definition GLOBAL_STATE_PATH : string := "globalstate.pkl".
Definition HOURS_BETWEEN_FULLSYNC_AND_RESCUBSCRIBE : Z := 23.
Definition HOURS_TO_SUBSCRIBE : Z := 24.
Definition CALENDAR_DAYS_TO_CACHE : Z := 8.

(** The pickle file [globalstate.pkl]: absent, or holding a dict.  Failures of
    the file system other than the file being absent are not modelled. *)
Abbreviation Store := (option (gmap string State)).

Definition store_data (hkey : string) (state : State) : M Store unit :=
  gs_file <- get_store;;
  let data := match gs_file with
              | Some data => <[hkey := state]> data
              | None => <[hkey := state]> ∅
              end in
  put_store (Some data).

(** The result is [None] for the empty dict given when the file is absent. *)
Definition get_data (hkey : string) : M Store (option State) :=
  gs_file <- get_store;;
  match gs_file with
  | Some data =>
      match data !! hkey with
      | Some state => ret (Some state)
      | None => raise (KeyError hkey)
      end
  | None => ret None
  end.

Definition get_headers (request : FlaskRequest) : M Store Headers :=
  authorization <- headers_getitem request "Authorization";;
  accept <- headers_getitem request "Accept";;
  content_type <- headers_getitem request "Content-Type";;
  ret [("Authorization", Some authorization);
       ("Accept", Some accept);
       ("Content-Type", Some content_type)].

Definition parse_event (event owner : Json) (calendar_webhook : string) : M Store unit :=
  start <- lift (Py.getitem event "start");;
  dateTime <- lift (Py.getitem start "dateTime");;
  s <- lift (Py.str_method dateTime);;
  eventdt <- parse_start s;;
  skip <- outside_window eventdt CALENDAR_DAYS_TO_CACHE;;
  if skip then ret tt
  else
    location <- lift (Py.getitem event "location");;
    displayName <- lift (Py.getitem location "displayName");;
    displayName <- lift (Py.str_operand displayName);;
    body <- lift (Py.getitem event "body");;
    content <- lift (Py.getitem body "content");;
    content <- lift (Py.str_operand content);;
    meeting_link <- lift (extract_meetinglink (displayName +:+ "^" +:+ content));;
    event <- lift (Py.update event [("owner", owner);
                                    ("meetingLink", Py.of_option_str meeting_link)]);;
    (* the id goes into a DEBUG record *)
    _ <- lift (Py.getitem event "id");;
    r <- requests (PUT calendar_webhook event);;
    if negb (ok r)
    then logging WARNING ("Failed to put to " +:+ calendar_webhook +:+ ": " +:+ text r)
    else ret tt.

Definition state_headers (globalstateentry : State) : Headers :=
  [("Authorization", authorization globalstateentry);
   ("Content-type", Some "application/json")].

Definition process_message (globalstateentry : State) (mail manager_mail odata_id : string)
  : M Store unit :=
  let hd := state_headers globalstateentry in
  jsondata <- odata_getone (JStr (GRAPH_API_URL +:+ "/v1.0/" +:+ odata_id +:+ "?"
                                  +:+ "$select=id,subject,from,toRecipients,"
                                  +:+ "importance,sentDateTime,webLink,isRead")) hd;;
  match jsondata with
  | Some jsondata =>
      if negb (Py.truthy jsondata) then
        raise_MiddlewareException ("Failed to resolve message in process_message " +:+ odata_id)
      else
        from <- lift (Py.getitem jsondata "from");;
        emailAddress <- lift (Py.getitem from "emailAddress");;
        address <- lift (Py.getitem emailAddress "address");;
        address <- lift (Py.str_method address);;
        let is_from_manager := String.eqb manager_mail (PyStr.lower address) in
        skip <- (if is_from_manager then ret false
                 else importance <- lift (Py.getitem jsondata "importance");;
                      ret (negb (Py.eq_str importance "high")));;
        if skip then ret tt
        else
          jsondata <- lift (Py.update jsondata [("owner", JStr mail);
                                                ("is_from_manager", JBool is_from_manager)]);;
          _ <- lift (Py.getitem jsondata "id");;
          r <- requests (PUT (email_webhook globalstateentry) jsondata);;
          if negb (ok r)
          then logging WARNING ("Failed to put to " +:+ email_webhook globalstateentry
                                +:+ ": " +:+ text r)
          else ret tt
  | None =>
      raise_MiddlewareException ("Failed to resolve message in process_message " +:+ odata_id)
  end.

Definition process_event (globalstateentry : State) (mail odata_id : string) : M Store unit :=
  let hd := state_headers globalstateentry in
  jsondata <- odata_getone (JStr (GRAPH_API_URL +:+ "/v1.0/" +:+ odata_id +:+ "?"
                                  +:+ "$select=id,subject,location,organizer,start,"
                                  +:+ "end,weblink,responsestatus,body,attendees,"
                                  +:+ "isCancelled")) hd;;
  match jsondata with
  | Some jsondata =>
      if negb (Py.truthy jsondata) then
        raise_MiddlewareException ("Failed to resolve event in process_event " +:+ odata_id)
      else parse_event jsondata (JStr mail) (calendar_webhook globalstateentry)
  | None =>
      raise_MiddlewareException ("Failed to resolve event in process_event " +:+ odata_id)
  end.

Definition update_calendar (fuel : nat) (hd : Headers) (users : list Json)
    (calendar_webhook : string) : M Store unit :=
  startdatetime <- datetime_now;;
  let startdatetime_iso := DateTime.isoformat startdatetime in
  let enddatetime := startdatetime + DateTime.timedelta_days CALENDAR_DAYS_TO_CACHE in
  let enddatetime_iso := DateTime.isoformat enddatetime in
  for_each users (fun user =>
    uid <- lift (Py.getitem user "id");;
    events <- odata_get fuel ("https://graph.microsoft.com/v1.0/"
                              +:+ "users/" +:+ Py.format uid +:+ "/calendarview?"
                              +:+ "startdatetime=" +:+ startdatetime_iso
                              +:+ "&enddatetime=" +:+ enddatetime_iso
                              +:+ "&select=id,subject,location,organizer,start,"
                              +:+ "end,weblink,responsestatus,body,attendees,"
                              +:+ "isCancelled") hd;;
    match events with
    | None => logging ERROR "Failed to get events user user {user['id']}"
    | Some events =>
        for_each events (fun event =>
          mail <- lift (Py.getitem user "mail");;
          parse_event event mail calendar_webhook)
    end).

Definition wipe_subscriptions (fuel : nat) (hd : Headers) : M Store unit :=
  subscriptions <- odata_get fuel (GRAPH_API_URL +:+ "/v1.0/subscriptions/?"
                                   +:+ "select=id,notificationUrl") hd;;
  match subscriptions with
  | None => raise_MiddlewareException "Failed to wipe subscriptions"
  | Some subscriptions =>
      for_each subscriptions (fun subscription =>
        notificationUrl <- lift (Py.getitem subscription "notificationUrl");;
        notificationUrl <- lift (Py.str_method notificationUrl);;
        if negb (PyStr.startswith SUBSCRIPTION_CALLBACK_URL notificationUrl) then ret tt
        else
          id <- lift (Py.getitem subscription "id");;
          r <- requests (DELETE (GRAPH_API_URL +:+ "/v1.0/subscriptions/" +:+ Py.format id) hd);;
          if negb (ok r) then
            raise_MiddlewareException ("Failed to delete subscription "
                                       +:+ Py.format id +:+ " due to "
                                       +:+ PyStr.of_Z (status_code r))
          else ret tt)
  end.

Definition subscription_data (hkey : string * string) (subscription uid mail manager_mail
    untilstring : string) : Json :=
  JObj [("changeType", JStr "created,updated,deleted");
        ("notificationUrl", JStr (SUBSCRIPTION_CALLBACK_URL +:+ "/" +:+
                                  SUBSCRIPTION_CALLBACK_PATH +:+ "/" +:+
                                  subscription +:+ "/" +:+ snd hkey));
        ("resource", JStr ("/users/" +:+ uid +:+ "/" +:+ subscription));
        ("expirationDateTime", JStr untilstring);
        ("clientState", JStr (fst hkey +:+ "^" +:+ mail +:+ "^" +:+ manager_mail))].

Definition is_None (j : Json) : bool :=
  match j with JNull => true | _ => false end.

Definition register_subscriptions (hd : Headers) (hkey : string * string)
    (users : list Json) (calendar_webhook email_webhook : string) : M Store unit :=
  now <- datetime_now;;
  let future := now + DateTime.timedelta_hours HOURS_TO_SUBSCRIBE in
  let untilstring := DateTime.strftime_graph future in
  for_each users (fun user =>
    mail <- lift (Py.getitem user "mail");;
    if is_None mail then ret tt
    else
      for_each ["messages"; "events"] (fun subscription =>
        uid <- lift (Py.getitem user "id");;
        mail <- lift (Py.getitem user "mail");;
        mail_str <- lift (Py.str_operand mail);;
        manager_mail <- lift (Py.getitem user "manager_mail");;
        manager_mail <- lift (Py.str_operand manager_mail);;
        let data := subscription_data hkey subscription (Py.format uid) mail_str manager_mail
                                      untilstring in
        r <- requests (POST (GRAPH_API_URL +:+ "/v1.0/subscriptions") hd data);;
        if negb (ok r) then
          logging WARNING ("Unable to subscribe " +:+ Py.format mail +:+ " for "
                           +:+ subscription +:+ ": " +:+ text r)
        else ret tt)).

Definition trigger_middleware (fuel : nat) (request : FlaskRequest) : M Store FlaskResponse :=
  calendar_webhook <- args_getitem request "calendar_webhook";;
  email_webhook <- args_getitem request "email_webhook";;
  let _hkey := full_hkey calendar_webhook email_webhook in
  let hkey := split_hkey _hkey in
  (* the local [next_sync] is [None] where the code has 0 *)
  next_sync <- try_except
                 (state <- get_data _hkey;;
                  match state with
                  | Some state => ret (Some (next_sync state))
                  | None => raise (KeyError "next_sync")
                  end)
                 (fun e => match e with
                           | KeyError _ =>
                               Some (logging WARNING
                                       ("Received unexpected hkey "
                                        +:+ Py.repr (JList [JStr (fst hkey); JStr (snd hkey)]));;
                                     ret None)
                           | _ => None
                           end);;
  let bearer_token := lookup_header "Authorization" (headers request) in
  (* [request.args.get(k)] is the value that [request.args[k]] gave above *)
  let resync :=
    (hd <- get_headers request;;
     users <- get_all_users GRAPH_API_URL fuel hd;;
     update_calendar fuel hd users calendar_webhook;;
     wipe_subscriptions fuel hd;;
     register_subscriptions hd hkey users calendar_webhook email_webhook;;
     now <- datetime_now;;
     ret (now + DateTime.timedelta_hours HOURS_BETWEEN_FULLSYNC_AND_RESCUBSCRIBE)) in
  next_sync <- match next_sync with
               | None => resync
               | Some t =>
                   now <- datetime_now;;
                   if t <=? now then resync else ret t
               end;;
  let state := {| authorization := bearer_token;
                  calendar_webhook := calendar_webhook;
                  email_webhook := email_webhook;
                  next_sync := next_sync |} in
  store_data _hkey state;;
  ret (Response status_ok 200).

Definition _handle_subscription_callback_value (subscription hkey1 : string) (value : Json)
  : M Store (option FlaskResponse) :=
  client_state <- lift (Py.getitem value "clientState");;
  client_state <- lift (Py.str_method client_state);;
  '(hkey0, mail, manager_mail) <- unpack3 (PyStr.split "^" client_state);;
  let hkey := hkey0 +:+ hkey1 in
  globalstateentry <- try_except
                        (state <- get_data hkey;;
                         match state with
                         | Some state => ret (Some state)
                         | None =>
                             raise_MiddlewareException
                               (GLOBAL_STATE_PATH +:+ " is empty "
                                +:+ "at point of receiving webhook callback")
                         end)
                        (fun e => match e with
                                  | KeyError _ =>
                                      Some (logging WARNING ("Received unexpected hkey " +:+ hkey);;
                                            ret None)
                                  | _ => None
                                  end);;
  match globalstateentry with
  | None => ret (Some (Response "" 202))
  | Some globalstateentry =>
      resourceData <- lift (Py.getitem value "resourceData");;
      odata_id <- lift (Py.getitem resourceData "@odata.id");;
      odata_id <- lift (Py.str_method odata_id);;
      shortid <- index1 (PyStr.rsplit1 "/" odata_id);;
      if String.eqb subscription "messages" then
        changeType <- lift (Py.getitem value "changeType");;
        if Py.eq_str changeType "deleted" then
          requests (DELETE (email_webhook globalstateentry +:+ "/?id=" +:+ shortid) []);;
          ret None
        else
          process_message globalstateentry mail manager_mail odata_id;;
          ret None
      else if String.eqb subscription "events" then
        changeType <- lift (Py.getitem value "changeType");;
        if Py.eq_str changeType "deleted" then
          requests (DELETE (calendar_webhook globalstateentry +:+ "/?id=" +:+ shortid) []);;
          ret None
        else
          process_event globalstateentry mail odata_id;;
          ret None
      else raise_MiddlewareException "Unknown subscription type"
  end.

Definition handle_subscription_callback (subscription hkey1 : string) (request : FlaskRequest)
  : M Store FlaskResponse :=
  match lookup_arg "validationToken" (args request) with
  | Some validationToken =>
      ret {| body := validationToken; status := 200;
             mimetype := Some "text/plain; charset=utf-8" |}
  | None =>
      jsonbody <- json_loads (data request);;
      value <- lift (Py.getitem jsonbody "value");;
      values <- lift (Py.iter value);;
      for_each values (fun value =>
        try_except (_handle_subscription_callback_value subscription hkey1 value;; ret tt)
          (fun e => match e with MiddlewareException _ => Some (ret tt) | _ => None end));;
      ret (Response "" 202)
  end.

(** [request.method] is the parameter [request_method]; [pathsplit[0]]
    always exists, a split being never empty. *)
Definition pass_through (upstream : Forward -> Relayed) (request_method path : string)
    (request : FlaskRequest) : M Store (FlaskResponse * list Forward) :=
  let pathsplit := PyStr.split1 "/" path in
  let authorization := lookup_header "Authorization" (headers request) in
  if (length pathsplit <? 2)%nat
     || negb (in_list (List.hd "" pathsplit) ["v1.0"; "beta"])
     || is_none authorization
  then
    logging WARNING ("Ignoring unknown forwarding request for " +:+ path);;
    ret (Response (Py.format (Py.of_option_str authorization)) 503, [])
  else
    hd <- get_headers request;;
    let sent := {| fwd_method := request_method;
                   fwd_url := GRAPH_API_URL +:+ "/" +:+ path;
                   fwd_data := data request;
                   fwd_params := args request;
                   fwd_headers := hd |} in
    let r := upstream sent in
    (if failed_pass_through (response r) then
       logging WARNING ("Failed pass-through of " +:+ request_method +:+ " to " +:+ path
                        +:+ " with " +:+ PyStr.of_Z (status_code (response r)) +:+ " "
                        +:+ "due to " +:+ text (response r))
     else ret tt);;
    ret (Response (content r) (status_code (response r)), [sent]).

End Application.

(** * Properties *)

Arguments full_hkey : simpl never.
Arguments Sha512.hexdigest : simpl never.
Arguments extract_meetinglink : simpl never.
Arguments DateTime.strptime : simpl never.
Arguments DateTime.isoformat : simpl never.
Arguments DateTime.strftime_graph : simpl never.
Arguments PyStr.of_Z : simpl never.
Arguments PyStr.lower : simpl never.
Arguments Py.format : simpl never.
Arguments Py.repr : simpl never.

(** ** The correlation key codec *)

(** [derive] of the specification: the two parts of the key of a pair of
    webhook URLs, as [trigger_middleware] computes them. *)
Definition derive (calendar_webhook email_webhook : string) : string * string :=
  split_hkey (full_hkey calendar_webhook email_webhook).

Section Codec.

Lemma append_cons (c : ascii) (s t : string) : String c s +:+ t = String c (s +:+ t).
Proof. reflexivity. Qed.

Lemma take_drop (n : nat) (s : string) : PyStr.take n s +:+ PyStr.drop n s = s.
Proof.
  revert s; induction n as [|n IH]; intros [|c s]; simpl; try reflexivity.
  rewrite append_cons. f_equal. apply IH.
Qed.

Lemma len_take (n : nat) (s : string) : PyStr.len (PyStr.take n s) = Nat.min n (PyStr.len s).
Proof.
  revert s; induction n as [|n IH]; intros [|c s]; simpl; try reflexivity.
  unfold PyStr.len in *; simpl. now rewrite IH.
Qed.

Lemma len_drop (n : nat) (s : string) : PyStr.len (PyStr.drop n s) = (PyStr.len s - n)%nat.
Proof.
  revert s; induction n as [|n IH]; intros [|c s]; simpl; try reflexivity.
  unfold PyStr.len in *; simpl. now rewrite IH.
Qed.

Lemma len_hexdigest (msg : list Z) : PyStr.len (Sha512.hexdigest msg) = 128%nat.
Proof.
  unfold Sha512.hexdigest, Sha512.hex_of_state, Sha512.hex64.
  generalize (Sha512.digest_state msg); intros st. reflexivity.
Qed.

Lemma full_hkey_concat (a b a' b' : string) :
  a +:+ b = a' +:+ b' -> full_hkey a b = full_hkey a' b'.
Proof. unfold full_hkey; intros ->; reflexivity. Qed.

(** *** The key keeps the whole digest *)

(** The value of a hexadecimal digit of [hexdigest]. *)
Definition unhex (c : ascii) : Z :=
  let n := PyStr.ord c in if n <=? 57 then n - 48 else n - 87.

Lemma unhex_nib (x i : Z) : unhex (Sha512.nib x i) = Z.land (Z.shiftr x (4 * i)) 15.
Proof.
  unfold Sha512.nib. change 15 with (Z.ones 4). rewrite Z.land_ones by lia.
  pose proof (Z.mod_pos_bound (Z.shiftr x (4 * i)) (2 ^ 4) ltac:(lia)) as Hb.
  set (d := Z.shiftr x (4 * i) mod 2 ^ 4) in *.
  assert (Hd : d = 0 \/ d = 1 \/ d = 2 \/ d = 3 \/ d = 4 \/ d = 5 \/ d = 6 \/ d = 7 \/ d = 8
               \/ d = 9 \/ d = 10 \/ d = 11 \/ d = 12 \/ d = 13 \/ d = 14 \/ d = 15) by lia.
  clearbody d. repeat (destruct Hd as [-> | Hd]; [reflexivity|]). subst d. reflexivity.
Qed.

(** A 64-bit word is known by its sixteen groups of four bits. *)
Lemma word_by_nibbles (x y : Z) :
  Sha512.w64 x = x -> Sha512.w64 y = y ->
  (forall i, 0 <= i < 16 ->
             Z.land (Z.shiftr x (4 * i)) 15 = Z.land (Z.shiftr y (4 * i)) 15) ->
  x = y.
Proof.
  intros Hx Hy H. apply Z.bits_inj'. intros n Hn.
  destruct (Z.lt_ge_cases n 64) as [Hlt|Hge].
  - pose proof (Z.mod_pos_bound n 4 ltac:(lia)) as Hj.
    pose proof (Z.div_mod n 4 ltac:(lia)) as Hdm.
    assert (Hi : 0 <= n / 4 < 16)
      by (split; [apply Z.div_pos; lia|apply Z.div_lt_upper_bound; lia]).
    specialize (H (n / 4) Hi).
    apply (f_equal (fun z => Z.testbit z (n mod 4))) in H.
    rewrite !Z.land_spec, !Z.shiftr_spec in H by lia.
    replace (n mod 4 + 4 * (n / 4)) with n in H by lia.
    assert (Hbit : Z.testbit 15 (n mod 4) = true).
    { assert (Hc : n mod 4 = 0 \/ n mod 4 = 1 \/ n mod 4 = 2 \/ n mod 4 = 3) by lia.
      destruct Hc as [-> | [-> | [-> | ->]]]; reflexivity. }
    rewrite Hbit, !andb_true_r in H. exact H.
  - rewrite <- Hx, <- Hy. unfold Sha512.w64, Sha512.mask64.
    rewrite !Z.land_spec, Z.ones_spec_high by lia. now rewrite !andb_false_r.
Qed.

Lemma hex64_inj (x y : Z) (r r' : string) :
  Sha512.w64 x = x -> Sha512.w64 y = y ->
  Sha512.hex64 x r = Sha512.hex64 y r' -> x = y /\ r = r'.
Proof.
  intros Hx Hy H. unfold Sha512.hex64 in H.
  injection H as E15 E14 E13 E12 E11 E10 E9 E8 E7 E6 E5 E4 E3 E2 E1 E0 Hr.
  split; [|exact Hr]. apply (word_by_nibbles x y Hx Hy). intros i Hi.
  assert (Hc : i = 0 \/ i = 1 \/ i = 2 \/ i = 3 \/ i = 4 \/ i = 5 \/ i = 6 \/ i = 7 \/ i = 8
               \/ i = 9 \/ i = 10 \/ i = 11 \/ i = 12 \/ i = 13 \/ i = 14 \/ i = 15) by lia.
  rewrite <- !unhex_nib.
  repeat (destruct Hc as [-> | Hc]; [congruence|]). subst i. congruence.
Qed.

(** The eight words of a chaining value are 64-bit words. *)
Definition word_state (s : Sha512.hstate) : Prop :=
  Sha512.w64 (Sha512.ha s) = Sha512.ha s /\ Sha512.w64 (Sha512.hb s) = Sha512.hb s
  /\ Sha512.w64 (Sha512.hc s) = Sha512.hc s /\ Sha512.w64 (Sha512.hd s) = Sha512.hd s
  /\ Sha512.w64 (Sha512.he s) = Sha512.he s /\ Sha512.w64 (Sha512.hf s) = Sha512.hf s
  /\ Sha512.w64 (Sha512.hg s) = Sha512.hg s /\ Sha512.w64 (Sha512.hh s) = Sha512.hh s.

Lemma w64_idem (z : Z) : Sha512.w64 (Sha512.w64 z) = Sha512.w64 z.
Proof. unfold Sha512.w64. now rewrite <- Z.land_assoc, Z.land_diag. Qed.

Lemma compress_words (s : Sha512.hstate) (block : list Z) :
  word_state (Sha512.compress s block).
Proof.
  unfold Sha512.compress, word_state. cbv zeta.
  cbn [Sha512.ha Sha512.hb Sha512.hc Sha512.hd Sha512.he Sha512.hf Sha512.hg Sha512.hh].
  unfold Sha512.add64. repeat split; apply w64_idem.
Qed.

Lemma blocks_words (n : nat) (bs : list Z) (s : Sha512.hstate) :
  word_state s -> word_state (Sha512.blocks n bs s).
Proof.
  revert bs s. induction n as [|n IH]; intros bs s Hs; cbn [Sha512.blocks]; [exact Hs|].
  apply IH, compress_words.
Qed.

Lemma digest_state_words (msg : list Z) : word_state (Sha512.digest_state msg).
Proof.
  unfold Sha512.digest_state. cbv zeta. apply blocks_words.
  repeat split; reflexivity.
Qed.

(** [hexdigest] gives different texts for different digests. *)
Lemma hex_of_state_inj (s t : Sha512.hstate) :
  word_state s -> word_state t ->
  Sha512.hex_of_state s = Sha512.hex_of_state t -> s = t.
Proof.
  intros (Sa & Sb & Sc & Sd & Se & Sf & Sg & Sh) (Ta & Tb & Tc & Td & Te & Tf & Tg & Th) H.
  unfold Sha512.hex_of_state in H.
  apply hex64_inj in H as [Ea H]; [|assumption|assumption].
  apply hex64_inj in H as [Eb H]; [|assumption|assumption].
  apply hex64_inj in H as [Ec H]; [|assumption|assumption].
  apply hex64_inj in H as [Ed H]; [|assumption|assumption].
  apply hex64_inj in H as [Ee H]; [|assumption|assumption].
  apply hex64_inj in H as [Ef H]; [|assumption|assumption].
  apply hex64_inj in H as [Eg H]; [|assumption|assumption].
  apply hex64_inj in H as [Eh _]; [|assumption|assumption].
  destruct s, t. cbn in *. congruence.
Qed.

(** The two parts of the key are the same for two pairs exactly when SHA-512
    gives the two concatenations the same digest: neither the hexadecimal
    text nor the cut in two parts loses anything. *)
Lemma derive_eq_digest (a b a' b' : string) :
  derive a b = derive a' b'
  <-> Sha512.digest_state (utf8_encode (a +:+ b))
      = Sha512.digest_state (utf8_encode (a' +:+ b')).
Proof.
  unfold derive, split_hkey, full_hkey. split.
  - intros H. pose proof (f_equal fst H) as Ht. pose proof (f_equal snd H) as Hd.
    cbn [fst snd] in Ht, Hd.
    apply hex_of_state_inj; [apply digest_state_words|apply digest_state_words|].
    change (Sha512.hexdigest (utf8_encode (a +:+ b))
            = Sha512.hexdigest (utf8_encode (a' +:+ b'))).
    rewrite <- (take_drop 32 (Sha512.hexdigest (utf8_encode (a +:+ b)))).
    rewrite <- (take_drop 32 (Sha512.hexdigest (utf8_encode (a' +:+ b')))).
    now rewrite Ht, Hd.
  - intros E. unfold Sha512.hexdigest. now rewrite E.
Qed.

Lemma ord_inj (c d : ascii) : PyStr.ord c = PyStr.ord d -> c = d.
Proof.
  unfold PyStr.ord. intros H. apply Nat2Z.inj in H.
  rewrite <- (ascii_nat_embedding c), <- (ascii_nat_embedding d). now rewrite H.
Qed.

(** Different texts have different UTF-8 encodings. *)
Lemma utf8_encode_inj (s t : string) : utf8_encode s = utf8_encode t -> s = t.
Proof.
  revert t. induction s as [|c s IH]; intros [|d t]; cbn [utf8_encode]; cbv zeta.
  - reflexivity.
  - destruct (PyStr.ord d <? 128); discriminate.
  - destruct (PyStr.ord c <? 128); discriminate.
  - assert (Hc : 0 <= PyStr.ord c) by (unfold PyStr.ord; lia).
    assert (Hd : 0 <= PyStr.ord d) by (unfold PyStr.ord; lia).
    pose proof (Z.div_mod (PyStr.ord c) 64 ltac:(lia)) as Dc.
    pose proof (Z.div_mod (PyStr.ord d) 64 ltac:(lia)) as Dd.
    pose proof (Z.mod_pos_bound (PyStr.ord c) 64 ltac:(lia)) as Mc.
    pose proof (Z.mod_pos_bound (PyStr.ord d) 64 ltac:(lia)) as Md.
    destruct (Z.ltb_spec (PyStr.ord c) 128), (Z.ltb_spec (PyStr.ord d) 128).
    + intros [= E Ht]. f_equal; [now apply ord_inj|now apply IH].
    + intros [= E Ht]. exfalso. lia.
    + intros [= E Ht]. exfalso. lia.
    + intros [= E1 E2 Ht]. f_equal; [apply ord_inj; lia|now apply IH].
Qed.

End Codec.

(** The key is sensitive to the order of two URLs whose concatenations differ:
    one pair, by computation. *)
Example derive_order_sensitive : derive "a" "b" <> derive "b" "a".
Proof. vm_compute. discriminate. Qed.

(** C3, as stated, fails: two different non-empty URLs whose concatenation is
    the same in both orders have the same key in both orders. *)
Lemma derive_swap_collision :
  ~ (forall a b : string, a <> "" -> b <> "" -> a <> b -> derive a b <> derive b a).
Proof.
  intros H. apply (H "x" "xx"); [discriminate | discriminate | discriminate |].
  unfold derive. rewrite (full_hkey_concat "x" "xx" "xx" "x") by reflexivity.
  reflexivity.
Qed.

(** Two byte strings on which SHA-512 collides: they differ and have the
    same digest. *)
Definition sha512_collision (m1 m2 : list Z) : Prop :=
  m1 <> m2 /\ Sha512.digest_state m1 = Sha512.digest_state m2.

(** C3 (amended).  The two parts of a derived key, joined again, are the hex
    SHA-512 digest of the concatenation of the two URLs (calendar first).
    The key is the same in both orders when the two concatenations are the
    same text, and for every pair whose two concatenations differ the key
    differs between the two orders, unless the two concatenations are a
    collision of SHA-512: the keys of the two orders agree exactly when the
    digests of the two concatenations do. *)
Theorem derive_rebuild_and_order (a b : string) :
  fst (derive a b) +:+ snd (derive a b) = Sha512.hexdigest (utf8_encode (a +:+ b))
  /\ (a +:+ b = b +:+ a -> derive a b = derive b a)
  /\ (a +:+ b <> b +:+ a ->
      derive a b <> derive b a
      \/ sha512_collision (utf8_encode (a +:+ b)) (utf8_encode (b +:+ a)))
  /\ (derive a b = derive b a
      <-> Sha512.digest_state (utf8_encode (a +:+ b))
          = Sha512.digest_state (utf8_encode (b +:+ a))).
Proof.
  split; [|split; [|split]].
  - unfold derive, split_hkey; cbn [fst snd]. apply take_drop.
  - intros E. unfold derive. f_equal. now apply full_hkey_concat.
  - intros Hne.
    destruct (decide (derive a b = derive b a)) as [E|Hd]; [right|left; exact Hd].
    split; [|now apply derive_eq_digest].
    intros Hu. apply Hne. now apply utf8_encode_inj.
  - apply derive_eq_digest.
Qed.

Lemma derive_rebuild_and_order_witness :
  derive "x" "xx" = derive "xx" "x" /\ derive "a" "b" <> derive "b" "a".
Proof.
  split.
  - apply (proj1 (proj2 (derive_rebuild_and_order "x" "xx"))). reflexivity.
  - destruct (derive_rebuild_and_order "a" "b") as (_ & _ & _ & Hd).
    intros E. apply Hd in E. revert E. vm_compute. discriminate.
Defined.

(** *** No digest tells the two orders apart for every pair *)

Section Counting.

(** Among more values than a function can take, two have the same image. *)
Lemma pigeonhole (n : nat) :
  forall f : nat -> nat,
    (forall i, (i <= n)%nat -> (f i < n)%nat) ->
    exists i j, (i < j <= n)%nat /\ f i = f j.
Proof.
  induction n as [|n IH]; intros f Hf.
  - specialize (Hf 0%nat ltac:(lia)). lia.
  - assert (Hfind : forall m, (m <= n)%nat ->
               (exists i, (i <= m)%nat /\ f i = f (Datatypes.S n))
               \/ (forall i, (i <= m)%nat -> f i <> f (Datatypes.S n))).
    { induction m as [|m IHm]; intros Hm.
      - destruct (Nat.eq_dec (f 0%nat) (f (Datatypes.S n))) as [E|E].
        + left. exists 0%nat. auto.
        + right. intros i Hi. replace i with 0%nat by lia. exact E.
      - destruct (IHm ltac:(lia)) as [(i & Hi & E)|Hno].
        + left. exists i. split; [lia|exact E].
        + destruct (Nat.eq_dec (f (Datatypes.S m)) (f (Datatypes.S n))) as [E|E].
          * left. exists (Datatypes.S m). auto.
          * right. intros i Hi. destruct (Nat.eq_dec i (Datatypes.S m)) as [->|Hne];
              [exact E|apply Hno; lia]. }
    destruct (Hfind n (Nat.le_refl n)) as [(i & Hi & E)|Hno].
    + exists i, (Datatypes.S n). split; [lia|exact E].
    + set (v := f (Datatypes.S n)) in *.
      pose (g := fun i => if (f i <? v)%nat then f i else (f i - 1)%nat).
      destruct (IH g) as (i & j & Hij & E).
      { intros i Hi. unfold g. specialize (Hno i Hi).
        pose proof (Hf i ltac:(lia)) as Hb. pose proof (Hf (Datatypes.S n) ltac:(lia)) as Hv.
        fold v in Hv. destruct (Nat.ltb_spec (f i) v); lia. }
      exists i, j. split; [lia|]. unfold g in E.
      pose proof (Hno i ltac:(lia)) as Hi'. pose proof (Hno j ltac:(lia)) as Hj'.
      destruct (Nat.ltb_spec (f i) v), (Nat.ltb_spec (f j) v); lia.
Qed.

(** A chaining value as one number below [2 ^ 512]. *)
Definition state_number (s : Sha512.hstate) : Z :=
  let c := 2 ^ 64 in
  Sha512.ha s + c * (Sha512.hb s + c * (Sha512.hc s + c * (Sha512.hd s
  + c * (Sha512.he s + c * (Sha512.hf s + c * (Sha512.hg s + c * Sha512.hh s)))))).

Lemma w64_range (x : Z) : Sha512.w64 x = x -> 0 <= x < 2 ^ 64.
Proof.
  unfold Sha512.w64, Sha512.mask64. rewrite Z.land_ones by lia. intros <-.
  apply Z.mod_pos_bound. lia.
Qed.

Lemma state_number_range (s : Sha512.hstate) :
  word_state s -> 0 <= state_number s < 2 ^ 512.
Proof.
  intros (Ha & Hb & Hc & Hd & He & Hf & Hg & Hh).
  apply w64_range in Ha, Hb, Hc, Hd, He, Hf, Hg, Hh.
  unfold state_number. cbv zeta. lia.
Qed.

Lemma low_word (x x' y y' : Z) :
  0 <= x < 2 ^ 64 -> 0 <= x' < 2 ^ 64 -> x + 2 ^ 64 * y = x' + 2 ^ 64 * y' -> x = x' /\ y = y'.
Proof. lia. Qed.

Lemma state_number_inj (s t : Sha512.hstate) :
  word_state s -> word_state t -> state_number s = state_number t -> s = t.
Proof.
  intros (Sa & Sb & Sc & Sd & Se & Sf & Sg & Sh) (Ta & Tb & Tc & Td & Te & Tf & Tg & Th).
  apply w64_range in Sa, Sb, Sc, Sd, Se, Sf, Sg, Sh, Ta, Tb, Tc, Td, Te, Tf, Tg, Th.
  unfold state_number. cbv zeta. intros H.
  apply low_word in H as [Ea H]; [|assumption|assumption].
  apply low_word in H as [Eb H]; [|assumption|assumption].
  apply low_word in H as [Ec H]; [|assumption|assumption].
  apply low_word in H as [Ed H]; [|assumption|assumption].
  apply low_word in H as [Ee H]; [|assumption|assumption].
  apply low_word in H as [Ef H]; [|assumption|assumption].
  apply low_word in H as [Eg H]; [|assumption|assumption].
  destruct s, t. cbn in *. congruence.
Qed.

(** [n] times the letter a *)
Fixpoint letters (n : nat) : string :=
  match n with
  | O => EmptyString
  | Datatypes.S n' => String "a" (letters n')
  end.

Lemma string_app_assoc (s t u : string) : (s +:+ t) +:+ u = s +:+ (t +:+ u).
Proof. induction s as [|c s IH]; [reflexivity|]. rewrite !append_cons. now rewrite IH. Qed.

Lemma letters_add (m n : nat) : letters m +:+ letters n = letters (m + n).
Proof.
  induction m as [|m IH]; [reflexivity|].
  cbn [letters Nat.add]. rewrite append_cons. now rewrite IH.
Qed.

(** The place of the one letter b tells two such texts apart. *)
Lemma letters_then_b (m n : nat) (s t : string) :
  letters m +:+ String "b" s = letters n +:+ String "b" t -> m = n.
Proof.
  revert n. induction m as [|m IH]; intros [|n]; cbn [letters]; rewrite ?append_cons.
  - reflexivity.
  - change ("" +:+ String "b" s) with (String "b" s). discriminate.
  - change ("" +:+ String "b" t) with (String "b" t). discriminate.
  - intros [= H]. f_equal. now apply IH.
Qed.

(** With [N] possible digests, two of the [N + 1] texts made of [N] letters a
    and one letter b have the same digest; each of the two is the other turned
    around a cut. *)
Lemma order_collision_by_counting (N : nat) :
  Z.of_nat N = 2 ^ 512 ->
  exists a b : string, a +:+ b <> b +:+ a /\ derive a b = derive b a.
Proof.
  intros HN.
  pose (text := fun i : nat => letters i +:+ String "b" (letters (N - i))).
  pose (f := fun i : nat =>
               Z.to_nat (state_number (Sha512.digest_state (utf8_encode (text i))))).
  destruct (pigeonhole N f) as (i & j & Hij & E).
  { intros i _. unfold f.
    pose proof (state_number_range _ (digest_state_words (utf8_encode (text i)))) as Hr.
    lia. }
  assert (Hs : Sha512.digest_state (utf8_encode (text i))
               = Sha512.digest_state (utf8_encode (text j))).
  { apply state_number_inj; [apply digest_state_words|apply digest_state_words|].
    pose proof (state_number_range _ (digest_state_words (utf8_encode (text i)))) as Hi.
    pose proof (state_number_range _ (digest_state_words (utf8_encode (text j)))) as Hj.
    unfold f in E. lia. }
  exists (letters i +:+ String "b" (letters (N - j))), (letters (j - i)).
  assert (E1 : (letters i +:+ String "b" (letters (N - j))) +:+ letters (j - i) = text i).
  { unfold text. rewrite string_app_assoc, append_cons, letters_add.
    do 3 f_equal. lia. }
  assert (E2 : letters (j - i) +:+ (letters i +:+ String "b" (letters (N - j))) = text j).
  { unfold text. rewrite <- string_app_assoc, letters_add. do 2 f_equal. lia. }
  split.
  - rewrite E1, E2. unfold text. intros H. apply letters_then_b in H. lia.
  - apply derive_eq_digest. now rewrite E1, E2.
Qed.

End Counting.

(** The order of the two URLs cannot be told from the key for every pair whose
    concatenations differ: the digest has only [2 ^ 512] values. *)
Lemma derive_order_collision :
  ~ (forall a b : string, a +:+ b <> b +:+ a -> derive a b <> derive b a).
Proof.
  intros H.
  destruct (order_collision_by_counting (Z.to_nat (2 ^ 512))) as (a & b & Hne & E).
  - apply Z2Nat.id. apply Z.pow_nonneg. lia.
  - exact (H a b Hne E).
Qed.

(** C4, as stated, fails: the prefix is not one half of the digest. *)
Lemma derive_not_midpoint :
  ~ (forall a b : string,
       fst (derive a b) = PyStr.take 64 (full_hkey a b)
       /\ snd (derive a b) = PyStr.drop 64 (full_hkey a b)
       /\ PyStr.len (fst (derive a b)) = 64%nat
       /\ PyStr.len (snd (derive a b)) = 64%nat).
Proof.
  intros H. destruct (H "a" "b") as (_ & _ & Hl & _).
  unfold derive, split_hkey in Hl; cbn [fst snd] in Hl.
  rewrite len_take in Hl. unfold full_hkey in Hl. rewrite len_hexdigest in Hl.
  discriminate.
Qed.

(** C4 (amended).  The digest has 128 hex characters and is cut after the
    32nd: the prefix is its first 32 characters, the suffix the other 96. *)
Theorem derive_split_at_32 (a b : string) :
  PyStr.len (full_hkey a b) = 128%nat
  /\ fst (derive a b) = PyStr.take 32 (full_hkey a b)
  /\ snd (derive a b) = PyStr.drop 32 (full_hkey a b)
  /\ PyStr.len (fst (derive a b)) = 32%nat
  /\ PyStr.len (snd (derive a b)) = 96%nat.
Proof.
  assert (L : PyStr.len (full_hkey a b) = 128%nat) by apply len_hexdigest.
  unfold derive, split_hkey; cbn [fst snd].
  rewrite len_take, len_drop, L. repeat split; reflexivity.
Qed.

(** ** Running the model *)

(** Symbolic execution: unfold the monad and nothing else. *)
Ltac mrun :=
  cbv beta iota zeta delta
    [bind ret raise lift try_except logging datetime_now requests get_store put_store
     raise_MiddlewareException out_of_fuel args_getitem headers_getitem response_json
     requests_get json_loads unpack3 index1 parse_start outside_window];
  cbn [fst snd store calls logs ticks].


(** ** The resync scheduler: a key that is still in sync *)

(** C5.  When the stored [next_sync] of the key is after the clock reading of
    the trigger, [trigger_middleware] of app.py answers 200 without any HTTP
    call, and the record it stores under the full key has the credential and
    the two webhook URLs of the request and the [next_sync] that was stored. *)
Theorem trigger_in_sync_refreshes_state
    (fuel : nat) (env : Env) (w : World App.Store) (request : FlaskRequest)
    (calendar_webhook email_webhook : string) (state : State) :
  lookup_arg "calendar_webhook" (args request) = Some calendar_webhook ->
  lookup_arg "email_webhook" (args request) = Some email_webhook ->
  store w !! full_hkey calendar_webhook email_webhook = Some state ->
  clock env (ticks w) < next_sync state ->
  exists w',
    App.trigger_middleware fuel request env w = (Ok (Response status_ok 200), w')
    /\ calls w' = calls w
    /\ store w' =
         <[full_hkey calendar_webhook email_webhook :=
             {| authorization := lookup_header "Authorization" (headers request);
                calendar_webhook := calendar_webhook;
                email_webhook := email_webhook;
                next_sync := next_sync state |}]> (store w)
    /\ logs w' = logs w
    /\ ticks w' = Datatypes.S (ticks w).
Proof.
  intros Hc He Hst Hlt.
  unfold App.trigger_middleware, App.get_data, App.store_data.
  mrun. rewrite Hc, He. mrun. rewrite Hst. mrun.
  destruct (Z.leb_spec (next_sync state) (clock env (ticks w))) as [Hle|_]; [lia|].
  mrun. eexists; repeat split; reflexivity.
Qed.

Definition in_sync_world : World App.Store :=
  MkWorld {[ full_hkey "https://c.example/cal" "https://c.example/mail" :=
               {| authorization := Some "Bearer old";
                  calendar_webhook := "https://old.example/cal";
                  email_webhook := "https://old.example/mail";
                  next_sync := DateTime.make 2026 11 4 9 0 0 0 |} ]} [] [] 0.

Definition quiet_env : Env :=
  {| http := fun _ _ => {| status_code := 200; text := ""; json := Some (JObj [("value", JList [])]) |};
     clock := fun n => DateTime.make 2026 11 3 10 0 (Z.of_nat n) 0 |}.

Definition trigger_request : FlaskRequest :=
  {| args := [("calendar_webhook", "https://c.example/cal");
              ("email_webhook", "https://c.example/mail")];
     headers := [("Authorization", "Bearer new")];
     data := None |}.

Lemma trigger_in_sync_refreshes_state_witness :
  exists w',
    App.trigger_middleware 1 trigger_request quiet_env in_sync_world
    = (Ok (Response status_ok 200), w')
    /\ calls w' = []
    /\ (authorization <$> store w' !! full_hkey "https://c.example/cal" "https://c.example/mail")
       = Some (Some "Bearer new").
Proof.
  destruct (trigger_in_sync_refreshes_state 1 quiet_env in_sync_world trigger_request
              "https://c.example/cal" "https://c.example/mail"
              {| authorization := Some "Bearer old";
                 calendar_webhook := "https://old.example/cal";
                 email_webhook := "https://old.example/mail";
                 next_sync := DateTime.make 2026 11 4 9 0 0 0 |})
    as (w' & Hrun & Hcalls & Hstore & _).
  - reflexivity.
  - reflexivity.
  - apply lookup_singleton_eq.
  - vm_compute. reflexivity.
  - exists w'. split; [exact Hrun|]. split; [exact Hcalls|].
    rewrite Hstore, lookup_insert_eq. reflexivity.
Defined.

(** ** A small program logic for calls, exceptions and results *)

Inductive Method := mGET | mDELETE | mPOST | mPUT.

Definition method (c : Call) : Method :=
  match c with
  | GET _ _ => mGET
  | DELETE _ _ => mDELETE
  | POST _ _ _ => mPOST
  | PUT _ _ => mPUT
  end.

(** The calls whose method is one of [ms]. *)
Definition uses (ms : list Method) (c : Call) : Prop := In (method c) ms.

Definition is_MiddlewareException (e : exn) : Prop :=
  match e with MiddlewareException _ => True | _ => False end.

Definition any {A} (_ : A) : Prop := True.

Section Logic.
Context {S : Type}.

(** [m] leaves the store alone, makes only calls in [P], raises only
    exceptions in [Q], and returns only values in [R]. *)
Definition satisfies {A} (m : M S A) (P : Call -> Prop) (Q : exn -> Prop) (R : A -> Prop)
  : Prop :=
  forall env w,
    store (snd (m env w)) = store w
    /\ (exists d, calls (snd (m env w)) = calls w ++ d /\ Forall P d)
    /\ match fst (m env w) with
       | Ok a => R a
       | Raise e => Q e
       | OutOfFuel => True
       end.

Lemma sat_weaken {A} (m : M S A) (P P' : Call -> Prop) (Q Q' : exn -> Prop) (R R' : A -> Prop) :
  satisfies m P Q R ->
  (forall c, P c -> P' c) -> (forall e, Q e -> Q' e) -> (forall a, R a -> R' a) ->
  satisfies m P' Q' R'.
Proof.
  intros H HP HQ HR env w. destruct (H env w) as (Hs & (d & Hd & HF) & Hr).
  split; [exact Hs|]. split.
  - exists d. split; [exact Hd|]. eapply Forall_impl; [exact HF|exact HP].
  - destruct (fst (m env w)); auto.
Qed.

Lemma sat_ret {A} (a : A) P Q (R : A -> Prop) : R a -> satisfies (ret a) P Q R.
Proof.
  intros Ha env w; cbn. split; [reflexivity|]. split; [|exact Ha].
  exists []. rewrite app_nil_r. auto.
Qed.

Lemma sat_raise {A} (e : exn) P (Q : exn -> Prop) (R : A -> Prop) :
  Q e -> satisfies (raise e) P Q R.
Proof.
  intros He env w; cbn. split; [reflexivity|]. split; [|exact He].
  exists []. rewrite app_nil_r. auto.
Qed.

Lemma sat_out_of_fuel {A} P Q (R : A -> Prop) : satisfies out_of_fuel P Q R.
Proof.
  intros env w; cbn. split; [reflexivity|]. split; [|exact I].
  exists []. rewrite app_nil_r. auto.
Qed.

Lemma sat_lift {A} (o : outcome A) P (Q : exn -> Prop) (R : A -> Prop) :
  match o with Ok a => R a | Raise e => Q e | OutOfFuel => True end ->
  satisfies (lift o) P Q R.
Proof.
  intros Ho env w; cbn. split; [reflexivity|]. split; [|exact Ho].
  exists []. rewrite app_nil_r. auto.
Qed.

Lemma sat_logging l msg P Q : satisfies (logging l msg) P Q any.
Proof.
  intros env w; cbn. split; [reflexivity|]. split; [|exact I].
  exists []. rewrite app_nil_r. auto.
Qed.

Lemma sat_datetime_now P Q : satisfies datetime_now P Q any.
Proof.
  intros env w; cbn. split; [reflexivity|]. split; [|exact I].
  exists []. rewrite app_nil_r. auto.
Qed.

Lemma sat_get_store P Q : satisfies get_store P Q any.
Proof.
  intros env w; cbn. split; [reflexivity|]. split; [|exact I].
  exists []. rewrite app_nil_r. auto.
Qed.

Lemma sat_requests (c : Call) (P : Call -> Prop) Q : P c -> satisfies (requests c) P Q any.
Proof.
  intros Hc env w; cbn. split; [reflexivity|]. split; [|exact I].
  exists [c]. auto.
Qed.

Lemma sat_bind {A B} (m : M S A) (k : A -> M S B) P Q (R1 : A -> Prop) (R : B -> Prop) :
  satisfies m P Q R1 ->
  (forall a, R1 a -> satisfies (k a) P Q R) ->
  satisfies (bind m k) P Q R.
Proof.
  intros Hm Hk env w. destruct (Hm env w) as (Hs & (d & Hd & HF) & Hr).
  unfold bind. destruct (m env w) as [[a|e|] w1]; cbn in *.
  - destruct (Hk a Hr env w1) as (Hs' & (d' & Hd' & HF') & Hr').
    split; [congruence|]. split; [|exact Hr'].
    exists (d ++ d'). rewrite Hd', Hd, app_assoc. split; [reflexivity|].
    apply Forall_app; auto.
  - split; [exact Hs|]. split; [|exact Hr]. exists d; auto.
  - split; [exact Hs|]. split; [|exact I]. exists d; auto.
Qed.

Lemma sat_try_except {A} (m : M S A) (h : exn -> option (M S A)) P Q Q' (R : A -> Prop) :
  satisfies m P Q' R ->
  (forall e, Q' e -> match h e with Some k => satisfies k P Q R | None => Q e end) ->
  satisfies (try_except m h) P Q R.
Proof.
  intros Hm Hh env w. destruct (Hm env w) as (Hs & (d & Hd & HF) & Hr).
  unfold try_except. destruct (m env w) as [[a|e|] w1]; cbn in *.
  - split; [exact Hs|]. split; [|exact Hr]. exists d; auto.
  - specialize (Hh e Hr). destruct (h e) as [k|]; cbn.
    + destruct (Hh env w1) as (Hs' & (d' & Hd' & HF') & Hr').
      split; [congruence|]. split; [|exact Hr'].
      exists (d ++ d'). rewrite Hd', Hd, app_assoc. split; [reflexivity|].
      apply Forall_app; auto.
    + split; [exact Hs|]. split; [|exact Hh]. exists d; auto.
  - split; [exact Hs|]. split; [|exact I]. exists d; auto.
Qed.

Lemma sat_raise_MiddlewareException {A} (msg : string) P (Q : exn -> Prop) (R : A -> Prop) :
  Q (MiddlewareException msg) -> satisfies (raise_MiddlewareException msg) P Q R.
Proof.
  intros HQ. unfold raise_MiddlewareException.
  eapply sat_bind; [apply sat_logging|]. intros _ _. now apply sat_raise.
Qed.

Lemma sat_for_each {A} (l : list A) (body : A -> M S unit) P Q :
  (forall x, In x l -> satisfies (body x) P Q any) ->
  satisfies (for_each l body) P Q any.
Proof.
  induction l as [|x l IH]; intros Hb; cbn [for_each].
  - now apply sat_ret.
  - eapply sat_bind; [apply Hb; now left|]. intros _ _. apply IH.
    intros y Hy. apply Hb. now right.
Qed.

Lemma sat_for_each_update {A} (l : list A) (body : A -> M S A) P Q :
  (forall x, In x l -> satisfies (body x) P Q any) ->
  satisfies (for_each_update l body) P Q any.
Proof.
  induction l as [|x l IH]; intros Hb; cbn [for_each_update].
  - now apply sat_ret.
  - eapply sat_bind; [apply Hb; now left|]. intros y _.
    eapply sat_bind; [apply IH; intros z Hz; apply Hb; now right|].
    intros ys _. now apply sat_ret.
Qed.

Lemma sat_repeat_last {A} (n : nat) (m : M S A) (last : option A) P Q :
  satisfies m P Q any -> satisfies (repeat_last n m last) P Q any.
Proof.
  intros Hm. revert last. induction n as [|n IH]; intros last; cbn [repeat_last].
  - now apply sat_ret.
  - eapply sat_bind; [exact Hm|]. intros r _. apply IH.
Qed.

End Logic.

(** The pure helpers raise no [MiddlewareException]. *)
Definition pure_outcome {A} (o : outcome A) : Prop :=
  match o with Raise e => ~ is_MiddlewareException e | _ => True end.

Lemma pure_getitem j k : pure_outcome (Py.getitem j k).
Proof. destruct j; cbn; auto. destruct (Py.assoc k kvs); cbn; auto. Qed.

Lemma pure_contains k j : pure_outcome (Py.contains k j).
Proof. destruct j; cbn; auto. Qed.

Lemma pure_iter j : pure_outcome (Py.iter j).
Proof. destruct j; cbn; auto. Qed.

Lemma pure_str_method j : pure_outcome (Py.str_method j).
Proof. destruct j; cbn; auto. Qed.

Lemma pure_str_operand j : pure_outcome (Py.str_operand j).
Proof. destruct j; cbn; auto. Qed.

Lemma pure_setitem j k v : pure_outcome (Py.setitem j k v).
Proof. destruct j; cbn; auto. Qed.

Lemma pure_update j new : pure_outcome (Py.update j new).
Proof. destruct j; cbn; auto. Qed.

Lemma pure_check_bracketed_host hostname : pure_outcome (_check_bracketed_host hostname).
Proof.
  unfold _check_bracketed_host, IpAddress.ip_address.
  destruct (PyStr.startswith "v" hostname); [destruct (ipvfuture_tail _ _); cbn; auto|].
  destruct (IpAddress.IPv4Address hostname); [cbn; auto|].
  destruct (IpAddress.IPv6Address hostname); cbn; auto.
Qed.

Lemma pure_netloc url : pure_outcome (netloc url).
Proof.
  unfold netloc. cbv zeta. destruct (xorb _ _); [cbn; auto|].
  destruct (_ && _); [|exact I].
  unfold _check_bracketed_netloc.
  destruct (IpAddress.partition "[" _) as [[before_bracket have_open_br] bracketed].
  destruct have_open_br.
  - destruct (negb (String.eqb before_bracket "")); [cbn; auto|].
    destruct (IpAddress.partition "]" bracketed) as [[hostname found] port].
    destruct (_ && _); [cbn; auto|].
    pose proof (pure_check_bracketed_host hostname) as H.
    destruct (_check_bracketed_host hostname); auto.
  - destruct (IpAddress.partition ":" _) as [[hostname found] port].
    pose proof (pure_check_bracketed_host hostname) as H.
    destruct (_check_bracketed_host hostname); auto.
Qed.

Lemma pure_first_allowed urls : pure_outcome (first_allowed urls).
Proof.
  induction urls as [|u urls IH]; cbn [first_allowed]; [exact I|].
  pose proof (pure_netloc u) as Hu.
  destruct (netloc u) as [n|e|]; [|exact Hu|exact I].
  destruct (allowed_host n); [exact I|exact IH].
Qed.

Lemma pure_extract_meetinglink s : pure_outcome (extract_meetinglink s).
Proof. apply pure_first_allowed. Qed.

Create HintDb pure discriminated.
#[local] Hint Resolve pure_getitem pure_contains pure_iter pure_str_method pure_str_operand
  pure_setitem pure_update pure_extract_meetinglink : pure.

Lemma sat_lift_pure {S A} (o : outcome A) P (Q : exn -> Prop) :
  pure_outcome o ->
  (forall e, ~ is_MiddlewareException e -> Q e) ->
  satisfies (S := S) (lift o) P Q any.
Proof.
  intros Ho HQ. apply sat_lift. destruct o; cbn in *; auto; exact I.
Qed.

Ltac sat_step :=
  lazymatch goal with
  | |- satisfies (bind _ _) _ _ _ => eapply sat_bind with (R1 := any); [|intros ? ?]
  | |- satisfies (ret _) _ _ _ => apply sat_ret; try exact I
  | |- satisfies (lift _) _ _ _ => apply sat_lift_pure; [auto with pure | auto]
  | |- satisfies (logging _ _) _ _ _ => apply sat_logging
  | |- satisfies datetime_now _ _ _ => apply sat_datetime_now
  | |- satisfies (requests _) _ _ _ => apply sat_requests; cbv; auto
  | |- satisfies (raise _) _ _ _ => apply sat_raise; auto
  | |- satisfies (raise_MiddlewareException _) _ _ _ =>
      apply sat_raise_MiddlewareException; auto
  | |- satisfies (for_each _ _) _ _ _ => apply sat_for_each; intros ? ?
  | |- satisfies (for_each_update _ _) _ _ _ => apply sat_for_each_update; intros ? ?
  | |- satisfies (repeat_last _ _ _) _ _ _ => apply sat_repeat_last
  | |- satisfies (match ?x with _ => _ end) _ _ _ => destruct x
  | |- satisfies (let _ := _ in _) _ _ _ => cbv zeta
  end.

Section GraphFacts.
Context {S : Type}.
Variable Q : exn -> Prop.
Hypothesis HQ : forall e, ~ is_MiddlewareException e -> Q e.

Lemma sat_odata_getone (url : Json) (hd : Headers) :
  satisfies (S := S) (odata_getone url hd) (uses [mGET]) Q any.
Proof using HQ.
  unfold odata_getone, requests_get, response_json.
  repeat sat_step; auto.
Qed.

(** The pagination loop gives [Some] list whenever it returns. *)
Lemma sat_odata_get_loop (fuel : nat) (url : Json) (hd : Headers) (all_values : list Json) :
  satisfies (S := S) (odata_get_loop fuel url hd all_values) (uses [mGET]) Q
            (fun v => exists l, v = Some l).
Proof using HQ.
  revert url all_values. induction fuel as [|fuel IH]; intros url all_values.
  - cbn [odata_get_loop]. destruct (Py.truthy url).
    + apply sat_out_of_fuel.
    + apply sat_ret. eauto.
  - cbn [odata_get_loop]. destruct (Py.truthy url).
    + eapply sat_bind; [apply sat_odata_getone|]. intros [j|] _.
      * destruct (Py.truthy j); [|apply IH].
        repeat (eapply sat_bind; [apply sat_lift_pure; [auto with pure | auto]|intros ? _]).
        eapply sat_bind; [|intros ? _; apply IH].
        eapply sat_try_except with (Q' := fun e => ~ is_MiddlewareException e).
        -- apply sat_lift_pure; [auto with pure | auto].
        -- intros [] He; cbn; auto. now apply sat_ret.
      * apply IH.
    + apply sat_ret. eauto.
Qed.

Lemma sat_odata_get (fuel : nat) (url : string) (hd : Headers) :
  satisfies (S := S) (odata_get fuel url hd) (uses [mGET]) Q (fun v => exists l, v = Some l).
Proof using HQ. apply sat_odata_get_loop. Qed.

Lemma sat_get_all_users (G : string) (fuel : nat) (hd : Headers) :
  satisfies (S := S) (get_all_users G fuel hd) (uses [mGET]) Q any.
Proof using HQ.
  unfold get_all_users.
  eapply sat_bind; [apply sat_odata_get|]. intros v [l ->].
  apply sat_for_each_update. intros user _.
  eapply sat_bind; [sat_step|intros uid _].
  eapply sat_bind; [apply sat_odata_getone|intros manager _].
  repeat sat_step.
Qed.

End GraphFacts.

(** ** Listings: [odata_get] and the checks against [None] *)

(** The response carries no further page. *)
Definition last_page (r : HttpResponse) : Prop :=
  match json r with
  | Some j => match Py.getitem j "@odata.nextLink" with
              | Ok next => Py.truthy next = false
              | _ => True
              end
  | None => True
  end.

Definition add_call {S} (c : Call) (w : World S) : World S :=
  MkWorld (store w) (calls w ++ [c]) (logs w) (ticks w).

Definition add_log {S} (l : Level) (msg : string) (w : World S) : World S :=
  MkWorld (store w) (calls w) (logs w ++ [(l, msg)]) (ticks w).

Section Listings.
Context {S : Type}.

Lemma getitem_fuel j k : Py.getitem j k <> OutOfFuel.
Proof. destruct j; cbn; try discriminate. destruct (Py.assoc k kvs); discriminate. Qed.

Lemma iter_fuel j : Py.iter j <> OutOfFuel.
Proof. destruct j; cbn; discriminate. Qed.

Lemma contains_fuel k j : Py.contains k j <> OutOfFuel.
Proof. destruct j; cbn; discriminate. Qed.

(** What one fetch does, by cases on the response. *)
Lemma odata_getone_run (u : string) (hd : Headers) (env : Env) (w : World S) :
  let r := http env (calls w) (GET u hd) in
  let w1 := add_call (GET u hd) w in
  odata_getone (JStr u) hd env w =
  if negb (ok r)
  then (Ok None, add_log WARNING ("Fetch url " +:+ Py.format (JStr u) +:+ " hit "
                                  +:+ PyStr.of_Z (status_code r)) w1)
  else match json r with
       | None => (Raise (ValueError "Expecting value"), w1)
       | Some j =>
           match Py.contains "error" j with
           | Ok true => (Ok None, add_log WARNING ("Fetching of " +:+ Py.format (JStr u)
                                                   +:+ " returned error " +:+ text r) w1)
           | Ok false => (Ok (Some j), w1)
           | Raise e => (Raise e, w1)
           | OutOfFuel => (OutOfFuel, w1)
           end
       end.
Proof.
  intros r w1. unfold odata_getone. mrun. fold r.
  destruct (negb (ok r)); [reflexivity|].
  destruct (json r) as [j|]; [|reflexivity].
  destruct (Py.contains "error" j) as [[]| |]; reflexivity.
Qed.

(** The loop stops at a page address that is not true. *)
Lemma odata_get_loop_done (fuel : nat) (url : Json) (hd : Headers) (all_values : list Json)
    (env : Env) (w : World S) :
  Py.truthy url = false ->
  odata_get_loop fuel url hd all_values env w = (Ok (Some all_values), w).
Proof. intros Hu. destruct fuel; cbn [odata_get_loop]; rewrite Hu; reflexivity. Qed.

(** A listing that ends within [n] further calls is read to its end by any
    run of the loop that may make more than [n] iterations. *)
Lemma odata_get_loop_terminates (n : nat) :
  forall (fuel : nat) (url : Json) (hd : Headers) (all_values : list Json)
         (env : Env) (w : World S),
    (n < fuel)%nat ->
    (forall h c, (length (calls w) + n <= length h)%nat -> last_page (http env h c)) ->
    fst (odata_get_loop fuel url hd all_values env w) <> OutOfFuel.
Proof.
  induction n as [|n IH]; intros fuel url hd acc env w Hf Hlast;
    (destruct fuel as [|fuel]; [lia|]); cbn [odata_get_loop].
  - destruct (Py.truthy url) eqn:Hu; [|discriminate].
    destruct url; try discriminate.
    unfold bind at 1. rewrite odata_getone_run.
    specialize (Hlast (calls w) (GET s hd) ltac:(lia)). unfold last_page in Hlast.
    destruct (negb _).
    { rewrite odata_get_loop_done by reflexivity. discriminate. }
    destruct (json _) as [j|]; [|discriminate].
    pose proof (contains_fuel "error" j).
    destruct (Py.contains "error" j) as [[]| |]; try congruence; try discriminate.
    { rewrite odata_get_loop_done by reflexivity. discriminate. }
    destruct (Py.truthy j);
      [|rewrite odata_get_loop_done by reflexivity; discriminate].
    mrun. pose proof (getitem_fuel j "value").
    destruct (Py.getitem j "value") as [v| |]; try congruence; try discriminate.
    pose proof (iter_fuel v).
    destruct (Py.iter v) as [items| |]; try congruence; try discriminate.
    pose proof (getitem_fuel j "@odata.nextLink").
    destruct (Py.getitem j "@odata.nextLink") as [next|[]|];
      try congruence; try discriminate;
      rewrite odata_get_loop_done by (reflexivity || assumption); discriminate.
  - destruct (Py.truthy url) eqn:Hu; [|discriminate].
    destruct url; try discriminate.
    unfold bind at 1. rewrite odata_getone_run.
    assert (Hrec : forall next acc',
               fst (odata_get_loop fuel next hd acc' env (add_call (GET s hd) w)) <> OutOfFuel).
    { intros next acc'. apply IH; [lia|]. intros h c Hh. apply Hlast.
      cbn in Hh. rewrite length_app in Hh. cbn in Hh. lia. }
    assert (Hrec' : forall next acc' l msg,
               fst (odata_get_loop fuel next hd acc' env
                      (add_log l msg (add_call (GET s hd) w))) <> OutOfFuel).
    { intros next acc' l msg. apply IH; [lia|]. intros h c Hh. apply Hlast.
      cbn in Hh. rewrite length_app in Hh. cbn in Hh. lia. }
    destruct (negb _); [apply Hrec'|].
    destruct (json _) as [j|]; [|discriminate].
    pose proof (contains_fuel "error" j).
    destruct (Py.contains "error" j) as [[]| |];
      try congruence; try discriminate; try apply Hrec'.
    destruct (Py.truthy j); [|apply Hrec].
    mrun. pose proof (getitem_fuel j "value").
    destruct (Py.getitem j "value") as [v| |]; try congruence; try discriminate.
    pose proof (iter_fuel v).
    destruct (Py.iter v) as [items| |]; try congruence; try discriminate.
    pose proof (getitem_fuel j "@odata.nextLink").
    destruct (Py.getitem j "@odata.nextLink") as [next|[]|];
      try congruence; try discriminate; apply Hrec.
Qed.

End Listings.

Lemma uses_incl (ms ms' : list Method) (c : Call) :
  (forall m, In m ms -> In m ms') -> uses ms c -> uses ms' c.
Proof. unfold uses; auto. Qed.

Ltac solve_uses := unfold uses; cbn [method In]; auto 6.

Ltac sat_graph :=
  lazymatch goal with
  | |- satisfies (odata_getone _ _) _ _ _ =>
      eapply sat_weaken;
      [apply sat_odata_getone with (Q := fun e => ~ is_MiddlewareException e); auto
      | intros ?; apply uses_incl; cbn [In]; intuition auto
      | auto
      | intros ? _; exact I]
  | |- satisfies (odata_get _ _ _) _ _ _ =>
      eapply sat_weaken;
      [apply sat_odata_get with (Q := fun e => ~ is_MiddlewareException e); auto
      | intros ?; apply uses_incl; cbn [In]; intuition auto
      | auto
      | intros ? _; exact I]
  | |- satisfies (requests _) _ _ _ => apply sat_requests; solve_uses
  | _ => sat_step
  end.

(** The failures that only the dead branches could raise. *)
Definition not_failed_to_wipe (e : exn) : Prop :=
  e <> MiddlewareException "Failed to wipe subscriptions".

Definition not_failed_to_get_users (e : exn) : Prop :=
  e <> MiddlewareException "Failed to get users".

Lemma not_MiddlewareException_neq (e : exn) (msg : string) :
  ~ is_MiddlewareException e -> e <> MiddlewareException msg.
Proof. intros H ->. apply H. exact I. Qed.

Lemma failed_to_delete_neq (x : string) :
  MiddlewareException ("Failed to delete subscription " +:+ x)
  <> MiddlewareException "Failed to wipe subscriptions".
Proof. intros E. injection E as E. cbv [String.append] in E. discriminate. Qed.

Section AppFacts.
Variable Q : exn -> Prop.
Hypothesis HQ : forall e, ~ is_MiddlewareException e -> Q e.

Lemma sat_App_parse_event (event owner : Json) (calendar_webhook : string) :
  satisfies (App.parse_event event owner calendar_webhook) (uses [mPUT]) Q any.
Proof using HQ.
  unfold App.parse_event, parse_start, outside_window.
  repeat sat_graph.
Qed.

Lemma sat_App_update_calendar fuel authorization users calendar_webhook :
  satisfies (App.update_calendar fuel authorization users calendar_webhook)
            (uses [mGET; mPUT]) Q any.
Proof using HQ.
  unfold App.update_calendar.
  repeat first
    [ eapply sat_weaken;
      [apply sat_App_parse_event | intros ?; apply uses_incl; cbn [In]; intuition auto
      | auto | auto]
    | sat_graph ].
Qed.

Lemma sat_App_register_subscriptions authorization hkey users calendar_webhook email_webhook :
  satisfies (App.register_subscriptions authorization hkey users calendar_webhook email_webhook)
            (uses [mPOST]) Q any.
Proof using HQ.
  unfold App.register_subscriptions.
  repeat sat_graph.
Qed.

Lemma sat_Application_parse_event (event owner : Json) (calendar_webhook : string) :
  satisfies (Application.parse_event event owner calendar_webhook) (uses [mPUT]) Q any.
Proof using HQ.
  unfold Application.parse_event, parse_start, outside_window.
  repeat sat_graph.
Qed.

Lemma sat_Application_update_calendar fuel hd users calendar_webhook :
  satisfies (Application.update_calendar fuel hd users calendar_webhook)
            (uses [mGET; mPUT]) Q any.
Proof using HQ.
  unfold Application.update_calendar.
  repeat first
    [ eapply sat_weaken;
      [apply sat_Application_parse_event
      | intros ?; apply uses_incl; cbn [In]; intuition auto
      | auto | auto]
    | sat_graph ].
Qed.

Lemma sat_Application_register_subscriptions hd hkey users calendar_webhook email_webhook :
  satisfies (Application.register_subscriptions hd hkey users calendar_webhook email_webhook)
            (uses [mPOST]) Q any.
Proof using HQ.
  unfold Application.register_subscriptions.
  repeat sat_graph.
Qed.

End AppFacts.

Lemma sat_App_wipe_subscriptions fuel authorization :
  satisfies (App.wipe_subscriptions fuel authorization)
            (uses [mGET; mDELETE]) not_failed_to_wipe any.
Proof.
  unfold App.wipe_subscriptions. cbv zeta.
  eapply sat_bind.
  - eapply sat_weaken;
      [apply sat_odata_get with (Q := fun e => ~ is_MiddlewareException e); auto
      | intros ?; apply uses_incl; cbn [In]; intuition auto
      | intros e; apply not_MiddlewareException_neq
      | intros a Ha; exact Ha].
  - intros v [l ->].
    assert (HQ : forall e, ~ is_MiddlewareException e -> not_failed_to_wipe e)
      by (intros e; apply not_MiddlewareException_neq).
    repeat sat_graph.
    apply failed_to_delete_neq.
Qed.

Lemma sat_Application_wipe_subscriptions fuel hd :
  satisfies (Application.wipe_subscriptions fuel hd)
            (uses [mGET; mDELETE]) not_failed_to_wipe any.
Proof.
  unfold Application.wipe_subscriptions.
  eapply sat_bind.
  - eapply sat_weaken;
      [apply sat_odata_get with (Q := fun e => ~ is_MiddlewareException e); auto
      | intros ?; apply uses_incl; cbn [In]; intuition auto
      | intros e; apply not_MiddlewareException_neq
      | intros a Ha; exact Ha].
  - intros v [l ->].
    assert (HQ : forall e, ~ is_MiddlewareException e -> not_failed_to_wipe e)
      by (intros e; apply not_MiddlewareException_neq).
    repeat sat_graph.
    apply failed_to_delete_neq.
Qed.

(** C10.  [odata_get] gives a list whenever it returns, never [None],
    whatever the pages are: a first page that fails gives the empty list, the
    same as a listing that is empty; a listing that ends is read to its end.
    So [wipe_subscriptions] never raises "Failed to wipe subscriptions" and
    [get_all_users] never raises "Failed to get users". *)
Theorem odata_get_never_None :
  (forall (St : Type) fuel url hd env (w : World St) v,
      fst (odata_get fuel url hd env w) = Ok v -> exists l, v = Some l)
  /\ (forall (St : Type) fuel url hd env (w : World St),
         url <> "" ->
         ok (http env (calls w) (GET url hd)) = false ->
         fst (odata_get (Datatypes.S fuel) url hd env w) = Ok (Some []))
  /\ (forall (St : Type) fuel url hd env (w : World St) j,
         url <> "" ->
         ok (http env (calls w) (GET url hd)) = true ->
         json (http env (calls w) (GET url hd)) = Some j ->
         Py.contains "error" j = Ok false ->
         Py.truthy j = true ->
         Py.getitem j "value" = Ok (JList []) ->
         Py.getitem j "@odata.nextLink" = Raise (KeyError "@odata.nextLink") ->
         fst (odata_get (Datatypes.S fuel) url hd env w) = Ok (Some []))
  /\ (forall (St : Type) n fuel url hd env (w : World St),
         (n < fuel)%nat ->
         (forall h c, (length (calls w) + n <= length h)%nat -> last_page (http env h c)) ->
         (exists l, fst (odata_get fuel url hd env w) = Ok (Some l))
         \/ (exists e, fst (odata_get fuel url hd env w) = Raise e))
  /\ (forall fuel authorization env w,
         fst (App.wipe_subscriptions fuel authorization env w)
         <> Raise (MiddlewareException "Failed to wipe subscriptions"))
  /\ (forall fuel hd env (w : World App.Store),
         fst (get_all_users App.GRAPH_API_URL fuel hd env w)
         <> Raise (MiddlewareException "Failed to get users")).
Proof.
  assert (Hsome : forall (St : Type) fuel url hd env (w : World St) v,
             fst (odata_get fuel url hd env w) = Ok v -> exists l, v = Some l).
  { intros St fuel url hd env w v Hv.
    destruct (sat_odata_get (S := St) (fun _ => True) (fun _ _ => I) fuel url hd env w)
      as (_ & _ & Hr).
    rewrite Hv in Hr. exact Hr. }
  assert (Htruthy : forall url : string, url <> "" -> Py.truthy (JStr url) = true).
  { intros url Hu. cbn. destruct url; [congruence|reflexivity]. }
  split; [exact Hsome|]. split; [|split; [|split; [|split]]].
  - intros St fuel url hd env w Hu Hok.
    unfold odata_get. cbn [odata_get_loop]. rewrite (Htruthy url Hu).
    unfold bind. rewrite odata_getone_run, Hok. cbn [negb].
    rewrite odata_get_loop_done by reflexivity. reflexivity.
  - intros St fuel url hd env w j Hu Hok Hj Herr Ht Hv Hn.
    unfold odata_get. cbn [odata_get_loop]. rewrite (Htruthy url Hu).
    unfold bind at 1. rewrite odata_getone_run, Hok, Hj, Herr. cbn [negb].
    rewrite Ht. mrun. rewrite Hv. cbn [Py.iter]. rewrite Hn.
    rewrite odata_get_loop_done by reflexivity. reflexivity.
  - intros St n fuel url hd env w Hf Hlast.
    pose proof (odata_get_loop_terminates n fuel (JStr url) hd [] env w Hf Hlast) as Hnf.
    change (fst (odata_get fuel url hd env w) <> OutOfFuel) in Hnf.
    destruct (fst (odata_get fuel url hd env w)) as [v|e|] eqn:E.
    + destruct (Hsome _ _ _ _ _ _ _ E) as [l ->]. left; eauto.
    + right; eauto.
    + congruence.
  - intros fuel authorization env w.
    destruct (sat_App_wipe_subscriptions fuel authorization env w) as (_ & _ & Hr).
    intros E. rewrite E in Hr. now apply Hr.
  - intros fuel hd env w.
    destruct (sat_get_all_users (S := App.Store) (fun e => ~ is_MiddlewareException e)
                (fun _ H => H) App.GRAPH_API_URL fuel hd env w) as (_ & _ & Hr).
    intros E. rewrite E in Hr. now apply Hr.
Qed.

Definition failing_env : Env :=
  {| http := fun _ _ => {| status_code := 503; text := "unavailable"; json := None |};
     clock := fun n => DateTime.make 2026 11 3 10 0 (Z.of_nat n) 0 |}.

Definition empty_world : World App.Store := MkWorld ∅ [] [] 0.

Lemma odata_get_never_None_witness :
  fst (odata_get 1 "https://graph.microsoft.com//v1.0/users" [] failing_env empty_world)
  = Ok (Some [])
  /\ fst (odata_get 1 "https://graph.microsoft.com//v1.0/users" [] quiet_env empty_world)
     = Ok (Some []).
Proof.
  destruct odata_get_never_None as (_ & Hfail & Hempty & _).
  split.
  - apply Hfail; [discriminate|reflexivity].
  - apply (Hempty _ _ _ _ _ _ (JObj [("value", JList [])]));
      [discriminate|reflexivity|reflexivity|reflexivity|reflexivity|reflexivity|reflexivity].
Defined.

(** ** The notification correlator *)

(** The body of the loop over the items of a callback: one item, with the
    [MiddlewareException]s it raises swallowed. *)
Definition swallow_MiddlewareException {S} (m : M S unit) : M S unit :=
  try_except m (fun e => match e with MiddlewareException _ => Some (ret tt) | _ => None end).

Definition App_item (subscription hkey1 : string) (value : Json) : M App.Store unit :=
  swallow_MiddlewareException
    (App._handle_subscription_callback_value subscription hkey1 value;; ret tt).

Definition Application_item (subscription hkey1 : string) (value : Json)
  : M Application.Store unit :=
  swallow_MiddlewareException
    (Application._handle_subscription_callback_value subscription hkey1 value;; ret tt).

(** The response of the callback once the loop over the items has ended. *)
Definition accepted {S} (r : outcome unit * World S) : outcome FlaskResponse * World S :=
  match r with
  | (Ok _, w) => (Ok (Response "" 202), w)
  | (Raise e, w) => (Raise e, w)
  | (OutOfFuel, w) => (OutOfFuel, w)
  end.

Definition notification_request (values : list Json) : FlaskRequest :=
  {| args := []; headers := []; data := Some (JObj [("value", JList values)]) |}.

Section Correlator.

Lemma for_each_app {S A} (l1 l2 : list A) (body : A -> M S unit) env (w w1 : World S) :
  for_each l1 body env w = (Ok tt, w1) ->
  for_each (l1 ++ l2) body env w = for_each l2 body env w1.
Proof.
  revert w. induction l1 as [|x l1 IH]; intros w H; cbn [for_each app] in *.
  - cbv [ret] in H. now inversion H.
  - unfold bind in *. destruct (body x env w) as [[[]|e|] w']; try discriminate.
    now apply IH.
Qed.

Lemma App_callback_loop subscription hkey1 request jsonbody values env
    (w : World App.Store) :
  lookup_arg "validationToken" (args request) = None ->
  data request = Some jsonbody ->
  Py.getitem jsonbody "value" = Ok (JList values) ->
  App.handle_subscription_callback subscription hkey1 request env w
  = accepted (for_each values (App_item subscription hkey1) env w).
Proof.
  intros Ht Hd Hv. unfold App.handle_subscription_callback. rewrite Ht, Hd.
  mrun. rewrite Hv. cbn [Py.iter].
  change (fun value : Json => _) with (App_item subscription hkey1).
  destruct (for_each values (App_item subscription hkey1) env w) as [[[]|e|] w']; reflexivity.
Qed.

Lemma Application_callback_loop subscription hkey1 request jsonbody values env
    (w : World Application.Store) :
  lookup_arg "validationToken" (args request) = None ->
  data request = Some jsonbody ->
  Py.getitem jsonbody "value" = Ok (JList values) ->
  Application.handle_subscription_callback subscription hkey1 request env w
  = accepted (for_each values (Application_item subscription hkey1) env w).
Proof.
  intros Ht Hd Hv. unfold Application.handle_subscription_callback. rewrite Ht, Hd.
  mrun. rewrite Hv. cbn [Py.iter].
  change (fun value : Json => _) with (Application_item subscription hkey1).
  destruct (for_each values (Application_item subscription hkey1) env w)
    as [[[]|e|] w']; reflexivity.
Qed.

End Correlator.

(** *** A batch with a malformed clientState *)

Definition message_item (client_state change_type odata_id : string) : Json :=
  JObj [("changeType", JStr change_type);
        ("clientState", JStr client_state);
        ("resourceData", JObj [("@odata.id", JStr odata_id)])].

(** Two fields where three are expected. *)
Definition malformed_item : Json :=
  message_item "6780fb97^ann@x.org" "deleted" "Users/u1/Messages/m1".

Definition deleted_item : Json :=
  message_item "6780fb97^ann@x.org^boss@x.org" "deleted" "Users/u1/Messages/m2".

Definition known_state : State :=
  {| authorization := Some "Bearer t";
     calendar_webhook := "https://c.example/cal";
     email_webhook := "https://c.example/mail";
     next_sync := DateTime.make 2026 11 4 9 0 0 0 |}.

Definition callback_world : World App.Store :=
  MkWorld {[ "6780fb97ab6919a6" := known_state ]} [] [] 0.

(** C1 (the code departs from it).  In app.py a batch made of an item whose
    clientState has two fields and of a well-formed [deleted] item ends in a
    [ValueError] that the loop does not catch: the handler gives no 202 and
    the second item is never processed, although alone it is accepted with
    one DELETE to the e-mail cache. *)
Theorem callback_malformed_clientState_escapes (env : Env) :
  App.handle_subscription_callback "messages" "ab6919a6"
    (notification_request [malformed_item; deleted_item]) env callback_world
  = (Raise (ValueError "wrong number of values to unpack"), callback_world)
  /\ App.handle_subscription_callback "messages" "ab6919a6"
       (notification_request [deleted_item]) env callback_world
     = (Ok (Response "" 202),
        add_call (DELETE "https://c.example/mail/?id=m2" []) callback_world).
Proof. split; vm_compute; reflexivity. Qed.

(** What the loop does catch: when every item returns or raises a
    [MiddlewareException], the whole batch is accepted. *)
Lemma App_callback_accepts subscription hkey1 (values : list Json) env :
  (forall value w, In value values ->
     match fst (App._handle_subscription_callback_value subscription hkey1 value env w) with
     | Ok _ => True
     | Raise e => is_MiddlewareException e
     | OutOfFuel => False
     end) ->
  forall w, exists w',
    for_each values (App_item subscription hkey1) env w = (Ok tt, w').
Proof.
  induction values as [|value values IH]; intros Hv w; cbn [for_each].
  - eexists; reflexivity.
  - specialize (Hv value w (or_introl eq_refl)) as Hx.
    unfold bind, App_item at 1, swallow_MiddlewareException, try_except, bind, ret.
    destruct (App._handle_subscription_callback_value subscription hkey1 value env w)
      as [[r|e|] w1]; cbn in Hx; try contradiction.
    + apply IH. intros v w' Hin. apply Hv. now right.
    + destruct e; try contradiction. apply IH. intros v w' Hin. apply Hv. now right.
Qed.

(** *** An item whose key is not in the state store *)

(** The clientState of an item, cut at its two carets. *)
Definition client_state_fields (value : Json) (hkey0 mail manager_mail : string) : Prop :=
  exists client_state,
    Py.getitem value "clientState" = Ok (JStr client_state)
    /\ PyStr.split "^" client_state = [hkey0; mail; manager_mail].

Definition empty_file_message : string :=
  Application.GLOBAL_STATE_PATH +:+ " is empty " +:+ "at point of receiving webhook callback".

(** C9, as stated, fails in application.py when the state file does not
    exist: the item ends in a [MiddlewareException], and what is logged is an
    error, not a warning. *)
Lemma unknown_key_without_state_file :
  Application._handle_subscription_callback_value "messages" "ab6919a6" deleted_item
    quiet_env (MkWorld None [] [] 0)
  = (Raise (MiddlewareException empty_file_message),
     MkWorld None [] [(ERROR, empty_file_message)] 0).
Proof. vm_compute. reflexivity. Qed.

(** C9 (amended).  An item whose rebuilt key has no entry in the state store
    makes no HTTP call and leaves store and clock alone; in app.py, and in
    application.py when the state file exists, it returns with one warning
    logged; in application.py without a state file it raises a
    [MiddlewareException], logged as an error, that the loop swallows.  In
    each case the loop goes on with the items that follow, from a world in
    which only the log has grown, and the batch is answered with 202 when the
    items before and after it end. *)
Theorem unknown_key_item_is_skipped
    (subscription hkey1 hkey0 mail manager_mail : string) (value : Json) (env : Env) :
  client_state_fields value hkey0 mail manager_mail ->
  (forall w : World App.Store,
      store w !! (hkey0 +:+ hkey1) = None ->
      let w' := add_log WARNING ("Received unexpected hkey " +:+ hkey0 +:+ hkey1) w in
      App._handle_subscription_callback_value subscription hkey1 value env w
      = (Ok (Some (Response "" 202)), w')
      /\ forall request jsonbody before after w0 w2,
           lookup_arg "validationToken" (args request) = None ->
           data request = Some jsonbody ->
           Py.getitem jsonbody "value" = Ok (JList (before ++ value :: after)) ->
           for_each before (App_item subscription hkey1) env w0 = (Ok tt, w) ->
           for_each after (App_item subscription hkey1) env w' = (Ok tt, w2) ->
           App.handle_subscription_callback subscription hkey1 request env w0
           = (Ok (Response "" 202), w2))
  /\ (forall (w : World Application.Store) state_file,
         store w = Some state_file ->
         state_file !! (hkey0 +:+ hkey1) = None ->
         let w' := add_log WARNING ("Received unexpected hkey " +:+ hkey0 +:+ hkey1) w in
         Application._handle_subscription_callback_value subscription hkey1 value env w
         = (Ok (Some (Response "" 202)), w')
         /\ forall request jsonbody before after w0 w2,
              lookup_arg "validationToken" (args request) = None ->
              data request = Some jsonbody ->
              Py.getitem jsonbody "value" = Ok (JList (before ++ value :: after)) ->
              for_each before (Application_item subscription hkey1) env w0 = (Ok tt, w) ->
              for_each after (Application_item subscription hkey1) env w' = (Ok tt, w2) ->
              Application.handle_subscription_callback subscription hkey1 request env w0
              = (Ok (Response "" 202), w2))
  /\ (forall w : World Application.Store,
         store w = None ->
         let w' := add_log ERROR empty_file_message w in
         Application._handle_subscription_callback_value subscription hkey1 value env w
         = (Raise (MiddlewareException empty_file_message), w')
         /\ forall request jsonbody before after w0 w2,
              lookup_arg "validationToken" (args request) = None ->
              data request = Some jsonbody ->
              Py.getitem jsonbody "value" = Ok (JList (before ++ value :: after)) ->
              for_each before (Application_item subscription hkey1) env w0 = (Ok tt, w) ->
              for_each after (Application_item subscription hkey1) env w' = (Ok tt, w2) ->
              Application.handle_subscription_callback subscription hkey1 request env w0
              = (Ok (Response "" 202), w2)).
Proof.
  intros (client_state & Hcs & Hsplit).
  split; [|split].
  - intros w Hkey w'.
    assert (Hitem : App._handle_subscription_callback_value subscription hkey1 value env w
                    = (Ok (Some (Response "" 202)), w')).
    { unfold App._handle_subscription_callback_value, App.get_data.
      mrun. rewrite Hcs. mrun. cbn [Py.str_method]. mrun. rewrite Hsplit. mrun.
      rewrite Hkey. reflexivity. }
    split; [exact Hitem|].
    intros request jsonbody before after w0 w2 Ht Hd Hv Hb Ha.
    rewrite (App_callback_loop _ _ _ _ _ _ _ Ht Hd Hv).
    rewrite (for_each_app _ _ _ _ _ _ Hb). cbn [for_each].
    unfold bind at 1, App_item at 1, swallow_MiddlewareException, try_except, bind.
    rewrite Hitem. cbv [ret]. fold w'. rewrite Ha. reflexivity.
  - intros w state_file Hfile Hkey w'.
    assert (Hitem : Application._handle_subscription_callback_value subscription hkey1 value
                      env w = (Ok (Some (Response "" 202)), w')).
    { unfold Application._handle_subscription_callback_value, Application.get_data.
      mrun. rewrite Hcs. mrun. cbn [Py.str_method]. mrun. rewrite Hsplit. mrun.
      rewrite Hfile, Hkey. reflexivity. }
    split; [exact Hitem|].
    intros request jsonbody before after w0 w2 Ht Hd Hv Hb Ha.
    rewrite (Application_callback_loop _ _ _ _ _ _ _ Ht Hd Hv).
    rewrite (for_each_app _ _ _ _ _ _ Hb). cbn [for_each].
    unfold bind at 1, Application_item at 1, swallow_MiddlewareException, try_except, bind.
    rewrite Hitem. cbv [ret]. fold w'. rewrite Ha. reflexivity.
  - intros w Hfile w'.
    assert (Hitem : Application._handle_subscription_callback_value subscription hkey1 value
                      env w = (Raise (MiddlewareException empty_file_message), w')).
    { unfold Application._handle_subscription_callback_value, Application.get_data.
      mrun. rewrite Hcs. mrun. cbn [Py.str_method]. mrun. rewrite Hsplit. mrun.
      rewrite Hfile. reflexivity. }
    split; [exact Hitem|].
    intros request jsonbody before after w0 w2 Ht Hd Hv Hb Ha.
    rewrite (Application_callback_loop _ _ _ _ _ _ _ Ht Hd Hv).
    rewrite (for_each_app _ _ _ _ _ _ Hb). cbn [for_each].
    unfold bind at 1, Application_item at 1, swallow_MiddlewareException, try_except, bind.
    rewrite Hitem. cbv [ret]. fold w'. rewrite Ha. reflexivity.
Qed.

Lemma unknown_key_item_is_skipped_witness :
  client_state_fields deleted_item "6780fb97" "ann@x.org" "boss@x.org"
  /\ App.handle_subscription_callback "messages" "ab6919a6"
       (notification_request [deleted_item]) quiet_env empty_world
     = (Ok (Response "" 202),
        add_log WARNING "Received unexpected hkey 6780fb97ab6919a6" empty_world).
Proof.
  assert (H : client_state_fields deleted_item "6780fb97" "ann@x.org" "boss@x.org").
  { exists "6780fb97^ann@x.org^boss@x.org". split; reflexivity. }
  split; [exact H|].
  destruct (unknown_key_item_is_skipped "messages" "ab6919a6" "6780fb97" "ann@x.org"
              "boss@x.org" deleted_item quiet_env H) as (Happ & _).
  destruct (Happ empty_world (lookup_empty _)) as [_ Hbatch].
  apply (Hbatch (notification_request [deleted_item])
                (JObj [("value", JList [deleted_item])]) [] []); reflexivity.
Defined.

(** ** The change processor *)

Section JsonFacts.

Lemma getitem_obj (j : Json) (k : string) (v : Json) :
  Py.getitem j k = Ok v -> exists kvs, j = JObj kvs /\ Py.assoc k kvs = Some v.
Proof.
  destruct j; cbn; try discriminate. destruct (Py.assoc k kvs) eqn:E; [|discriminate].
  intros [= ->]. eauto.
Qed.

Lemma assoc_set_assoc_eq (k : string) (v : Json) (kvs : list (string * Json)) :
  Py.assoc k (Py.set_assoc k v kvs) = Some v.
Proof.
  induction kvs as [|[k' v'] kvs IH]; cbn.
  - now rewrite String.eqb_refl.
  - destruct (String.eqb k' k) eqn:E; cbn.
    + now rewrite String.eqb_refl.
    + now rewrite E.
Qed.

Lemma assoc_set_assoc_ne (k k' : string) (v : Json) (kvs : list (string * Json)) :
  k <> k' -> Py.assoc k' (Py.set_assoc k v kvs) = Py.assoc k' kvs.
Proof.
  intros Hne. induction kvs as [|[k0 v0] kvs IH]; cbn.
  - destruct (String.eqb_spec k k'); [contradiction|reflexivity].
  - destruct (String.eqb_spec k0 k) as [->|Hk]; cbn.
    + destruct (String.eqb_spec k k'); [contradiction|reflexivity].
    + destruct (String.eqb_spec k0 k'); [reflexivity|exact IH].
Qed.

(** [d.update({k1: v1, k2: v2})] on a dict, for two different keys. *)
Lemma update_two (j : Json) (k1 k2 : string) (v1 v2 : Json) :
  k1 <> k2 ->
  (exists k0 v0, Py.getitem j k0 = Ok v0) ->
  exists j',
    Py.update j [(k1, v1); (k2, v2)] = Ok j'
    /\ Py.getitem j' k1 = Ok v1
    /\ Py.getitem j' k2 = Ok v2
    /\ forall k v, k <> k1 -> k <> k2 -> Py.getitem j k = Ok v -> Py.getitem j' k = Ok v.
Proof.
  intros Hne (k0 & v0 & H0). destruct (getitem_obj _ _ _ H0) as (kvs & -> & _).
  eexists. split; [reflexivity|]. cbn [fold_left fst snd Py.getitem].
  rewrite assoc_set_assoc_eq.
  rewrite (assoc_set_assoc_ne k2 k1) by congruence. rewrite assoc_set_assoc_eq.
  split; [reflexivity|]. split; [reflexivity|].
  intros k v Hk1 Hk2. rewrite !assoc_set_assoc_ne by congruence. auto.
Qed.

End JsonFacts.

(** *** The event path *)

(** The start of an event, as [parse_event] reads it. *)
Definition event_start (event : Json) (eventdt : DateTime.datetime) : Prop :=
  exists start dateTime,
    Py.getitem event "start" = Ok start
    /\ Py.getitem start "dateTime" = Ok (JStr dateTime)
    /\ DateTime.strptime (List.hd "" (PyStr.split1 "." dateTime)) = Some eventdt.

(** The text handed to the meeting-link extractor: the display name of the
    location, a caret, the content of the body. *)
Definition event_text (event : Json) (astring : string) : Prop :=
  exists location displayName body content,
    Py.getitem event "location" = Ok location
    /\ Py.getitem location "displayName" = Ok (JStr displayName)
    /\ Py.getitem event "body" = Ok body
    /\ Py.getitem body "content" = Ok (JStr content)
    /\ astring = displayName +:+ "^" +:+ content.

Definition sample_event : Json :=
  JObj [("id", JStr "ev1");
        ("start", JObj [("dateTime", JStr "2026-11-03T12:00:00.0000000")]);
        ("location", JObj [("displayName", JStr "Room A")]);
        ("body", JObj [("content", JStr "Join at https://foo.webex.com/meet now")])].

(** C6, as stated, fails in app.py: an event two hours ahead is PUT to the
    calendar cache five times, not once. *)
Lemma parse_event_puts_five_times :
  calls (snd (App.parse_event sample_event (JStr "ann@x.org") "https://c.example/cal"
                quiet_env empty_world))
  = repeat (PUT "https://c.example/cal"
              (JObj [("id", JStr "ev1");
                     ("start", JObj [("dateTime", JStr "2026-11-03T12:00:00.0000000")]);
                     ("location", JObj [("displayName", JStr "Room A")]);
                     ("body", JObj [("content", JStr "Join at https://foo.webex.com/meet now")]);
                     ("owner", JStr "ann@x.org");
                     ("meetingLink", JStr "https://foo.webex.com/meet")])) 5
  /\ length (calls (snd (App.parse_event sample_event (JStr "ann@x.org")
                           "https://c.example/cal" quiet_env empty_world))) <> 1%nat.
Proof. split; vm_compute; [reflexivity|discriminate]. Qed.

Section EventPath.
Variables (event owner : Json) (calendar_webhook : string) (eventdt : DateTime.datetime).
Variable env : Env.
Hypothesis Hstart : event_start event eventdt.

Lemma App_parse_event_outside (w : World App.Store) :
  eventdt < clock env (ticks w) - DateTime.timedelta_days 1
  \/ clock env (Datatypes.S (ticks w)) + DateTime.timedelta_days 8 < eventdt ->
  exists w', App.parse_event event owner calendar_webhook env w = (Ok tt, w')
             /\ calls w' = calls w /\ logs w' = logs w /\ store w' = store w.
Proof using Hstart.
  destruct Hstart as (start & dateTime & Hs & Hd & Hp). intros Hout.
  unfold App.parse_event. mrun. rewrite Hs. mrun. rewrite Hd. mrun.
  cbn [Py.str_method]. mrun. rewrite Hp. mrun.
  destruct (Z.ltb_spec eventdt (clock env (ticks w) - DateTime.timedelta_days 1)).
  - eexists; repeat split; reflexivity.
  - mrun. unfold App.CALENDAR_DAYS_TO_CACHE.
    destruct (Z.ltb_spec (clock env (Datatypes.S (ticks w)) + DateTime.timedelta_days 8)
                eventdt); [|lia].
    eexists; repeat split; reflexivity.
Qed.

Lemma Application_parse_event_outside (w : World Application.Store) :
  eventdt < clock env (ticks w) - DateTime.timedelta_days 1
  \/ clock env (Datatypes.S (ticks w)) + DateTime.timedelta_days 8 < eventdt ->
  exists w', Application.parse_event event owner calendar_webhook env w = (Ok tt, w')
             /\ calls w' = calls w /\ logs w' = logs w /\ store w' = store w.
Proof using Hstart.
  destruct Hstart as (start & dateTime & Hs & Hd & Hp). intros Hout.
  unfold Application.parse_event. mrun. rewrite Hs. mrun. rewrite Hd. mrun.
  cbn [Py.str_method]. mrun. rewrite Hp. mrun.
  destruct (Z.ltb_spec eventdt (clock env (ticks w) - DateTime.timedelta_days 1)).
  - eexists; repeat split; reflexivity.
  - mrun. unfold Application.CALENDAR_DAYS_TO_CACHE.
    destruct (Z.ltb_spec (clock env (Datatypes.S (ticks w)) + DateTime.timedelta_days 8)
                eventdt); [|lia].
    eexists; repeat split; reflexivity.
Qed.

Variables (astring : string) (meeting_link : option string) (id : Json).
Hypothesis Htext : event_text event astring.
Hypothesis Hlink : extract_meetinglink astring = Ok meeting_link.
Hypothesis Hid : Py.getitem event "id" = Ok id.

Lemma App_parse_event_inside (w : World App.Store) :
  clock env (ticks w) - DateTime.timedelta_days 1 <= eventdt ->
  eventdt <= clock env (Datatypes.S (ticks w)) + DateTime.timedelta_days 8 ->
  exists event' w',
    Py.update event [("owner", owner); ("meetingLink", Py.of_option_str meeting_link)]
    = Ok event'
    /\ Py.getitem event' "owner" = Ok owner
    /\ Py.getitem event' "meetingLink" = Ok (Py.of_option_str meeting_link)
    /\ App.parse_event event owner calendar_webhook env w = (Ok tt, w')
    /\ calls w' = calls w ++ repeat (PUT calendar_webhook event') 5
    /\ store w' = store w.
Proof using Hstart Htext Hlink Hid.
  destruct Hstart as (start & dateTime & Hs & Hd & Hp).
  destruct Htext as (location & displayName & body & content & Hl & Hdn & Hb & Hc & ->).
  intros Hlo Hhi.
  destruct (update_two event "owner" "meetingLink" owner (Py.of_option_str meeting_link))
    as (event' & Hu & Ho & Hm & Hrest); [discriminate|eauto|].
  exists event'.
  assert (Hid' : Py.getitem event' "id" = Ok id)
    by (apply Hrest; [discriminate|discriminate|exact Hid]).
  unfold App.parse_event. mrun. rewrite Hs. mrun. rewrite Hd. mrun.
  cbn [Py.str_method]. mrun. rewrite Hp. mrun.
  destruct (Z.ltb_spec eventdt (clock env (ticks w) - DateTime.timedelta_days 1)); [lia|].
  mrun. unfold App.CALENDAR_DAYS_TO_CACHE.
  destruct (Z.ltb_spec (clock env (Datatypes.S (ticks w)) + DateTime.timedelta_days 8)
              eventdt); [lia|].
  rewrite Hl. mrun. rewrite Hdn. mrun. cbn [Py.str_operand]. mrun.
  rewrite Hb. mrun. rewrite Hc. mrun. cbn [Py.str_operand]. mrun.
  rewrite Hlink. mrun. rewrite Hu. mrun. rewrite Hid'. mrun.
  cbn [repeat_last]. mrun.
  match goal with |- context [negb (ok ?r)] => destruct (negb (ok r)) end;
    eexists; (split; [reflexivity|]); (split; [exact Ho|]); (split; [exact Hm|]);
    (split; [reflexivity|]); cbn [calls store repeat]; rewrite <- ?app_assoc;
    split; reflexivity.
Qed.

Lemma Application_parse_event_inside (w : World Application.Store) :
  clock env (ticks w) - DateTime.timedelta_days 1 <= eventdt ->
  eventdt <= clock env (Datatypes.S (ticks w)) + DateTime.timedelta_days 8 ->
  exists event' w',
    Py.update event [("owner", owner); ("meetingLink", Py.of_option_str meeting_link)]
    = Ok event'
    /\ Py.getitem event' "owner" = Ok owner
    /\ Py.getitem event' "meetingLink" = Ok (Py.of_option_str meeting_link)
    /\ Application.parse_event event owner calendar_webhook env w = (Ok tt, w')
    /\ calls w' = calls w ++ [PUT calendar_webhook event']
    /\ store w' = store w.
Proof using Hstart Htext Hlink Hid.
  destruct Hstart as (start & dateTime & Hs & Hd & Hp).
  destruct Htext as (location & displayName & body & content & Hl & Hdn & Hb & Hc & ->).
  intros Hlo Hhi.
  destruct (update_two event "owner" "meetingLink" owner (Py.of_option_str meeting_link))
    as (event' & Hu & Ho & Hm & Hrest); [discriminate|eauto|].
  exists event'.
  assert (Hid' : Py.getitem event' "id" = Ok id)
    by (apply Hrest; [discriminate|discriminate|exact Hid]).
  unfold Application.parse_event. mrun. rewrite Hs. mrun. rewrite Hd. mrun.
  cbn [Py.str_method]. mrun. rewrite Hp. mrun.
  destruct (Z.ltb_spec eventdt (clock env (ticks w) - DateTime.timedelta_days 1)); [lia|].
  mrun. unfold Application.CALENDAR_DAYS_TO_CACHE.
  destruct (Z.ltb_spec (clock env (Datatypes.S (ticks w)) + DateTime.timedelta_days 8)
              eventdt); [lia|].
  rewrite Hl. mrun. rewrite Hdn. mrun. cbn [Py.str_operand]. mrun.
  rewrite Hb. mrun. rewrite Hc. mrun. cbn [Py.str_operand]. mrun.
  rewrite Hlink. mrun. rewrite Hu. mrun. rewrite Hid'. mrun.
  match goal with |- context [negb (ok ?r)] => destruct (negb (ok r)) end;
    eexists; (split; [reflexivity|]); (split; [exact Ho|]); (split; [exact Hm|]);
    (split; [reflexivity|]); cbn [calls store]; split; reflexivity.
Qed.

End EventPath.

(** C6 (amended).  An event whose start is more than one day before the clock
    reading, or more than eight days after it, gives no call to the calendar
    cache webhook.  An event inside that window, whose text gives a meeting
    link (or none) without error, gives PUTs to the calendar cache webhook
    whose body is the event with [owner] and with [meetingLink] set to what
    the extractor finds in the display name of the location, a caret, and the
    content of the body: five identical PUTs in app.py, exactly one in
    application.py. *)
Theorem parse_event_window
    (event owner : Json) (calendar_webhook : string) (eventdt : DateTime.datetime)
    (env : Env) :
  event_start event eventdt ->
  (forall w : World App.Store,
      (eventdt < clock env (ticks w) - DateTime.timedelta_days 1
       \/ clock env (Datatypes.S (ticks w)) + DateTime.timedelta_days 8 < eventdt ->
       exists w', App.parse_event event owner calendar_webhook env w = (Ok tt, w')
                  /\ calls w' = calls w)
      /\ (clock env (ticks w) - DateTime.timedelta_days 1 <= eventdt ->
          eventdt <= clock env (Datatypes.S (ticks w)) + DateTime.timedelta_days 8 ->
          forall astring meeting_link id,
            event_text event astring ->
            extract_meetinglink astring = Ok meeting_link ->
            Py.getitem event "id" = Ok id ->
            exists event' w',
              Py.update event [("owner", owner);
                               ("meetingLink", Py.of_option_str meeting_link)] = Ok event'
              /\ Py.getitem event' "owner" = Ok owner
              /\ Py.getitem event' "meetingLink" = Ok (Py.of_option_str meeting_link)
              /\ App.parse_event event owner calendar_webhook env w = (Ok tt, w')
              /\ calls w' = calls w ++ repeat (PUT calendar_webhook event') 5))
  /\ (forall w : World Application.Store,
         (eventdt < clock env (ticks w) - DateTime.timedelta_days 1
          \/ clock env (Datatypes.S (ticks w)) + DateTime.timedelta_days 8 < eventdt ->
          exists w', Application.parse_event event owner calendar_webhook env w = (Ok tt, w')
                     /\ calls w' = calls w)
         /\ (clock env (ticks w) - DateTime.timedelta_days 1 <= eventdt ->
             eventdt <= clock env (Datatypes.S (ticks w)) + DateTime.timedelta_days 8 ->
             forall astring meeting_link id,
               event_text event astring ->
               extract_meetinglink astring = Ok meeting_link ->
               Py.getitem event "id" = Ok id ->
               exists event' w',
                 Py.update event [("owner", owner);
                                  ("meetingLink", Py.of_option_str meeting_link)] = Ok event'
                 /\ Py.getitem event' "owner" = Ok owner
                 /\ Py.getitem event' "meetingLink" = Ok (Py.of_option_str meeting_link)
                 /\ Application.parse_event event owner calendar_webhook env w = (Ok tt, w')
                 /\ calls w' = calls w ++ [PUT calendar_webhook event'])).
Proof.
  intros Hstart. split; intros w; split.
  - intros Hout.
    destruct (App_parse_event_outside event owner calendar_webhook eventdt env Hstart w Hout)
      as (w' & H1 & H2 & _). eauto.
  - intros Hlo Hhi astring meeting_link id Ht Hl Hid.
    destruct (App_parse_event_inside event owner calendar_webhook eventdt env Hstart
                astring meeting_link id Ht Hl Hid w Hlo Hhi)
      as (event' & w' & H1 & H2 & H3 & H4 & H5 & _).
    exists event', w'. auto.
  - intros Hout.
    destruct (Application_parse_event_outside event owner calendar_webhook eventdt env
                Hstart w Hout) as (w' & H1 & H2 & _). eauto.
  - intros Hlo Hhi astring meeting_link id Ht Hl Hid.
    destruct (Application_parse_event_inside event owner calendar_webhook eventdt env Hstart
                astring meeting_link id Ht Hl Hid w Hlo Hhi)
      as (event' & w' & H1 & H2 & H3 & H4 & H5 & _).
    exists event', w'. auto.
Qed.

Lemma parse_event_window_witness :
  event_start sample_event (DateTime.make 2026 11 3 12 0 0 0)
  /\ (exists event' w',
         Py.getitem event' "meetingLink" = Ok (JStr "https://foo.webex.com/meet")
         /\ App.parse_event sample_event (JStr "ann@x.org") "https://c.example/cal"
              quiet_env empty_world = (Ok tt, w')
         /\ calls w' = repeat (PUT "https://c.example/cal" event') 5)
  /\ (exists event' w',
         Application.parse_event sample_event (JStr "ann@x.org") "https://c.example/cal"
           quiet_env (MkWorld None [] [] 0) = (Ok tt, w')
         /\ calls w' = [PUT "https://c.example/cal" event']).
Proof.
  assert (Hs : event_start sample_event (DateTime.make 2026 11 3 12 0 0 0)).
  { exists (JObj [("dateTime", JStr "2026-11-03T12:00:00.0000000")]),
      "2026-11-03T12:00:00.0000000".
    repeat split; vm_compute; reflexivity. }
  assert (Ht : event_text sample_event "Room A^Join at https://foo.webex.com/meet now").
  { exists (JObj [("displayName", JStr "Room A")]), "Room A",
      (JObj [("content", JStr "Join at https://foo.webex.com/meet now")]),
      "Join at https://foo.webex.com/meet now".
    repeat split; reflexivity. }
  split; [exact Hs|].
  destruct (parse_event_window sample_event (JStr "ann@x.org") "https://c.example/cal"
              (DateTime.make 2026 11 3 12 0 0 0) quiet_env Hs) as [Happ Happl].
  split.
  - destruct (Happ empty_world) as [_ Hin].
    destruct (Hin ltac:(vm_compute; discriminate) ltac:(vm_compute; discriminate)
                "Room A^Join at https://foo.webex.com/meet now"
                (Some "https://foo.webex.com/meet") (JStr "ev1") Ht
                ltac:(vm_compute; reflexivity) eq_refl)
      as (event' & w' & _ & _ & Hm & Hrun & Hcalls).
    exists event', w'. auto.
  - destruct (Happl (MkWorld None [] [] 0)) as [_ Hin].
    destruct (Hin ltac:(vm_compute; discriminate) ltac:(vm_compute; discriminate)
                "Room A^Join at https://foo.webex.com/meet now"
                (Some "https://foo.webex.com/meet") (JStr "ev1") Ht
                ltac:(vm_compute; reflexivity) eq_refl)
      as (event' & w' & _ & _ & _ & Hrun & Hcalls).
    exists event', w'. auto.
Defined.

(** *** The message path *)

(** The sender address of a message, as [process_message] reads it. *)
Definition message_sender (jsondata : Json) (address : string) : Prop :=
  exists from emailAddress,
    Py.getitem jsondata "from" = Ok from
    /\ Py.getitem from "emailAddress" = Ok emailAddress
    /\ Py.getitem emailAddress "address" = Ok (JStr address).

(** The GET of [url] is answered, at [w], with the JSON object [jsondata]. *)
Definition fetched {S} (env : Env) (w : World S) (url : string) (hd : Headers)
    (jsondata : Json) : Prop :=
  ok (http env (calls w) (GET url hd)) = true
  /\ json (http env (calls w) (GET url hd)) = Some jsondata
  /\ Py.contains "error" jsondata = Ok false
  /\ Py.truthy jsondata = true.

Definition message_url (graph_api_url odata_id : string) : string :=
  graph_api_url +:+ "/v1.0/" +:+ odata_id +:+ "?"
  +:+ "$select=id,subject,from,toRecipients,"
  +:+ "importance,sentDateTime,webLink,isRead".

Definition sample_message (address importance : string) : Json :=
  JObj [("id", JStr "m1");
        ("from", JObj [("emailAddress", JObj [("address", JStr address)])]);
        ("importance", JStr importance)].

Definition message_env (jsondata : Json) : Env :=
  {| http := fun _ _ => {| status_code := 200; text := ""; json := Some jsondata |};
     clock := fun n => DateTime.make 2026 11 3 10 0 (Z.of_nat n) 0 |}.

(** C7, as stated, fails: a manager address from the clientState that is not
    in lower case differs from the lower-cased sender although the two are
    equal up to case, and the message of normal importance is dropped. *)
Lemma process_message_manager_case :
  PyStr.lower "Boss@x.org" = PyStr.lower "boss@x.org"
  /\ calls (snd (Application.process_message known_state "ann@x.org" "Boss@x.org"
                   "Users/u1/Messages/m1"
                   (message_env (sample_message "boss@x.org" "normal"))
                   (MkWorld None [] [] 0)))
     = [GET (message_url Application.GRAPH_API_URL "Users/u1/Messages/m1")
            (Application.state_headers known_state)].
Proof. split; vm_compute; reflexivity. Qed.

Section MessagePath.
Variables (globalstateentry : State) (mail manager_mail odata_id : string).
Variables (jsondata : Json) (address : string) (env : Env).
Hypothesis Hsender : message_sender jsondata address.

Lemma odata_getone_fetched {S} (w : World S) (url : string) (hd : Headers) (j : Json) :
  fetched env w url hd j ->
  odata_getone (JStr url) hd env w = (Ok (Some j), add_call (GET url hd) w).
Proof.
  intros (Hok & Hj & Herr & _). rewrite odata_getone_run, Hok, Hj, Herr. reflexivity.
Qed.

Lemma App_process_message_drops (w : World App.Store) (importance : Json) :
  fetched env w (message_url App.GRAPH_API_URL odata_id)
          (App.get_headers (authorization globalstateentry)) jsondata ->
  String.eqb manager_mail (PyStr.lower address) = false ->
  Py.getitem jsondata "importance" = Ok importance ->
  Py.eq_str importance "high" = false ->
  App.process_message globalstateentry mail manager_mail odata_id env w
  = (Ok tt, add_call (GET (message_url App.GRAPH_API_URL odata_id)
                          (App.get_headers (authorization globalstateentry))) w).
Proof using Hsender.
  destruct Hsender as (from & emailAddress & Hf & He & Ha).
  intros Hfetch Hm Hi Hh. pose proof Hfetch as (_ & _ & _ & Ht).
  unfold App.process_message. cbv zeta. unfold bind at 1.
  change (App.GRAPH_API_URL +:+ _) with (message_url App.GRAPH_API_URL odata_id).
  rewrite (odata_getone_fetched _ _ _ _ Hfetch), Ht. cbn [negb].
  mrun. rewrite Hf. mrun. rewrite He. mrun. rewrite Ha. mrun. cbn [Py.str_method]. mrun.
  rewrite Hm. mrun. rewrite Hi. mrun. rewrite Hh. reflexivity.
Qed.

Lemma Application_process_message_drops (w : World Application.Store) (importance : Json) :
  fetched env w (message_url Application.GRAPH_API_URL odata_id)
          (Application.state_headers globalstateentry) jsondata ->
  String.eqb manager_mail (PyStr.lower address) = false ->
  Py.getitem jsondata "importance" = Ok importance ->
  Py.eq_str importance "high" = false ->
  Application.process_message globalstateentry mail manager_mail odata_id env w
  = (Ok tt, add_call (GET (message_url Application.GRAPH_API_URL odata_id)
                          (Application.state_headers globalstateentry)) w).
Proof using Hsender.
  destruct Hsender as (from & emailAddress & Hf & He & Ha).
  intros Hfetch Hm Hi Hh. pose proof Hfetch as (_ & _ & _ & Ht).
  unfold Application.process_message. cbv zeta. unfold bind at 1.
  change (Application.GRAPH_API_URL +:+ _)
    with (message_url Application.GRAPH_API_URL odata_id).
  rewrite (odata_getone_fetched _ _ _ _ Hfetch), Ht. cbn [negb].
  mrun. rewrite Hf. mrun. rewrite He. mrun. rewrite Ha. mrun. cbn [Py.str_method]. mrun.
  rewrite Hm. mrun. rewrite Hi. mrun. rewrite Hh. reflexivity.
Qed.

Variable id : Json.
Hypothesis Hid : Py.getitem jsondata "id" = Ok id.
Hypothesis Hforward :
  String.eqb manager_mail (PyStr.lower address) = true
  \/ Py.getitem jsondata "importance" = Ok (JStr "high").

Lemma App_process_message_forwards (w : World App.Store) :
  fetched env w (message_url App.GRAPH_API_URL odata_id)
          (App.get_headers (authorization globalstateentry)) jsondata ->
  exists jsondata' w',
    Py.update jsondata
      [("owner", JStr mail);
       ("is_from_manager", JBool (String.eqb manager_mail (PyStr.lower address)))]
    = Ok jsondata'
    /\ Py.getitem jsondata' "owner" = Ok (JStr mail)
    /\ Py.getitem jsondata' "is_from_manager"
       = Ok (JBool (String.eqb manager_mail (PyStr.lower address)))
    /\ App.process_message globalstateentry mail manager_mail odata_id env w = (Ok tt, w')
    /\ calls w' = calls w
                  ++ GET (message_url App.GRAPH_API_URL odata_id)
                         (App.get_headers (authorization globalstateentry))
                  :: repeat (PUT (email_webhook globalstateentry) jsondata') 5.
Proof using Hsender Hid Hforward.
  destruct Hsender as (from & emailAddress & Hf & He & Ha).
  intros Hfetch. pose proof Hfetch as (_ & _ & _ & Ht).
  destruct (update_two jsondata "owner" "is_from_manager" (JStr mail)
              (JBool (String.eqb manager_mail (PyStr.lower address))))
    as (jsondata' & Hu & Ho & Hm & Hrest); [discriminate|eauto|].
  exists jsondata'.
  assert (Hid' : Py.getitem jsondata' "id" = Ok id)
    by (apply Hrest; [discriminate|discriminate|exact Hid]).
  unfold App.process_message. cbv zeta. unfold bind at 1.
  change (App.GRAPH_API_URL +:+ _) with (message_url App.GRAPH_API_URL odata_id).
  rewrite (odata_getone_fetched _ _ _ _ Hfetch), Ht. cbn [negb].
  mrun. rewrite Hf. mrun. rewrite He. mrun. rewrite Ha. mrun. cbn [Py.str_method]. mrun.
  set (is_from_manager := String.eqb manager_mail (PyStr.lower address)) in *.
  assert (Hskip : is_from_manager = true
                  \/ (is_from_manager = false
                      /\ Py.getitem jsondata "importance" = Ok (JStr "high"))).
  { destruct is_from_manager; [now left|]. right.
    destruct Hforward as [|Hi]; [discriminate|]. now split. }
  destruct Hskip as [-> | [-> Hi]]; mrun; rewrite ?Hi; mrun;
    change (Py.eq_str (JStr "high") "high") with true; cbn [negb];
    rewrite Hu; mrun; rewrite Hid'; mrun; cbn [repeat_last]; mrun;
    match goal with |- context [negb (ok ?r)] => destruct (negb (ok r)) end;
    eexists; (split; [reflexivity|]); (split; [exact Ho|]); (split; [exact Hm|]);
    (split; [reflexivity|]); cbn [calls add_call repeat]; rewrite <- ?app_assoc;
    reflexivity.
Qed.

Lemma Application_process_message_forwards (w : World Application.Store) :
  fetched env w (message_url Application.GRAPH_API_URL odata_id)
          (Application.state_headers globalstateentry) jsondata ->
  exists jsondata' w',
    Py.update jsondata
      [("owner", JStr mail);
       ("is_from_manager", JBool (String.eqb manager_mail (PyStr.lower address)))]
    = Ok jsondata'
    /\ Py.getitem jsondata' "owner" = Ok (JStr mail)
    /\ Py.getitem jsondata' "is_from_manager"
       = Ok (JBool (String.eqb manager_mail (PyStr.lower address)))
    /\ Application.process_message globalstateentry mail manager_mail odata_id env w
       = (Ok tt, w')
    /\ calls w' = calls w
                  ++ [GET (message_url Application.GRAPH_API_URL odata_id)
                          (Application.state_headers globalstateentry);
                      PUT (email_webhook globalstateentry) jsondata'].
Proof using Hsender Hid Hforward.
  destruct Hsender as (from & emailAddress & Hf & He & Ha).
  intros Hfetch. pose proof Hfetch as (_ & _ & _ & Ht).
  destruct (update_two jsondata "owner" "is_from_manager" (JStr mail)
              (JBool (String.eqb manager_mail (PyStr.lower address))))
    as (jsondata' & Hu & Ho & Hm & Hrest); [discriminate|eauto|].
  exists jsondata'.
  assert (Hid' : Py.getitem jsondata' "id" = Ok id)
    by (apply Hrest; [discriminate|discriminate|exact Hid]).
  unfold Application.process_message. cbv zeta. unfold bind at 1.
  change (Application.GRAPH_API_URL +:+ _)
    with (message_url Application.GRAPH_API_URL odata_id).
  rewrite (odata_getone_fetched _ _ _ _ Hfetch), Ht. cbn [negb].
  mrun. rewrite Hf. mrun. rewrite He. mrun. rewrite Ha. mrun. cbn [Py.str_method]. mrun.
  set (is_from_manager := String.eqb manager_mail (PyStr.lower address)) in *.
  assert (Hskip : is_from_manager = true
                  \/ (is_from_manager = false
                      /\ Py.getitem jsondata "importance" = Ok (JStr "high"))).
  { destruct is_from_manager; [now left|]. right.
    destruct Hforward as [|Hi]; [discriminate|]. now split. }
  destruct Hskip as [-> | [-> Hi]]; mrun; rewrite ?Hi; mrun;
    change (Py.eq_str (JStr "high") "high") with true; cbn [negb];
    rewrite Hu; mrun; rewrite Hid'; mrun;
    match goal with |- context [negb (ok ?r)] => destruct (negb (ok r)) end;
    eexists; (split; [reflexivity|]); (split; [exact Ho|]); (split; [exact Hm|]);
    (split; [reflexivity|]); cbn [calls add_call]; rewrite <- ?app_assoc;
    reflexivity.
Qed.

End MessagePath.

(** C7 (amended).  On the message path [is_from_manager] is the equality of
    the manager address of the clientState with the lower-cased sender address
    of the fetched message; it is their equality up to case when the manager
    address is in lower case.  A fetched message whose importance is not high
    and for which [is_from_manager] is false gives no call to the e-mail cache
    webhook; any other fetched message is PUT to it (five times the same PUT
    in app.py, once in application.py) with [owner] and [is_from_manager]
    added. *)
Theorem process_message_filter
    (globalstateentry : State) (mail manager_mail odata_id : string)
    (jsondata : Json) (address : string) (env : Env) :
  message_sender jsondata address ->
  let is_from_manager := String.eqb manager_mail (PyStr.lower address) in
  (PyStr.lower manager_mail = manager_mail ->
   (is_from_manager = true <-> PyStr.lower manager_mail = PyStr.lower address))
  /\ (forall w : World App.Store,
         let url := message_url App.GRAPH_API_URL odata_id in
         let hd := App.get_headers (authorization globalstateentry) in
         fetched env w url hd jsondata ->
         (is_from_manager = false ->
          forall importance,
            Py.getitem jsondata "importance" = Ok importance ->
            Py.eq_str importance "high" = false ->
            App.process_message globalstateentry mail manager_mail odata_id env w
            = (Ok tt, add_call (GET url hd) w))
         /\ (is_from_manager = true \/ Py.getitem jsondata "importance" = Ok (JStr "high") ->
             forall id, Py.getitem jsondata "id" = Ok id ->
             exists jsondata' w',
               Py.update jsondata [("owner", JStr mail);
                                   ("is_from_manager", JBool is_from_manager)] = Ok jsondata'
               /\ Py.getitem jsondata' "owner" = Ok (JStr mail)
               /\ Py.getitem jsondata' "is_from_manager" = Ok (JBool is_from_manager)
               /\ App.process_message globalstateentry mail manager_mail odata_id env w
                  = (Ok tt, w')
               /\ calls w' = calls w ++ GET url hd
                             :: repeat (PUT (email_webhook globalstateentry) jsondata') 5))
  /\ (forall w : World Application.Store,
         let url := message_url Application.GRAPH_API_URL odata_id in
         let hd := Application.state_headers globalstateentry in
         fetched env w url hd jsondata ->
         (is_from_manager = false ->
          forall importance,
            Py.getitem jsondata "importance" = Ok importance ->
            Py.eq_str importance "high" = false ->
            Application.process_message globalstateentry mail manager_mail odata_id env w
            = (Ok tt, add_call (GET url hd) w))
         /\ (is_from_manager = true \/ Py.getitem jsondata "importance" = Ok (JStr "high") ->
             forall id, Py.getitem jsondata "id" = Ok id ->
             exists jsondata' w',
               Py.update jsondata [("owner", JStr mail);
                                   ("is_from_manager", JBool is_from_manager)] = Ok jsondata'
               /\ Py.getitem jsondata' "owner" = Ok (JStr mail)
               /\ Py.getitem jsondata' "is_from_manager" = Ok (JBool is_from_manager)
               /\ Application.process_message globalstateentry mail manager_mail odata_id
                    env w = (Ok tt, w')
               /\ calls w' = calls w ++ [GET url hd;
                                         PUT (email_webhook globalstateentry) jsondata'])).
Proof.
  intros Hsender is_from_manager. split; [|split].
  - intros Hlow. unfold is_from_manager. rewrite Hlow. apply String.eqb_eq.
  - intros w url hd Hfetch. split.
    + intros Hm importance Hi Hh.
      now apply (App_process_message_drops globalstateentry mail manager_mail odata_id
                   jsondata address env Hsender w importance).
    + intros Hfw id Hid.
      now apply (App_process_message_forwards globalstateentry mail manager_mail odata_id
                   jsondata address env Hsender id Hid Hfw w).
  - intros w url hd Hfetch. split.
    + intros Hm importance Hi Hh.
      now apply (Application_process_message_drops globalstateentry mail manager_mail
                   odata_id jsondata address env Hsender w importance).
    + intros Hfw id Hid.
      now apply (Application_process_message_forwards globalstateentry mail manager_mail
                   odata_id jsondata address env Hsender id Hid Hfw w).
Qed.

Lemma process_message_filter_witness :
  message_sender (sample_message "Boss@X.org" "normal") "Boss@X.org"
  /\ (exists jsondata' w',
         Py.getitem jsondata' "is_from_manager" = Ok (JBool true)
         /\ Application.process_message known_state "ann@x.org" "boss@x.org"
              "Users/u1/Messages/m1" (message_env (sample_message "Boss@X.org" "normal"))
              (MkWorld None [] [] 0) = (Ok tt, w')
         /\ calls w' = [GET (message_url Application.GRAPH_API_URL "Users/u1/Messages/m1")
                            (Application.state_headers known_state);
                        PUT "https://c.example/mail" jsondata'])
  /\ Application.process_message known_state "ann@x.org" "other@x.org"
       "Users/u1/Messages/m1" (message_env (sample_message "Boss@X.org" "normal"))
       (MkWorld None [] [] 0)
     = (Ok tt, add_call (GET (message_url Application.GRAPH_API_URL "Users/u1/Messages/m1")
                             (Application.state_headers known_state))
                        (MkWorld None [] [] 0)).
Proof.
  assert (Hs : message_sender (sample_message "Boss@X.org" "normal") "Boss@X.org").
  { exists (JObj [("emailAddress", JObj [("address", JStr "Boss@X.org")])]),
      (JObj [("address", JStr "Boss@X.org")]). repeat split; reflexivity. }
  split; [exact Hs|]. split.
  - destruct (process_message_filter known_state "ann@x.org" "boss@x.org"
                "Users/u1/Messages/m1" (sample_message "Boss@X.org" "normal") "Boss@X.org"
                (message_env (sample_message "Boss@X.org" "normal")) Hs)
      as (_ & _ & Happl).
    destruct (Happl (MkWorld None [] [] 0)) as [_ Hfw];
      [repeat split; reflexivity|].
    destruct (Hfw (or_introl eq_refl) (JStr "m1") eq_refl)
      as (jsondata' & w' & _ & _ & Hm & Hrun & Hcalls).
    exists jsondata', w'. auto.
  - destruct (process_message_filter known_state "ann@x.org" "other@x.org"
                "Users/u1/Messages/m1" (sample_message "Boss@X.org" "normal") "Boss@X.org"
                (message_env (sample_message "Boss@X.org" "normal")) Hs)
      as (_ & _ & Happl).
    destruct (Happl (MkWorld None [] [] 0)) as [Hdrop _];
      [repeat split; reflexivity|].
    apply (Hdrop eq_refl (JStr "normal")); reflexivity.
Defined.

(** ** The subscription manager *)

(** A user as [get_all_users] gives it: an id, a mail that is a string or
    null, and the manager mail that [get_all_users] has added. *)
Definition directory_user (user : Json) : Prop :=
  exists uid mail manager_mail,
    Py.getitem user "id" = Ok uid
    /\ Py.getitem user "mail" = Ok mail
    /\ (mail = JNull \/ exists s, mail = JStr s)
    /\ Py.getitem user "manager_mail" = Ok (JStr manager_mail).

(** The two subscription requests of a user whose mail is a string; none for
    another user. *)
Definition subscriptions_of (post : string -> Json -> string -> string -> Call) (user : Json)
  : list Call :=
  match Py.getitem user "id", Py.getitem user "mail", Py.getitem user "manager_mail" with
  | Ok uid, Ok (JStr mail), Ok (JStr manager_mail) =>
      [post "messages" uid mail manager_mail; post "events" uid mail manager_mail]
  | _, _, _ => []
  end.

Definition App_post (authorization : option string) (hkey : string * string)
    (now : DateTime.datetime) (subscription : string) (uid : Json) (mail manager_mail : string)
  : Call :=
  POST (App.GRAPH_API_URL +:+ "/v1.0/subscriptions") (App.get_headers authorization)
       (App.subscription_data hkey subscription (Py.format uid) mail manager_mail
          (DateTime.strftime_graph (now + DateTime.timedelta_hours 24)) "/").

Definition Application_post (hd : Headers) (hkey : string * string)
    (now : DateTime.datetime) (subscription : string) (uid : Json) (mail manager_mail : string)
  : Call :=
  POST (Application.GRAPH_API_URL +:+ "/v1.0/subscriptions") hd
       (Application.subscription_data hkey subscription (Py.format uid) mail manager_mail
          (DateTime.strftime_graph (now + DateTime.timedelta_hours 24))).

Definition tick {S} (w : World S) : World S :=
  MkWorld (store w) (calls w) (logs w) (Datatypes.S (ticks w)).

Section Subscriptions.
Variables (hkey : string * string) (calendar_webhook email_webhook : string) (env : Env).

(** application.py: every user with a mail gets its two requests, whatever
    the answers to the requests are; a user whose mail is null is passed over. *)
Lemma Application_register_subscriptions_calls (hd : Headers) (users : list Json)
    (w : World Application.Store) :
  Forall directory_user users ->
  exists w',
    Application.register_subscriptions hd hkey users calendar_webhook email_webhook env w
    = (Ok tt, w')
    /\ calls w' = calls w ++ flat_map (subscriptions_of
                                         (Application_post hd hkey (clock env (ticks w)))) users
    /\ store w' = store w.
Proof.
  intros Hu. unfold Application.register_subscriptions. mrun.
  unfold Application.HOURS_TO_SUBSCRIBE.
  change (MkWorld (store w) (calls w) (logs w) (Datatypes.S (ticks w))) with (tick w).
  assert (Hc : calls w = calls (tick w)) by reflexivity.
  assert (Hs : store w = store (tick w)) by reflexivity.
  rewrite Hc, Hs. generalize (tick w). clear Hc Hs.
  induction Hu as [|user users (uid & mail & mm & Hid & Hmail & Hshape & Hmm) _ IH];
    intros w1; cbn [for_each flat_map].
  - eexists. split; [reflexivity|]. rewrite app_nil_r. auto.
  - mrun. rewrite Hmail. mrun.
    destruct Hshape as [-> | [s ->]]; cbn [Application.is_None].
    + destruct (IH w1) as (w' & Hrun & Hcalls & Hstore).
      exists w'. split; [exact Hrun|]. split; [|exact Hstore].
      unfold subscriptions_of. rewrite Hid, Hmail. exact Hcalls.
    + rewrite Hid, Hmm. cbn [Py.str_operand]. mrun.
      unfold subscriptions_of. rewrite Hid, Hmail, Hmm.
      repeat match goal with
             | |- context [negb (ok ?r)] => destruct (negb (ok r)); mrun
             end;
        match goal with
        | |- context [for_each users _ env ?w2] =>
            destruct (IH w2) as (w' & Hrun & Hcalls & Hstore)
        end;
        exists w'; (split; [exact Hrun|]); (split; [|exact Hstore]);
        rewrite Hcalls; cbn [calls app]; rewrite <- !app_assoc; reflexivity.
Qed.

(** app.py: the same, provided no user has a null mail. *)
Lemma App_register_subscriptions_calls (authorization : option string) (users : list Json)
    (w : World App.Store) :
  Forall directory_user users ->
  Forall (fun user => exists s, Py.getitem user "mail" = Ok (JStr s)) users ->
  exists w',
    App.register_subscriptions authorization hkey users calendar_webhook email_webhook env w
    = (Ok tt, w')
    /\ calls w' = calls w ++ flat_map (subscriptions_of
                                         (App_post authorization hkey (clock env (ticks w))))
                                      users
    /\ store w' = store w.
Proof.
  intros Hu Hmails. unfold App.register_subscriptions. mrun.
  unfold App.HOURS_TO_SUBSCRIBE.
  change (MkWorld (store w) (calls w) (logs w) (Datatypes.S (ticks w))) with (tick w).
  assert (Hc : calls w = calls (tick w)) by reflexivity.
  assert (Hs : store w = store (tick w)) by reflexivity.
  rewrite Hc, Hs. generalize (tick w). clear Hc Hs.
  induction Hu as [|user users (uid & mail & mm & Hid & Hmail & _ & Hmm) _ IH];
    intros w1; cbn [for_each flat_map].
  - eexists. split; [reflexivity|]. rewrite app_nil_r. auto.
  - inversion Hmails as [|? ? [s Hs] Hrest]; subst.
    rewrite Hs in Hmail. injection Hmail as <-.
    specialize (IH Hrest).
    mrun. rewrite Hid, Hs, Hmm. cbn [Py.str_operand]. mrun.
    unfold subscriptions_of. rewrite Hid, Hs, Hmm.
    repeat match goal with
           | |- context [negb (ok ?r)] => destruct (negb (ok r)); mrun
           end;
      match goal with
      | |- context [for_each users _ env ?w2] =>
          destruct (IH w2) as (w' & Hrun & Hcalls & Hstore)
      end;
      exists w'; (split; [exact Hrun|]); (split; [|exact Hstore]);
      rewrite Hcalls; cbn [calls app]; rewrite <- !app_assoc; reflexivity.
Qed.

(** app.py: a user whose mail is null stops the registration with a
    [TypeError], before any request for that user or for those after it. *)
Lemma App_register_subscriptions_null_mail (authorization : option string)
    (user : Json) (users : list Json) (uid : Json) (w : World App.Store) :
  Py.getitem user "id" = Ok uid ->
  Py.getitem user "mail" = Ok JNull ->
  App.register_subscriptions authorization hkey (user :: users) calendar_webhook
    email_webhook env w
  = (Raise TypeError, tick w).
Proof.
  intros Hid Hmail. unfold App.register_subscriptions. mrun. cbn [for_each]. mrun.
  rewrite Hid. mrun. rewrite Hmail. mrun. reflexivity.
Qed.

End Subscriptions.

Definition null_mail_user : Json :=
  JObj [("id", JStr "u1"); ("mail", JNull); ("manager_mail", JStr "")].

Definition ann_user : Json :=
  JObj [("id", JStr "u2"); ("mail", JStr "ann@x.org"); ("manager_mail", JStr "boss@x.org")].

(** C8 (the code of app.py departs from it).  In application.py every
    directory user whose mail is a string gets exactly two subscription
    requests, [messages] then [events], with the change types, notification
    URL, expiration (24 hours after the clock reading) and clientState of the
    claim, whatever the upstream answers, and a user whose mail is null is
    passed over.  In app.py a user whose mail is null ends the registration in
    a [TypeError]: no request is made for the users that follow. *)
Theorem register_subscriptions_per_user
    (hkey : string * string) (calendar_webhook email_webhook : string) (env : Env) :
  (forall hd users (w : World Application.Store),
      Forall directory_user users ->
      exists w',
        Application.register_subscriptions hd hkey users calendar_webhook email_webhook env w
        = (Ok tt, w')
        /\ calls w' = calls w ++ flat_map (subscriptions_of
                                             (Application_post hd hkey (clock env (ticks w))))
                                          users)
  /\ (forall authorization user users uid (w : World App.Store),
         Py.getitem user "id" = Ok uid ->
         Py.getitem user "mail" = Ok JNull ->
         App.register_subscriptions authorization hkey (user :: users) calendar_webhook
           email_webhook env w
         = (Raise TypeError, tick w)).
Proof.
  split.
  - intros hd users w Hu.
    destruct (Application_register_subscriptions_calls hkey calendar_webhook email_webhook
                env hd users w Hu) as (w' & H1 & H2 & _). eauto.
  - intros. now apply App_register_subscriptions_null_mail with (uid := uid).
Qed.

Lemma register_subscriptions_per_user_witness :
  (exists w',
      Application.register_subscriptions [] ("6780fb97", "ab6919a6")
        [null_mail_user; ann_user] "https://c.example/cal" "https://c.example/mail"
        quiet_env (MkWorld None [] [] 0) = (Ok tt, w')
      /\ calls w' =
           [POST "https://graph.microsoft.com/v1.0/subscriptions" []
              (JObj [("changeType", JStr "created,updated,deleted");
                     ("notificationUrl",
                      JStr "https://<app_name>.azurewebsites.net/handle_subscription_callback/messages/ab6919a6");
                     ("resource", JStr "/users/u2/messages");
                     ("expirationDateTime", JStr "2026-11-04T10:00:00.0000000Z");
                     ("clientState", JStr "6780fb97^ann@x.org^boss@x.org")]);
            POST "https://graph.microsoft.com/v1.0/subscriptions" []
              (JObj [("changeType", JStr "created,updated,deleted");
                     ("notificationUrl",
                      JStr "https://<app_name>.azurewebsites.net/handle_subscription_callback/events/ab6919a6");
                     ("resource", JStr "/users/u2/events");
                     ("expirationDateTime", JStr "2026-11-04T10:00:00.0000000Z");
                     ("clientState", JStr "6780fb97^ann@x.org^boss@x.org")])])
  /\ App.register_subscriptions None ("6780fb97", "ab6919a6")
       [null_mail_user; ann_user] "https://c.example/cal" "https://c.example/mail"
       quiet_env empty_world
     = (Raise TypeError, tick empty_world).
Proof.
  destruct (register_subscriptions_per_user ("6780fb97", "ab6919a6")
              "https://c.example/cal" "https://c.example/mail" quiet_env) as [Happl Happ].
  split.
  - destruct (Happl [] [null_mail_user; ann_user] (MkWorld None [] [] 0)) as (w' & Hrun & Hc).
    + repeat constructor.
      * exists (JStr "u1"), JNull, "". repeat split; auto.
      * exists (JStr "u2"), (JStr "ann@x.org"), "boss@x.org". repeat split; eauto.
    + exists w'. split; [exact Hrun|]. rewrite Hc. vm_compute. reflexivity.
  - apply (Happ None null_mail_user [ann_user] (JStr "u1")); reflexivity.
Defined.

(** ** The resync scheduler: a key without stored state *)

Definition all_methods : list Method := [mGET; mDELETE; mPOST; mPUT].

Lemma sat_calls {S A} (m : M S A) P Q R env (w w' : World S) (r : outcome A) :
  satisfies m P Q R -> m env w = (r, w') ->
  store w' = store w /\ exists d, calls w' = calls w ++ d /\ Forall P d.
Proof.
  intros Hm Hrun. destruct (Hm env w) as (Hs & Hd & _). rewrite Hrun in *. auto.
Qed.

(** *** The calendar window of a resync *)


Section CalendarWindow.





End CalendarWindow.

Section Resync.
Variables (fuel : nat) (env : Env) (request : FlaskRequest).
Variables (cal_url mail_url : string).
Hypothesis Hcal : lookup_arg "calendar_webhook" (args request) = Some cal_url.
Hypothesis Hmail : lookup_arg "email_webhook" (args request) = Some mail_url.

Let auth := lookup_header "Authorization" (headers request).
Let key := full_hkey cal_url mail_url.

Definition synced_state (now : DateTime.datetime) : State :=
  {| authorization := lookup_header "Authorization" (headers request);
     calendar_webhook := cal_url;
     email_webhook := mail_url;
     next_sync := now + DateTime.timedelta_hours 23 |}.

(** The four steps of a resync in app.py, in their order. *)
Definition App_resync : M App.Store DateTime.datetime :=
  users <- get_all_users App.GRAPH_API_URL fuel (App.get_headers auth);;
  App.update_calendar fuel auth users cal_url;;
  App.wipe_subscriptions fuel auth;;
  App.register_subscriptions auth (derive cal_url mail_url) users
    cal_url mail_url;;
  now <- datetime_now;;
  ret (now + DateTime.timedelta_hours App.HOURS_BETWEEN_FULLSYNC_AND_RESCUBSCRIBE).

Lemma sat_App_resync : satisfies App_resync (uses all_methods) any any.
Proof.
  unfold App_resync.
  eapply sat_bind with (R1 := any).
  { eapply sat_weaken; [apply sat_get_all_users with (Q := any); auto
                       | intros ?; apply uses_incl; cbn [In all_methods]; intuition auto
                       | auto | auto]; exact (fun _ _ => I). }
  intros users _. eapply sat_bind with (R1 := any).
  { eapply sat_weaken; [apply sat_App_update_calendar with (Q := any)
                       | intros ?; apply uses_incl; cbn [In all_methods]; intuition auto
                       | auto | auto]; exact (fun _ _ => I). }
  intros _ _. eapply sat_bind with (R1 := any).
  { eapply sat_weaken; [apply sat_App_wipe_subscriptions
                       | intros ?; apply uses_incl; cbn [In all_methods]; intuition auto
                       | intros; exact I | auto]. }
  intros _ _. eapply sat_bind with (R1 := any).
  { eapply sat_weaken; [apply sat_App_register_subscriptions with (Q := any)
                       | intros ?; apply uses_incl; cbn [In all_methods]; intuition auto
                       | auto | auto]; exact (fun _ _ => I). }
  intros _ _. repeat sat_step.
Qed.




End Resync.

(** The key has no record in the state file (or there is no file). *)
Definition no_state_on_file (w : World Application.Store) (key : string) : Prop :=
  match store w with
  | Some state_file => state_file !! key = None
  | None => True
  end.

Section ResyncApplication.
Variables (fuel : nat) (env : Env) (request : FlaskRequest).
Variables (cal_url mail_url : string) (bearer accept content_type : string).
Hypothesis Hcal : lookup_arg "calendar_webhook" (args request) = Some cal_url.
Hypothesis Hmail : lookup_arg "email_webhook" (args request) = Some mail_url.
Hypothesis Hauth : lookup_header "Authorization" (headers request) = Some bearer.
Hypothesis Haccept : lookup_header "Accept" (headers request) = Some accept.
Hypothesis Hctype : lookup_header "Content-Type" (headers request) = Some content_type.

Let key := full_hkey cal_url mail_url.

Definition request_headers : Headers :=
  [("Authorization", Some bearer); ("Accept", Some accept);
   ("Content-Type", Some content_type)].



Definition unexpected_hkey_warning : string :=
  "Received unexpected hkey "
  +:+ Py.repr (JList [JStr (fst (derive cal_url mail_url)); JStr (snd (derive cal_url mail_url))]).




End ResyncApplication.

(** An upstream with one user, one event, two subscriptions (one of them ours),
    that accepts every request. *)
Definition answer (st : Z) (j : Json) : HttpResponse :=
  {| status_code := st; text := ""; json := Some j |}.

Definition page (l : list Json) : Json := JObj [("value", JList l)].

Definition our_subscription : Json :=
  JObj [("id", JStr "s1");
        ("notificationUrl",
         JStr "https://vs.breker.name/handle_subscription_callback/events/abc")].

Definition other_subscription : Json :=
  JObj [("id", JStr "s2"); ("notificationUrl", JStr "https://other.example/x")].

Definition resync_env : Env :=
  {| http := fun _ c =>
       match c with
       | GET url _ =>
           if PyStr.contains "manager" url then answer 200 (JObj [("mail", JStr "Boss@X.org")])
           else if PyStr.contains "calendarview" url then answer 200 (page [sample_event])
           else if PyStr.contains "subscriptions" url
                then answer 200 (page [our_subscription; other_subscription])
                else answer 200 (page [JObj [("id", JStr "u1"); ("mail", JStr "ann@x.org")]])
       | DELETE _ _ => answer 204 JNull
       | POST _ _ _ => answer 201 JNull
       | PUT _ _ => answer 200 JNull
       end;
     clock := fun n => DateTime.make 2026 11 3 10 0 (Z.of_nat n) 0 |}.

(** The same upstream, refusing to delete a subscription. *)
Definition wipe_failing_env : Env :=
  {| http := fun h c =>
       match c with
       | DELETE _ _ => {| status_code := 500; text := "no"; json := None |}
       | _ => http resync_env h c
       end;
     clock := clock resync_env |}.



(** * Further properties of the two variants *)

(** ** Cutting strings *)

Section Cuts.

(** [c in s] for a character *)
Definition has_char (c : ascii) (s : string) : bool :=
  PyStr.contains (String c EmptyString) s.

Lemma has_char_cons (c a : ascii) (s : string) :
  has_char c (String a s) = Ascii.eqb c a || has_char c s.
Proof.
  unfold has_char. cbn [PyStr.contains PyStr.startswith].
  destruct (Ascii.eqb c a); reflexivity.
Qed.

Lemma has_char_nil (c : ascii) : has_char c "" = false.
Proof. reflexivity. Qed.


Lemma split1_nonempty (sep : ascii) (s : string) : PyStr.split1 sep s <> [].
Proof.
  destruct s as [|c s]; cbn [PyStr.split1]; [discriminate|].
  destruct (Ascii.eqb c sep); [discriminate|].
  destruct (PyStr.split1 sep s); discriminate.
Qed.

(** The first field of [s.split(sep, 1)] is [p], and there is a second one,
    exactly when [s] starts with [p] followed by the separator. *)
Lemma split1_prefix (sep : ascii) (s p : string) :
  has_char sep p = false ->
  (2 <=? length (PyStr.split1 sep s))%nat && String.eqb (List.hd "" (PyStr.split1 sep s)) p
  = PyStr.startswith (p +:+ String sep "") s.
Proof.
  revert p. induction s as [|c s IH]; intros p Hp.
  - cbn. destruct p; reflexivity.
  - cbn [PyStr.split1]. destruct (Ascii.eqb c sep) eqn:E.
    + apply Ascii.eqb_eq in E. subst c. cbn [length List.hd Nat.leb andb].
      destruct p as [|a p].
      * change ("" +:+ String sep "") with (String sep "").
        cbn [PyStr.startswith String.eqb]. now rewrite Ascii.eqb_refl.
      * rewrite has_char_cons in Hp. apply orb_false_elim in Hp as [Ha _].
        rewrite append_cons. cbn [PyStr.startswith]. rewrite Ascii.eqb_sym, Ha.
        reflexivity.
    + specialize (IH (match p with String _ p' => p' | EmptyString => EmptyString end)).
      pose proof (split1_nonempty sep s) as Hne.
      destruct (PyStr.split1 sep s) as [|f fs]; [congruence|].
      cbn [length List.hd] in *. destruct p as [|a p].
      * change ("" +:+ String sep "") with (String sep "").
        cbn [PyStr.startswith String.eqb]. rewrite Ascii.eqb_sym, E.
        now rewrite andb_false_r.
      * rewrite has_char_cons in Hp. apply orb_false_elim in Hp as [_ Hp].
        rewrite append_cons. cbn [PyStr.startswith String.eqb].
        rewrite (Ascii.eqb_sym c a).
        destruct (Ascii.eqb a c); [|now rewrite andb_false_r].
        apply IH. exact Hp.
Qed.

End Cuts.

(** ** The pass-through route *)

(** The paths the route lets through: those under [v1.0/] or [beta/]. *)
Definition forwardable (path : string) : bool :=
  PyStr.startswith "v1.0/" path || PyStr.startswith "beta/" path.

Lemma pass_through_test (path : string) :
  (length (PyStr.split1 "/" path) <? 2)%nat
  || negb (in_list (List.hd "" (PyStr.split1 "/" path)) ["v1.0"; "beta"])
  = negb (forwardable path).
Proof.
  unfold forwardable, in_list. cbn [existsb]. rewrite orb_false_r.
  change "v1.0/" with ("v1.0" +:+ String "/" "").
  change "beta/" with ("beta" +:+ String "/" "").
  rewrite <- !(split1_prefix "/" path) by reflexivity.
  rewrite (String.eqb_sym (List.hd "" _) "v1.0"), (String.eqb_sym (List.hd "" _) "beta").
  destruct (length (PyStr.split1 "/" path)) as [|[|n]]; cbn [Nat.ltb Nat.leb andb orb negb];
    reflexivity.
Qed.

(** Whether a warning is logged is a matter of the status alone. *)
Lemma failed_pass_through_status (r : HttpResponse) :
  failed_pass_through r = negb ((200 <=? status_code r) && (status_code r <=? 299)).
Proof.
  unfold failed_pass_through, ok.
  destruct (Z.leb_spec 400 (status_code r)), (Z.ltb_spec (status_code r) 600),
    (Z.ltb_spec (status_code r) 200), (Z.ltb_spec 299 (status_code r)),
    (Z.leb_spec 200 (status_code r)), (Z.leb_spec (status_code r) 299);
    cbn; try reflexivity; lia.
Qed.

(** The warning of a refused request, and of one that the upstream did not
    answer with a 2xx status. *)
Definition ignoring_warning (path : string) : string :=
  "Ignoring unknown forwarding request for " +:+ path.

Definition failed_warning (request_method path : string) (r : HttpResponse) : string :=
  "Failed pass-through of " +:+ request_method +:+ " to " +:+ path
  +:+ " with " +:+ PyStr.of_Z (status_code r) +:+ " " +:+ "due to " +:+ text r.

(** X1.  A request whose path is not under [v1.0/] or [beta/], or that carries
    no Authorization header, is not forwarded: both variants answer 503 and
    log a warning, whatever the method, the body and the upstream are.  The
    answer of app.py is empty; that of application.py is the text of the
    Authorization header, or [None] when there is none. *)
Theorem pass_through_refuses
    (upstream : Forward -> Relayed) (request_method path : string) (request : FlaskRequest)
    (env : Env) :
  forwardable path = false \/ lookup_header "Authorization" (headers request) = None ->
  (forall w : World App.Store,
      App.pass_through upstream request_method path request env w
      = (Ok (Response "" 503, []), add_log WARNING (ignoring_warning path) w))
  /\ (forall w : World Application.Store,
         Application.pass_through upstream request_method path request env w
         = (Ok (Response (match lookup_header "Authorization" (headers request) with
                          | Some authorization => authorization
                          | None => "None"
                          end) 503, []),
            add_log WARNING (ignoring_warning path) w)).
Proof.
  intros Hclosed.
  assert (Htest : negb (forwardable path)
                  || is_none (lookup_header "Authorization" (headers request)) = true).
  { destruct Hclosed as [-> | ->]; [reflexivity|]. cbn [is_none]. apply orb_true_r. }
  split; intros w.
  - unfold App.pass_through. cbv zeta. rewrite pass_through_test, Htest. reflexivity.
  - unfold Application.pass_through. cbv zeta. rewrite pass_through_test, Htest.
    destruct (lookup_header "Authorization" (headers request)); reflexivity.
Qed.

Definition silent_upstream (_ : Forward) : Relayed :=
  {| response := {| status_code := 204; text := ""; json := None |}; content := "" |}.

Lemma pass_through_refuses_witness :
  App.pass_through silent_upstream "GET" "trigger_middleware" trigger_request quiet_env
    empty_world
  = (Ok (Response "" 503, []),
     add_log WARNING "Ignoring unknown forwarding request for trigger_middleware" empty_world)
  /\ Application.pass_through silent_upstream "GET" "v2.0/users" trigger_request quiet_env
       (MkWorld None [] [] 0)
     = (Ok (Response "Bearer new" 503, []),
        add_log WARNING "Ignoring unknown forwarding request for v2.0/users"
          (MkWorld None [] [] 0)).
Proof.
  split.
  - apply (pass_through_refuses silent_upstream "GET" "trigger_middleware" trigger_request
             quiet_env (or_introl eq_refl)).
  - apply (pass_through_refuses silent_upstream "GET" "v2.0/users" trigger_request
             quiet_env (or_introl eq_refl)).
Defined.

(** X2.  app.py: a request under [v1.0/] or [beta/] that carries an
    Authorization header is sent upstream once, with its method, body, query
    and all of its headers, to the Graph address followed by a slash and the
    path (two slashes in a row, the address ending in one); the answer has
    the status and the content of the upstream's, whatever the status is, and
    a warning is logged exactly when that status is outside 200..299. *)
Theorem App_pass_through_forwards
    (upstream : Forward -> Relayed) (request_method path authorization : string)
    (request : FlaskRequest) (env : Env) (w : World App.Store) :
  forwardable path = true ->
  lookup_header "Authorization" (headers request) = Some authorization ->
  let sent := {| fwd_method := request_method;
                 fwd_url := "https://graph.microsoft.com//" +:+ path;
                 fwd_data := data request;
                 fwd_params := args request;
                 fwd_headers := map (fun kv => (fst kv, Some (snd kv))) (headers request) |} in
  let r := upstream sent in
  let st := status_code (response r) in
  App.pass_through upstream request_method path request env w
  = (Ok (Response (content r) st, [sent]),
     if (200 <=? st) && (st <=? 299) then w
     else add_log WARNING (failed_warning request_method path (response r)) w).
Proof.
  intros Hpath Hauth sent r st.
  unfold App.pass_through. cbv zeta. rewrite pass_through_test, Hpath, Hauth.
  cbn [negb is_none orb].
  change (App.GRAPH_API_URL +:+ "/" +:+ path) with ("https://graph.microsoft.com//" +:+ path).
  fold sent. fold r. rewrite failed_pass_through_status. fold st.
  destruct ((200 <=? st) && (st <=? 299)); reflexivity.
Qed.

Definition forwarded_request : FlaskRequest :=
  {| args := [("$top", "5")];
     headers := [("Host", "middleware.example"); ("Authorization", "Bearer t")];
     data := None |}.

Definition moved_upstream (_ : Forward) : Relayed :=
  {| response := {| status_code := 302; text := "moved"; json := None |};
     content := "moved" |}.

Lemma App_pass_through_forwards_witness :
  App.pass_through moved_upstream "DELETE" "v1.0/users/u1" forwarded_request quiet_env
    empty_world
  = (Ok (Response "moved" 302,
         [ {| fwd_method := "DELETE";
              fwd_url := "https://graph.microsoft.com//v1.0/users/u1";
              fwd_data := None;
              fwd_params := [("$top", "5")];
              fwd_headers := [("Host", Some "middleware.example");
                              ("Authorization", Some "Bearer t")] |} ]),
     add_log WARNING "Failed pass-through of DELETE to v1.0/users/u1 with 302 due to moved"
       empty_world).
Proof.
  apply (App_pass_through_forwards moved_upstream "DELETE" "v1.0/users/u1" "Bearer t"
           forwarded_request quiet_env empty_world eq_refl eq_refl).
Defined.

(** X3.  application.py: a request under [v1.0/] or [beta/] that carries an
    Authorization header is sent upstream once, to the Graph address followed
    by a slash and the path, with its method, body and query and with three
    headers only, Authorization, Accept and Content-Type, the other headers
    of the request being left behind; the answer has the status and the
    content of the upstream's, and a warning is logged exactly when the status
    is outside 200..299.  When the request has no Accept header, or no
    Content-Type header, the route ends in a [KeyError] (of the key under
    which the WSGI environ would hold the header) and nothing is sent. *)
Theorem Application_pass_through_forwards
    (upstream : Forward -> Relayed) (request_method path authorization : string)
    (request : FlaskRequest) (env : Env) (w : World Application.Store) :
  forwardable path = true ->
  lookup_header "Authorization" (headers request) = Some authorization ->
  (forall accept content_type,
      lookup_header "Accept" (headers request) = Some accept ->
      lookup_header "Content-Type" (headers request) = Some content_type ->
      let sent := {| fwd_method := request_method;
                     fwd_url := "https://graph.microsoft.com/" +:+ path;
                     fwd_data := data request;
                     fwd_params := args request;
                     fwd_headers := [("Authorization", Some authorization);
                                     ("Accept", Some accept);
                                     ("Content-Type", Some content_type)] |} in
      let r := upstream sent in
      let st := status_code (response r) in
      Application.pass_through upstream request_method path request env w
      = (Ok (Response (content r) st, [sent]),
         if (200 <=? st) && (st <=? 299) then w
         else add_log WARNING (failed_warning request_method path (response r)) w))
  /\ (lookup_header "Accept" (headers request) = None
      \/ lookup_header "Content-Type" (headers request) = None ->
      exists k,
        Application.pass_through upstream request_method path request env w
        = (Raise (KeyError k), w)).
Proof.
  intros Hpath Hauth.
  split.
  - intros accept content_type Haccept Hctype sent r st.
    unfold Application.pass_through, Application.get_headers. cbv zeta.
    rewrite pass_through_test, Hpath, Hauth. cbn [negb is_none orb].
    mrun. rewrite Hauth, Haccept, Hctype. mrun.
    change (Application.GRAPH_API_URL +:+ "/" +:+ path)
      with ("https://graph.microsoft.com/" +:+ path).
    fold sent. fold r. rewrite failed_pass_through_status. fold st.
    destruct ((200 <=? st) && (st <=? 299)); reflexivity.
  - intros Hmiss.
    unfold Application.pass_through, Application.get_headers. cbv zeta.
    rewrite pass_through_test, Hpath, Hauth. cbn [negb is_none orb].
    mrun. rewrite Hauth.
    destruct (lookup_header "Accept" (headers request)); [|eexists; reflexivity].
    destruct (lookup_header "Content-Type" (headers request)); [|eexists; reflexivity].
    destruct Hmiss; discriminate.
Qed.

Definition json_request : FlaskRequest :=
  {| args := [];
     headers := [("Host", "middleware.example"); ("authorization", "Bearer t");
                 ("Accept", "application/json"); ("Content-Type", "application/json");
                 ("Cookie", "session=1")];
     data := Some (JObj [("displayName", JStr "x")]) |}.

Lemma Application_pass_through_forwards_witness :
  Application.pass_through silent_upstream "POST" "beta/groups" json_request quiet_env
    (MkWorld None [] [] 0)
  = (Ok (Response "" 204,
         [ {| fwd_method := "POST";
              fwd_url := "https://graph.microsoft.com/beta/groups";
              fwd_data := Some (JObj [("displayName", JStr "x")]);
              fwd_params := [];
              fwd_headers := [("Authorization", Some "Bearer t");
                              ("Accept", Some "application/json");
                              ("Content-Type", Some "application/json")] |} ]),
     MkWorld None [] [] 0)
  /\ exists k,
       Application.pass_through silent_upstream "GET" "v1.0/me" forwarded_request quiet_env
         (MkWorld None [] [] 0)
       = (Raise (KeyError k), MkWorld None [] [] 0).
Proof.
  split.
  - destruct (Application_pass_through_forwards silent_upstream "POST" "beta/groups"
                "Bearer t" json_request quiet_env (MkWorld None [] [] 0) eq_refl eq_refl)
      as (H & _).
    apply (H "application/json" "application/json" eq_refl eq_refl).
  - destruct (Application_pass_through_forwards silent_upstream "GET" "v1.0/me"
                "Bearer t" forwarded_request quiet_env (MkWorld None [] [] 0) eq_refl eq_refl)
      as (_ & H).
    apply (H (or_introl eq_refl)).
Defined.

(** ** The clientState of a subscription, written and read back *)

Section Fields.

Lemma split_nonempty (sep : ascii) (s : string) : PyStr.split sep s <> [].
Proof.
  destruct s as [|c s]; cbn [PyStr.split]; [discriminate|].
  destruct (Ascii.eqb c sep); [discriminate|].
  destruct (PyStr.split sep s); discriminate.
Qed.

(** A string without the separator is one field. *)
Lemma split_one (sep : ascii) (s : string) :
  has_char sep s = false -> PyStr.split sep s = [s].
Proof.
  induction s as [|c s IH]; intros H; [reflexivity|].
  rewrite has_char_cons in H. apply orb_false_elim in H as [Hc Hs].
  cbn [PyStr.split]. rewrite Ascii.eqb_sym, Hc, (IH Hs). reflexivity.
Qed.

(** The first field ends at the first separator. *)
Lemma split_cut (sep : ascii) (a b : string) :
  has_char sep a = false ->
  PyStr.split sep (a +:+ String sep b) = a :: PyStr.split sep b.
Proof.
  induction a as [|c a IH]; intros H.
  - change ("" +:+ String sep b) with (String sep b).
    cbn [PyStr.split]. now rewrite Ascii.eqb_refl.
  - rewrite has_char_cons in H. apply orb_false_elim in H as [Hc Ha].
    rewrite append_cons. cbn [PyStr.split]. rewrite Ascii.eqb_sym, Hc, (IH Ha). reflexivity.
Qed.

(** Every separator adds a field. *)
Lemma split_length_app (sep : ascii) (a b : string) :
  length (PyStr.split sep (a +:+ String sep b))
  = (length (PyStr.split sep a) + length (PyStr.split sep b))%nat.
Proof.
  induction a as [|c a IH].
  - change ("" +:+ String sep b) with (String sep b).
    cbn [PyStr.split]. now rewrite Ascii.eqb_refl.
  - rewrite append_cons. cbn [PyStr.split]. destruct (Ascii.eqb c sep).
    + cbn [length]. now rewrite IH.
    + pose proof (split_nonempty sep a) as Ha.
      pose proof (split_nonempty sep (a +:+ String sep b)) as Hab.
      destruct (PyStr.split sep a), (PyStr.split sep (a +:+ String sep b)); try congruence.
      exact IH.
Qed.

Lemma split_length_has_char (sep : ascii) (s : string) :
  has_char sep s = true -> (2 <= length (PyStr.split sep s))%nat.
Proof.
  induction s as [|c s IH]; intros H; [discriminate|].
  rewrite has_char_cons in H. cbn [PyStr.split]. rewrite Ascii.eqb_sym.
  pose proof (split_nonempty sep s) as Hs.
  destruct (Ascii.eqb sep c).
  - destruct (PyStr.split sep s); [congruence|cbn [length]; lia].
  - cbn [orb] in H. specialize (IH H). destruct (PyStr.split sep s); [congruence|exact IH].
Qed.

Lemma split_length_pos (sep : ascii) (s : string) : (1 <= length (PyStr.split sep s))%nat.
Proof.
  pose proof (split_nonempty sep s). destruct (PyStr.split sep s); [congruence|cbn; lia].
Qed.

(** The digits of a digest. *)
Definition is_hex (c : ascii) : bool :=
  let n := PyStr.ord c in ((48 <=? n) && (n <=? 57)) || ((97 <=? n) && (n <=? 102)).

Fixpoint all_hex (s : string) : bool :=
  match s with
  | EmptyString => true
  | String c s' => is_hex c && all_hex s'
  end.

Lemma is_hex_nib (x i : Z) : is_hex (Sha512.nib x i) = true.
Proof.
  unfold Sha512.nib. change 15 with (Z.ones 4). rewrite Z.land_ones by lia.
  pose proof (Z.mod_pos_bound (Z.shiftr x (4 * i)) (2 ^ 4) ltac:(lia)) as Hb.
  set (d := Z.shiftr x (4 * i) mod 2 ^ 4) in *.
  assert (Hd : d = 0 \/ d = 1 \/ d = 2 \/ d = 3 \/ d = 4 \/ d = 5 \/ d = 6 \/ d = 7 \/ d = 8
               \/ d = 9 \/ d = 10 \/ d = 11 \/ d = 12 \/ d = 13 \/ d = 14 \/ d = 15) by lia.
  clearbody d. repeat (destruct Hd as [-> | Hd]; [reflexivity|]). subst d. reflexivity.
Qed.

Lemma all_hex_hex64 (x : Z) (rest : string) :
  all_hex rest = true -> all_hex (Sha512.hex64 x rest) = true.
Proof.
  intros H. unfold Sha512.hex64. cbn [all_hex]. rewrite !is_hex_nib, H. reflexivity.
Qed.

Lemma all_hex_hexdigest (msg : list Z) : all_hex (Sha512.hexdigest msg) = true.
Proof.
  unfold Sha512.hexdigest, Sha512.hex_of_state.
  repeat apply all_hex_hex64. reflexivity.
Qed.

Lemma all_hex_take (n : nat) (s : string) : all_hex s = true -> all_hex (PyStr.take n s) = true.
Proof.
  revert s. induction n as [|n IH]; intros [|c s] H; try reflexivity.
  cbn [PyStr.take all_hex] in *. apply andb_prop in H as [Hc Hs].
  now rewrite Hc, IH.
Qed.

Lemma all_hex_drop (n : nat) (s : string) : all_hex s = true -> all_hex (PyStr.drop n s) = true.
Proof.
  revert s. induction n as [|n IH]; intros [|c s] H; try assumption; try reflexivity.
  cbn [PyStr.drop all_hex] in *. apply andb_prop in H as [_ Hs]. now apply IH.
Qed.

(** A string of hexadecimal digits holds none of the characters that cut a
    clientState or a path. *)
Lemma all_hex_has_char (c : ascii) (s : string) :
  is_hex c = false -> all_hex s = true -> has_char c s = false.
Proof.
  intros Hc. induction s as [|a s IH]; intros H; [reflexivity|].
  cbn [all_hex] in H. apply andb_prop in H as [Ha Hs].
  rewrite has_char_cons, (IH Hs), orb_false_r.
  destruct (Ascii.eqb_spec c a) as [->|]; [congruence|reflexivity].
Qed.

Lemma derive_hex (a b : string) :
  all_hex (fst (derive a b)) = true /\ all_hex (snd (derive a b)) = true.
Proof.
  unfold derive, split_hkey, full_hkey. cbn [fst snd].
  split; [apply all_hex_take|apply all_hex_drop]; apply all_hex_hexdigest.
Qed.

End Fields.

(** X4.  The clientState that [register_subscriptions] writes into a
    subscription (key prefix, mail and manager's mail, joined by carets) is
    read back by the callback's [split('^')] as these three fields, whenever
    neither mail holds a caret; and the prefix it gives, followed by the key
    suffix that travels in the notification URL, is the full key under which
    the trigger stores the state.  The two variants write the same
    clientState. *)
Theorem registered_clientState_decodes
    (cal_url mail_url subscription uid mail manager_mail untilstring resource_end : string)
    (value : Json) :
  has_char "^" mail = false ->
  has_char "^" manager_mail = false ->
  let hkey := derive cal_url mail_url in
  Py.getitem value "clientState"
  = Py.getitem (App.subscription_data hkey subscription uid mail manager_mail untilstring
                  resource_end) "clientState" ->
  Py.getitem (Application.subscription_data hkey subscription uid mail manager_mail untilstring)
    "clientState"
  = Py.getitem value "clientState"
  /\ client_state_fields value (fst hkey) mail manager_mail
  /\ has_char "/" (snd hkey) = false
  /\ fst hkey +:+ snd hkey = full_hkey cal_url mail_url.
Proof.
  intros Hmail Hmgr hkey Hcs. split; [|split; [|split]].
  - rewrite Hcs. reflexivity.
  - exists (fst hkey +:+ "^" +:+ mail +:+ "^" +:+ manager_mail). split; [exact Hcs|].
    destruct (derive_hex cal_url mail_url) as [H0 _]. fold hkey in H0.
    change (fst hkey +:+ "^" +:+ mail +:+ "^" +:+ manager_mail)
      with (fst hkey +:+ String "^"%char (mail +:+ String "^"%char manager_mail)).
    rewrite split_cut by (apply all_hex_has_char; [reflexivity|exact H0]).
    rewrite split_cut by exact Hmail.
    rewrite split_one by exact Hmgr. reflexivity.
  - destruct (derive_hex cal_url mail_url) as [_ H1].
    apply all_hex_has_char; [reflexivity|exact H1].
  - unfold hkey, derive, split_hkey. cbn [fst snd]. apply take_drop.
Qed.

Lemma registered_clientState_decodes_witness :
  let hkey := derive "https://c.example/cal" "https://c.example/mail" in
  client_state_fields
    (message_item (fst hkey +:+ "^ann@x.org^boss@x.org") "updated" "Users/u1/Messages/m1")
    (fst hkey) "ann@x.org" "boss@x.org"
  /\ fst hkey +:+ snd hkey = full_hkey "https://c.example/cal" "https://c.example/mail".
Proof.
  intros hkey.
  destruct (registered_clientState_decodes "https://c.example/cal" "https://c.example/mail"
              "messages" "u1" "ann@x.org" "boss@x.org" "2026-11-04T10:00:00.0000000Z" "/"
              (message_item (fst hkey +:+ "^ann@x.org^boss@x.org") "updated"
                 "Users/u1/Messages/m1")
              eq_refl eq_refl eq_refl)
    as (_ & Hfields & _ & Hkey).
  split; [exact Hfields|exact Hkey].
Defined.

(** The unpacking of more than three fields fails. *)
Lemma unpack3_long {S} (l : list string) (env : Env) (w : World S) :
  (3 < length l)%nat ->
  unpack3 l env w = (Raise (ValueError "wrong number of values to unpack"), w).
Proof.
  intros H. destruct l as [|a [|b [|c [|d l]]]]; cbn [length] in H; try lia. reflexivity.
Qed.

(** X5.  When the mail of a user, or of the manager, holds a caret, the
    clientState written for the user's subscriptions has more than three
    fields: the callback ends in the [ValueError] of the unpacking for every
    notification of these subscriptions, in both variants, before the state
    store is read or any call is made, and a batch that starts with such a
    notification gets no 202. *)
Theorem caret_in_mail_breaks_callback
    (subscription hkey1 hkey0 mail manager_mail : string) (value : Json) (env : Env) :
  Py.getitem value "clientState"
  = Ok (JStr (hkey0 +:+ "^" +:+ mail +:+ "^" +:+ manager_mail)) ->
  has_char "^" mail = true \/ has_char "^" manager_mail = true ->
  let failure := ValueError "wrong number of values to unpack" in
  (forall w : World App.Store,
      App._handle_subscription_callback_value subscription hkey1 value env w = (Raise failure, w)
      /\ forall after,
           App.handle_subscription_callback subscription hkey1
             (notification_request (value :: after)) env w = (Raise failure, w))
  /\ (forall w : World Application.Store,
         Application._handle_subscription_callback_value subscription hkey1 value env w
         = (Raise failure, w)
         /\ forall after,
              Application.handle_subscription_callback subscription hkey1
                (notification_request (value :: after)) env w = (Raise failure, w)).
Proof.
  intros Hcs Hcaret failure.
  assert (Hlen : (3 < length (PyStr.split "^" (hkey0 +:+ "^" +:+ mail +:+ "^" +:+ manager_mail)))%nat).
  { change (hkey0 +:+ "^" +:+ mail +:+ "^" +:+ manager_mail)
      with (hkey0 +:+ String "^"%char (mail +:+ String "^"%char manager_mail)).
    rewrite !split_length_app.
    pose proof (split_length_pos "^" hkey0) as L0.
    pose proof (split_length_pos "^" mail) as L1.
    pose proof (split_length_pos "^" manager_mail) as L2.
    destruct Hcaret as [Hc|Hc]; apply split_length_has_char in Hc; lia. }
  split; intros w.
  - assert (Hitem : App._handle_subscription_callback_value subscription hkey1 value env w
                    = (Raise failure, w)).
    { unfold App._handle_subscription_callback_value. unfold bind at 1, lift at 1.
      rewrite Hcs. unfold bind at 1, lift at 1. cbn [Py.str_method].
      unfold bind at 1. rewrite (unpack3_long _ env w Hlen). reflexivity. }
    split; [exact Hitem|]. intros after.
    rewrite (App_callback_loop subscription hkey1 _ (JObj [("value", JList (value :: after))])
               (value :: after)) by reflexivity.
    cbn [for_each]. unfold bind at 1, App_item at 1, swallow_MiddlewareException, try_except.
    unfold bind at 1. rewrite Hitem. reflexivity.
  - assert (Hitem : Application._handle_subscription_callback_value subscription hkey1 value
                      env w = (Raise failure, w)).
    { unfold Application._handle_subscription_callback_value. unfold bind at 1, lift at 1.
      rewrite Hcs. unfold bind at 1, lift at 1. cbn [Py.str_method].
      unfold bind at 1. rewrite (unpack3_long _ env w Hlen). reflexivity. }
    split; [exact Hitem|]. intros after.
    rewrite (Application_callback_loop subscription hkey1 _
               (JObj [("value", JList (value :: after))]) (value :: after)) by reflexivity.
    cbn [for_each]. unfold bind at 1, Application_item at 1, swallow_MiddlewareException,
      try_except.
    unfold bind at 1. rewrite Hitem. reflexivity.
Qed.

Definition caret_item : Json :=
  message_item "6780fb97^ann^x@x.org^boss@x.org" "deleted" "Users/u1/Messages/m2".

Lemma caret_in_mail_breaks_callback_witness :
  App.handle_subscription_callback "messages" "ab6919a6"
    (notification_request [caret_item; deleted_item]) quiet_env callback_world
  = (Raise (ValueError "wrong number of values to unpack"), callback_world).
Proof.
  destruct (caret_in_mail_breaks_callback "messages" "ab6919a6" "6780fb97" "ann^x@x.org"
              "boss@x.org" caret_item quiet_env eq_refl (or_introl eq_refl)) as (Happ & _).
  destruct (Happ callback_world) as [_ Hbatch]. apply Hbatch.
Defined.

(** ** The state store *)

(** X6.  What [store_data] writes under a key, [get_data] reads back, in both
    variants, and the records of the other keys stay as they were.  In
    application.py the first write creates the state file; from then on a key
    without record raises [KeyError], where without the file the empty dict
    was given. *)
Theorem store_data_then_get_data (hkey other : string) (state : State) (env : Env) :
  (forall w : World App.Store,
      exists w',
        App.store_data hkey state env w = (Ok tt, w')
        /\ App.get_data hkey env w' = (Ok state, w')
        /\ (other <> hkey ->
            fst (App.get_data other env w') = fst (App.get_data other env w)))
  /\ (forall w : World Application.Store,
         exists w' state_file,
           Application.store_data hkey state env w = (Ok tt, w')
           /\ store w' = Some state_file
           /\ Application.get_data hkey env w' = (Ok (Some state), w')
           /\ (other <> hkey ->
               match store w with
               | Some _ =>
                   fst (Application.get_data other env w')
                   = fst (Application.get_data other env w)
               | None =>
                   fst (Application.get_data other env w) = Ok None
                   /\ fst (Application.get_data other env w') = Raise (KeyError other)
               end)).
Proof.
  split; intros w.
  - eexists. split; [reflexivity|]. split.
    + unfold App.get_data. mrun. now rewrite lookup_insert_eq.
    + intros Hne. unfold App.get_data. mrun. rewrite lookup_insert_ne by congruence.
      destruct (store w !! other); reflexivity.
  - unfold Application.store_data, Application.get_data. mrun.
    eexists _, _. split; [reflexivity|]. cbn [store]. split; [reflexivity|]. split.
    + destruct (store w); now rewrite lookup_insert_eq.
    + intros Hne. destruct (store w) as [state_file|].
      * rewrite lookup_insert_ne by congruence. destruct (state_file !! other); reflexivity.
      * split; [reflexivity|]. rewrite lookup_insert_ne by congruence.
        now rewrite lookup_empty.
Qed.

Lemma store_data_then_get_data_witness :
  exists w',
    Application.store_data "6780fb97ab6919a6" known_state quiet_env (MkWorld None [] [] 0)
    = (Ok tt, w')
    /\ Application.get_data "6780fb97ab6919a6" quiet_env w' = (Ok (Some known_state), w')
    /\ fst (Application.get_data "0000" quiet_env w') = Raise (KeyError "0000").
Proof.
  destruct (store_data_then_get_data "6780fb97ab6919a6" "0000" known_state quiet_env)
    as [_ Hfile].
  destruct (Hfile (MkWorld None [] [] 0)) as (w' & state_file & Hstore & _ & Hget & Hother).
  exists w'. split; [exact Hstore|]. split; [exact Hget|].
  apply Hother. discriminate.
Defined.

(** ** The resync scheduler: the three cases of a trigger *)

Section TriggerApp.
Variables (fuel : nat) (env : Env) (request : FlaskRequest).
Variables (cal_url mail_url : string).
Hypothesis Hcal : lookup_arg "calendar_webhook" (args request) = Some cal_url.
Hypothesis Hmail : lookup_arg "email_webhook" (args request) = Some mail_url.

Let key := full_hkey cal_url mail_url.

(** The end of the trigger: the record is written when the resync has given
    the next time of sync. *)
Definition App_stored (r : outcome DateTime.datetime * World App.Store)
  : outcome FlaskResponse * World App.Store :=
  match r with
  | (Ok t, w4) =>
      (Ok (Response status_ok 200),
       MkWorld (<[full_hkey cal_url mail_url :=
                    {| authorization := lookup_header "Authorization" (headers request);
                       calendar_webhook := cal_url;
                       email_webhook := mail_url;
                       next_sync := t |}]> (store w4))
               (calls w4) (logs w4) (ticks w4))
  | (Raise e, w4) => (Raise e, w4)
  | (OutOfFuel, w4) => (OutOfFuel, w4)
  end.

(** The three cases of the trigger of app.py: no record of the key, a record
    whose time of sync has come, a record that is still in sync. *)
Lemma App_trigger_cases (w : World App.Store) :
  App.trigger_middleware fuel request env w
  = match store w !! key with
    | None => App_stored (App_resync fuel request cal_url mail_url env w)
    | Some state =>
        if next_sync state <=? clock env (ticks w)
        then App_stored (App_resync fuel request cal_url mail_url env (tick w))
        else App_stored (Ok (next_sync state), tick w)
    end.
Proof using Hcal Hmail.
  unfold App.trigger_middleware, App.get_data, App.store_data.
  unfold App_resync, App_stored, derive, tick.
  mrun. rewrite Hcal, Hmail. mrun. fold key.
  destruct (store w !! key) as [state|]; mrun.
  - destruct (next_sync state <=? clock env (ticks w)); mrun; [|reflexivity].
    destruct (get_all_users _ _ _ env _) as [[users|e|] w1]; [|reflexivity|reflexivity].
    destruct (App.update_calendar _ _ _ _ env w1) as [[[]|e|] w2]; [|reflexivity|reflexivity].
    destruct (App.wipe_subscriptions _ _ env w2) as [[[]|e|] w3]; [|reflexivity|reflexivity].
    destruct (App.register_subscriptions _ _ _ _ _ env w3) as [[[]|e|] w4]; reflexivity.
  - destruct (get_all_users _ _ _ env _) as [[users|e|] w1]; [|reflexivity|reflexivity].
    destruct (App.update_calendar _ _ _ _ env w1) as [[[]|e|] w2]; [|reflexivity|reflexivity].
    destruct (App.wipe_subscriptions _ _ env w2) as [[[]|e|] w3]; [|reflexivity|reflexivity].
    destruct (App.register_subscriptions _ _ _ _ _ env w3) as [[[]|e|] w4]; reflexivity.
Qed.

End TriggerApp.

(** The resync of application.py as [trigger_middleware] has it, headed by
    the choice of the request's headers. *)
Definition Application_resync_request (fuel : nat) (request : FlaskRequest)
    (cal_url mail_url : string) : M Application.Store DateTime.datetime :=
  hd <- Application.get_headers request;;
  users <- get_all_users Application.GRAPH_API_URL fuel hd;;
  Application.update_calendar fuel hd users cal_url;;
  Application.wipe_subscriptions fuel hd;;
  Application.register_subscriptions hd (derive cal_url mail_url) users cal_url mail_url;;
  now <- datetime_now;;
  ret (now + DateTime.timedelta_hours Application.HOURS_BETWEEN_FULLSYNC_AND_RESCUBSCRIBE).

Lemma sat_Application_get_headers (request : FlaskRequest) :
  satisfies (Application.get_headers request) (uses all_methods) any any.
Proof.
  unfold Application.get_headers, headers_getitem.
  repeat sat_step; exact I.
Qed.

Lemma sat_Application_resync_request fuel request cal_url mail_url :
  satisfies (Application_resync_request fuel request cal_url mail_url)
            (uses all_methods) any any.
Proof.
  unfold Application_resync_request.
  eapply sat_bind with (R1 := any); [apply sat_Application_get_headers|].
  intros hd _. eapply sat_bind with (R1 := any).
  { eapply sat_weaken; [apply sat_get_all_users with (Q := any); auto
                       | intros ?; apply uses_incl; cbn [In all_methods]; intuition auto
                       | auto | auto]; exact (fun _ _ => I). }
  intros users _. eapply sat_bind with (R1 := any).
  { eapply sat_weaken; [apply sat_Application_update_calendar with (Q := any)
                       | intros ?; apply uses_incl; cbn [In all_methods]; intuition auto
                       | auto | auto]; exact (fun _ _ => I). }
  intros _ _. eapply sat_bind with (R1 := any).
  { eapply sat_weaken; [apply sat_Application_wipe_subscriptions
                       | intros ?; apply uses_incl; cbn [In all_methods]; intuition auto
                       | intros; exact I | auto]. }
  intros _ _. eapply sat_bind with (R1 := any).
  { eapply sat_weaken; [apply sat_Application_register_subscriptions with (Q := any)
                       | intros ?; apply uses_incl; cbn [In all_methods]; intuition auto
                       | auto | auto]; exact (fun _ _ => I). }
  intros _ _. repeat sat_step.
Qed.

Section TriggerApplication.
Variables (fuel : nat) (env : Env) (request : FlaskRequest).
Variables (cal_url mail_url : string).
Hypothesis Hcal : lookup_arg "calendar_webhook" (args request) = Some cal_url.
Hypothesis Hmail : lookup_arg "email_webhook" (args request) = Some mail_url.

Let key := full_hkey cal_url mail_url.
Let bearer_token := lookup_header "Authorization" (headers request).

(** The end of the trigger: the record is written when the resync has given
    the next time of sync. *)
Definition Application_stored (r : outcome DateTime.datetime * World Application.Store)
  : outcome FlaskResponse * World Application.Store :=
  match r with
  | (Ok t, w4) =>
      (Ok (Response status_ok 200),
       MkWorld (Some (<[full_hkey cal_url mail_url :=
                          {| authorization := lookup_header "Authorization" (headers request);
                             calendar_webhook := cal_url;
                             email_webhook := mail_url;
                             next_sync := t |}]> (default ∅ (store w4))))
               (calls w4) (logs w4) (ticks w4))
  | (Raise e, w4) => (Raise e, w4)
  | (OutOfFuel, w4) => (OutOfFuel, w4)
  end.

(** The three cases of the trigger of application.py: no record of the key,
    a record whose time of sync has come, a record that is still in sync. *)
Lemma Application_trigger_cases (w : World Application.Store) :
  Application.trigger_middleware fuel request env w
  = match (store w ≫= (.!! key)) with
    | None =>
        Application_stored
          (Application_resync_request fuel request cal_url mail_url env
             (add_log WARNING (unexpected_hkey_warning cal_url mail_url) w))
    | Some state =>
        if next_sync state <=? clock env (ticks w)
        then Application_stored
               (Application_resync_request fuel request cal_url mail_url env (tick w))
        else Application_stored (Ok (next_sync state), tick w)
    end.
Proof using Hcal Hmail.
  unfold Application.trigger_middleware, Application.get_data, Application.store_data.
  unfold Application_resync_request, Application_stored, derive, unexpected_hkey_warning,
    derive, add_log, tick.
  mrun. rewrite Hcal, Hmail. mrun. fold key.
  destruct (store w) as [state_file|] eqn:Hw; cbn [mbind option_bind].
  - destruct (state_file !! key) as [state|] eqn:Hst; mrun; rewrite ?Hw.
    + destruct (next_sync state <=? clock env (ticks w)); mrun; rewrite ?Hw; [|reflexivity].
      destruct (Application.get_headers request env _) as [[hd|e|] w0];
        [|reflexivity|reflexivity].
      destruct (get_all_users _ _ _ env _) as [[users|e|] w1]; [|reflexivity|reflexivity].
      destruct (Application.update_calendar _ _ _ _ env w1) as [[[]|e|] w2];
        [|reflexivity|reflexivity].
      destruct (Application.wipe_subscriptions _ _ env w2) as [[[]|e|] w3];
        [|reflexivity|reflexivity].
      destruct (Application.register_subscriptions _ _ _ _ _ env w3) as [[[]|e|] w4];
        [|reflexivity|reflexivity].
      mrun. destruct (store w4); reflexivity.
    + destruct (Application.get_headers request env _) as [[hd|e|] w0];
        [|reflexivity|reflexivity].
      destruct (get_all_users _ _ _ env _) as [[users|e|] w1]; [|reflexivity|reflexivity].
      destruct (Application.update_calendar _ _ _ _ env w1) as [[[]|e|] w2];
        [|reflexivity|reflexivity].
      destruct (Application.wipe_subscriptions _ _ env w2) as [[[]|e|] w3];
        [|reflexivity|reflexivity].
      destruct (Application.register_subscriptions _ _ _ _ _ env w3) as [[[]|e|] w4];
        [|reflexivity|reflexivity].
      mrun. destruct (store w4); reflexivity.
  - mrun. rewrite ?Hw.
    destruct (Application.get_headers request env _) as [[hd|e|] w0];
      [|reflexivity|reflexivity].
    destruct (get_all_users _ _ _ env _) as [[users|e|] w1]; [|reflexivity|reflexivity].
    destruct (Application.update_calendar _ _ _ _ env w1) as [[[]|e|] w2];
      [|reflexivity|reflexivity].
    destruct (Application.wipe_subscriptions _ _ env w2) as [[[]|e|] w3];
      [|reflexivity|reflexivity].
    destruct (Application.register_subscriptions _ _ _ _ _ env w3) as [[[]|e|] w4];
      [|reflexivity|reflexivity].
    mrun. destruct (store w4); reflexivity.
Qed.

End TriggerApplication.

Lemma Application_get_headers_run (request : FlaskRequest) (bearer accept content_type : string)
    (env : Env) (w : World Application.Store) :
  lookup_header "Authorization" (headers request) = Some bearer ->
  lookup_header "Accept" (headers request) = Some accept ->
  lookup_header "Content-Type" (headers request) = Some content_type ->
  Application.get_headers request env w = (Ok (request_headers bearer accept content_type), w).
Proof.
  intros Ha Hb Hc. unfold Application.get_headers. mrun. rewrite Ha, Hb, Hc. reflexivity.
Qed.

(** A world whose state file has an expired record of the key. *)
Definition expired_on_file (env : Env) (w : World Application.Store) (key : string) : Prop :=
  exists state_file state,
    store w = Some state_file /\ state_file !! key = Some state
    /\ next_sync state <= clock env (ticks w).

(** X7.  A trigger for a key whose stored [next_sync] is at or before the
    clock reading (the time of sync itself included) runs the resync that a
    key without state gets, from the world in which the clock has been read
    once: when the four steps complete, both variants answer 200 and replace
    the record of the key by one with the request's credential and addresses
    and with [next_sync] 23 hours after the clock reading taken at the end;
    the calls made are those of the four steps. *)
Theorem trigger_expired_resyncs
    (fuel : nat) (env : Env) (request : FlaskRequest) (cal_url mail_url : string) :
  lookup_arg "calendar_webhook" (args request) = Some cal_url ->
  lookup_arg "email_webhook" (args request) = Some mail_url ->
  let key := full_hkey cal_url mail_url in
  let auth := lookup_header "Authorization" (headers request) in
  (forall (w w1 w2 w3 w4 : World App.Store) (state : State) (users : list Json),
      store w !! key = Some state ->
      next_sync state <= clock env (ticks w) ->
      get_all_users App.GRAPH_API_URL fuel (App.get_headers auth) env (tick w) = (Ok users, w1) ->
      App.update_calendar fuel auth users cal_url env w1 = (Ok tt, w2) ->
      App.wipe_subscriptions fuel auth env w2 = (Ok tt, w3) ->
      App.register_subscriptions auth (derive cal_url mail_url) users cal_url mail_url env w3
      = (Ok tt, w4) ->
      App.trigger_middleware fuel request env w
      = (Ok (Response status_ok 200),
         MkWorld (<[key := synced_state request cal_url mail_url (clock env (ticks w4))]>
                    (store w))
                 (calls w4) (logs w4) (Datatypes.S (ticks w4))))
  /\ (forall bearer accept content_type,
         lookup_header "Authorization" (headers request) = Some bearer ->
         lookup_header "Accept" (headers request) = Some accept ->
         lookup_header "Content-Type" (headers request) = Some content_type ->
         let hd := request_headers bearer accept content_type in
         forall (w w1 w2 w3 w4 : World Application.Store) (users : list Json),
           expired_on_file env w key ->
           get_all_users Application.GRAPH_API_URL fuel hd env (tick w) = (Ok users, w1) ->
           Application.update_calendar fuel hd users cal_url env w1 = (Ok tt, w2) ->
           Application.wipe_subscriptions fuel hd env w2 = (Ok tt, w3) ->
           Application.register_subscriptions hd (derive cal_url mail_url) users
             cal_url mail_url env w3 = (Ok tt, w4) ->
           Application.trigger_middleware fuel request env w
           = (Ok (Response status_ok 200),
              MkWorld (Some (<[key := synced_state request cal_url mail_url
                                        (clock env (ticks w4))]> (default ∅ (store w))))
                      (calls w4) (logs w4) (Datatypes.S (ticks w4)))).
Proof.
  intros Hcal Hmail key auth. split.
  - intros w w1 w2 w3 w4 state users Hst Hle H1 H2 H3 H4.
    destruct (sat_calls _ _ _ _ _ _ _ _
                (sat_get_all_users (S := App.Store) any (fun _ _ => I) _ _ _) H1) as (S1 & _).
    destruct (sat_calls _ _ _ _ _ _ _ _
                (sat_App_update_calendar any (fun _ _ => I) _ _ _ _) H2) as (S2 & _).
    destruct (sat_calls _ _ _ _ _ _ _ _ (sat_App_wipe_subscriptions _ _) H3) as (S3 & _).
    destruct (sat_calls _ _ _ _ _ _ _ _
                (sat_App_register_subscriptions any (fun _ _ => I) _ _ _ _ _) H4) as (S4 & _).
    rewrite (App_trigger_cases fuel env request cal_url mail_url Hcal Hmail w).
    fold key. rewrite Hst.
    destruct (Z.leb_spec (next_sync state) (clock env (ticks w))) as [_|Hlt]; [|lia].
    unfold App_resync. unfold bind at 1. fold auth. rewrite H1.
    unfold bind at 1. rewrite H2. unfold bind at 1. rewrite H3.
    unfold bind at 1. rewrite H4. mrun. unfold App_stored. cbn [store calls logs ticks].
    rewrite S4, S3, S2, S1. reflexivity.
  - intros bearer accept content_type Ha Hb Hc hd w w1 w2 w3 w4 users
           (state_file & state & Hw & Hst & Hle) H1 H2 H3 H4.
    destruct (sat_calls _ _ _ _ _ _ _ _
                (sat_get_all_users (S := Application.Store) any (fun _ _ => I) _ _ _) H1)
      as (S1 & _).
    destruct (sat_calls _ _ _ _ _ _ _ _
                (sat_Application_update_calendar any (fun _ _ => I) _ _ _ _) H2) as (S2 & _).
    destruct (sat_calls _ _ _ _ _ _ _ _ (sat_Application_wipe_subscriptions _ _) H3)
      as (S3 & _).
    destruct (sat_calls _ _ _ _ _ _ _ _
                (sat_Application_register_subscriptions any (fun _ _ => I) _ _ _ _ _) H4)
      as (S4 & _).
    rewrite (Application_trigger_cases fuel env request cal_url mail_url Hcal Hmail w).
    fold key. rewrite Hw. cbn [mbind option_bind]. rewrite Hst.
    destruct (Z.leb_spec (next_sync state) (clock env (ticks w))) as [_|Hlt]; [|lia].
    unfold Application_resync_request. unfold bind at 1.
    rewrite (Application_get_headers_run request bearer accept content_type env (tick w)
               Ha Hb Hc).
    fold hd. unfold bind at 1. rewrite H1.
    unfold bind at 1. rewrite H2. unfold bind at 1. rewrite H3.
    unfold bind at 1. rewrite H4. mrun. unfold Application_stored.
    cbn [store calls logs ticks].
    rewrite S4, S3, S2, S1. unfold synced_state, tick. cbn [store]. rewrite ?Hw.
    reflexivity.
Qed.

(** The record of the sample key, with a time of sync that is the first
    reading of the sample clock. *)
Definition expired_world : World App.Store :=
  MkWorld {[ full_hkey "https://c.example/cal" "https://c.example/mail" :=
               {| authorization := Some "Bearer old";
                  calendar_webhook := "https://c.example/cal";
                  email_webhook := "https://c.example/mail";
                  next_sync := DateTime.make 2026 11 3 10 0 0 0 |} ]} [] [] 0.


Lemma trigger_expired_resyncs_witness :
  exists w5,
    App.trigger_middleware 5 trigger_request resync_env expired_world
    = (Ok (Response status_ok 200), w5).
Proof.
  destruct (trigger_expired_resyncs 5 resync_env trigger_request
              "https://c.example/cal" "https://c.example/mail" eq_refl eq_refl)
    as (Happ & _).
  pose (auth := Some "Bearer new").
  pose (hkey := derive "https://c.example/cal" "https://c.example/mail").
  pose (users := [JObj [("id", JStr "u1"); ("mail", JStr "ann@x.org");
                        ("manager_mail", JStr "boss@x.org")]]).
  pose (r1 := fun s : App.Store =>
                get_all_users App.GRAPH_API_URL 5 (App.get_headers auth) resync_env
                  (MkWorld s [] [] 1)).
  pose (r2 := fun s => App.update_calendar 5 auth users "https://c.example/cal" resync_env
                         (snd (r1 s))).
  pose (r3 := fun s => App.wipe_subscriptions 5 auth resync_env (snd (r2 s))).
  pose (r4 := fun s => App.register_subscriptions auth hkey users "https://c.example/cal"
                         "https://c.example/mail" resync_env (snd (r3 s))).
  assert (H1 : forall s, r1 s = (Ok users, snd (r1 s))) by (intros s; vm_compute; reflexivity).
  assert (H2 : forall s, r2 s = (Ok tt, snd (r2 s))) by (intros s; vm_compute; reflexivity).
  assert (H3 : forall s, r3 s = (Ok tt, snd (r3 s))) by (intros s; vm_compute; reflexivity).
  assert (H4 : forall s, r4 s = (Ok tt, snd (r4 s))) by (intros s; vm_compute; reflexivity).
  set (s0 := store expired_world).
  eexists.
  apply (Happ expired_world (snd (r1 s0)) (snd (r2 s0)) (snd (r3 s0)) (snd (r4 s0))
           {| authorization := Some "Bearer old";
              calendar_webhook := "https://c.example/cal";
              email_webhook := "https://c.example/mail";
              next_sync := DateTime.make 2026 11 3 10 0 0 0 |} users
           (lookup_singleton_eq _ _)).
  - (vm_compute; discriminate).
  - exact (H1 s0).
  - exact (H2 s0).
  - exact (H3 s0).
  - exact (H4 s0).
Defined.

(** ** What a trigger does to the state store *)

Lemma App_trigger_without_arg (fuel : nat) (env : Env) (request : FlaskRequest)
    (w : World App.Store) :
  lookup_arg "calendar_webhook" (args request) = None
  \/ lookup_arg "email_webhook" (args request) = None ->
  exists k, App.trigger_middleware fuel request env w = (Raise (KeyError k), w).
Proof.
  intros H. unfold App.trigger_middleware. mrun.
  destruct (lookup_arg "calendar_webhook" (args request)); [|eexists; reflexivity].
  destruct H as [H|H]; [discriminate|]. mrun. rewrite H. eexists; reflexivity.
Qed.

Lemma Application_trigger_without_arg (fuel : nat) (env : Env) (request : FlaskRequest)
    (w : World Application.Store) :
  lookup_arg "calendar_webhook" (args request) = None
  \/ lookup_arg "email_webhook" (args request) = None ->
  exists k, Application.trigger_middleware fuel request env w = (Raise (KeyError k), w).
Proof.
  intros H. unfold Application.trigger_middleware. mrun.
  destruct (lookup_arg "calendar_webhook" (args request)); [|eexists; reflexivity].
  destruct H as [H|H]; [discriminate|]. mrun. rewrite H. eexists; reflexivity.
Qed.

(** The record that a trigger writes for a request. *)
Definition trigger_record (request : FlaskRequest) (cal_url mail_url : string)
    (t : DateTime.datetime) : State :=
  {| authorization := lookup_header "Authorization" (headers request);
     calendar_webhook := cal_url;
     email_webhook := mail_url;
     next_sync := t |}.

(** What a trigger for the addresses [cal_url] and [mail_url] leaves in the
    state store. *)
Lemma App_trigger_store (fuel : nat) (env : Env) (request : FlaskRequest)
    (cal_url mail_url : string) (w : World App.Store) :
  lookup_arg "calendar_webhook" (args request) = Some cal_url ->
  lookup_arg "email_webhook" (args request) = Some mail_url ->
  match App.trigger_middleware fuel request env w with
  | (Ok resp, w') =>
      resp = Response status_ok 200
      /\ exists t, store w' = <[full_hkey cal_url mail_url :=
                                  trigger_record request cal_url mail_url t]> (store w)
  | (_, w') => store w' = store w
  end.
Proof.
  intros Hcal Hmail.
  rewrite (App_trigger_cases fuel env request cal_url mail_url Hcal Hmail w).
  assert (Hend : forall w0 : World App.Store,
             store w0 = store w ->
             match App_stored request cal_url mail_url
                     (App_resync fuel request cal_url mail_url env w0) with
             | (Ok resp, w') =>
                 resp = Response status_ok 200
                 /\ exists t, store w' = <[full_hkey cal_url mail_url :=
                                             trigger_record request cal_url mail_url t]>
                                           (store w)
             | (_, w') => store w' = store w
             end).
  { intros w0 H0.
    destruct (sat_App_resync fuel request cal_url mail_url env w0) as (Hs & _).
    destruct (App_resync fuel request cal_url mail_url env w0) as [[t|e|] w4];
      cbn [App_stored fst snd store] in *; try congruence.
    split; [reflexivity|]. exists t. rewrite Hs, H0. reflexivity. }
  destruct (store w !! full_hkey cal_url mail_url) as [state|]; [|now apply Hend].
  destruct (next_sync state <=? clock env (ticks w)); [now apply Hend|].
  cbn [App_stored tick store]. split; [reflexivity|].
  exists (next_sync state). reflexivity.
Qed.

Lemma Application_trigger_store (fuel : nat) (env : Env) (request : FlaskRequest)
    (cal_url mail_url : string) (w : World Application.Store) :
  lookup_arg "calendar_webhook" (args request) = Some cal_url ->
  lookup_arg "email_webhook" (args request) = Some mail_url ->
  match Application.trigger_middleware fuel request env w with
  | (Ok resp, w') =>
      resp = Response status_ok 200
      /\ exists t, store w' = Some (<[full_hkey cal_url mail_url :=
                                        trigger_record request cal_url mail_url t]>
                                      (default ∅ (store w)))
  | (_, w') => store w' = store w
  end.
Proof.
  intros Hcal Hmail.
  rewrite (Application_trigger_cases fuel env request cal_url mail_url Hcal Hmail w).
  assert (Hend : forall w0 : World Application.Store,
             store w0 = store w ->
             match Application_stored request cal_url mail_url
                     (Application_resync_request fuel request cal_url mail_url env w0) with
             | (Ok resp, w') =>
                 resp = Response status_ok 200
                 /\ exists t, store w' = Some (<[full_hkey cal_url mail_url :=
                                                   trigger_record request cal_url mail_url t]>
                                                 (default ∅ (store w)))
             | (_, w') => store w' = store w
             end).
  { intros w0 H0.
    destruct (sat_Application_resync_request fuel request cal_url mail_url env w0)
      as (Hs & _).
    destruct (Application_resync_request fuel request cal_url mail_url env w0)
      as [[t|e|] w4]; cbn [Application_stored fst snd store] in *; try congruence.
    split; [reflexivity|]. exists t. rewrite Hs, H0. reflexivity. }
  destruct (store w ≫= _) as [state|]; [|now apply Hend].
  destruct (next_sync state <=? clock env (ticks w)); [now apply Hend|].
  cbn [Application_stored tick store]. split; [reflexivity|].
  exists (next_sync state). reflexivity.
Qed.

(** X8.  Whatever the request, the upstream, the clock and the stored state
    are: a trigger that answers, answers 200 and has written one record, under
    the key of the request's two addresses, with the request's credential and
    addresses, every other record being as it was; a trigger that does not
    answer (it raised, or the listing did not end) has left the state store
    as it was.  In application.py the write creates the state file when there
    was none. *)
Theorem trigger_writes_one_record (fuel : nat) (env : Env) (request : FlaskRequest) :
  (forall w : World App.Store,
      match App.trigger_middleware fuel request env w with
      | (Ok resp, w') =>
          resp = Response status_ok 200
          /\ exists cal_url mail_url t,
               lookup_arg "calendar_webhook" (args request) = Some cal_url
               /\ lookup_arg "email_webhook" (args request) = Some mail_url
               /\ store w' = <[full_hkey cal_url mail_url :=
                                 trigger_record request cal_url mail_url t]> (store w)
      | (_, w') => store w' = store w
      end)
  /\ (forall w : World Application.Store,
         match Application.trigger_middleware fuel request env w with
         | (Ok resp, w') =>
             resp = Response status_ok 200
             /\ exists cal_url mail_url t,
                  lookup_arg "calendar_webhook" (args request) = Some cal_url
                  /\ lookup_arg "email_webhook" (args request) = Some mail_url
                  /\ store w' = Some (<[full_hkey cal_url mail_url :=
                                          trigger_record request cal_url mail_url t]>
                                        (default ∅ (store w)))
         | (_, w') => store w' = store w
         end).
Proof.
  split; intros w.
  - destruct (lookup_arg "calendar_webhook" (args request)) as [cal_url|] eqn:Hcal;
      [|destruct (App_trigger_without_arg fuel env request w (or_introl Hcal)) as [k ->];
        reflexivity].
    destruct (lookup_arg "email_webhook" (args request)) as [mail_url|] eqn:Hmail;
      [|destruct (App_trigger_without_arg fuel env request w (or_intror Hmail)) as [k ->];
        reflexivity].
    pose proof (App_trigger_store fuel env request cal_url mail_url w Hcal Hmail) as H.
    destruct (App.trigger_middleware fuel request env w) as [[resp|e|] w'];
      [|exact H|exact H].
    destruct H as (Hresp & t & Hst). split; [exact Hresp|].
    exists cal_url, mail_url, t. auto.
  - destruct (lookup_arg "calendar_webhook" (args request)) as [cal_url|] eqn:Hcal;
      [|destruct (Application_trigger_without_arg fuel env request w (or_introl Hcal))
          as [k ->]; reflexivity].
    destruct (lookup_arg "email_webhook" (args request)) as [mail_url|] eqn:Hmail;
      [|destruct (Application_trigger_without_arg fuel env request w (or_intror Hmail))
          as [k ->]; reflexivity].
    pose proof (Application_trigger_store fuel env request cal_url mail_url w Hcal Hmail)
      as H.
    destruct (Application.trigger_middleware fuel request env w) as [[resp|e|] w'];
      [|exact H|exact H].
    destruct H as (Hresp & t & Hst). split; [exact Hresp|].
    exists cal_url, mail_url, t. auto.
Qed.

(** X9.  application.py asks for the request's Authorization, Accept and
    Content-Type headers only when a resync is due.  For a key without
    record, a request that lacks one of them ends in a [KeyError] once the
    warning about the key is logged, before any call, and nothing is stored;
    the same request, for a key that is still in sync, is answered 200 and
    its credential (none when the Authorization header is the one that lacks)
    replaces the stored one. *)
Theorem Application_trigger_headers
    (fuel : nat) (env : Env) (request : FlaskRequest) (cal_url mail_url : string)
    (w : World Application.Store) :
  lookup_arg "calendar_webhook" (args request) = Some cal_url ->
  lookup_arg "email_webhook" (args request) = Some mail_url ->
  lookup_header "Authorization" (headers request) = None
  \/ lookup_header "Accept" (headers request) = None
  \/ lookup_header "Content-Type" (headers request) = None ->
  let key := full_hkey cal_url mail_url in
  (no_state_on_file w key ->
   exists k,
     Application.trigger_middleware fuel request env w
     = (Raise (KeyError k), add_log WARNING (unexpected_hkey_warning cal_url mail_url) w))
  /\ (forall state_file state,
         store w = Some state_file ->
         state_file !! key = Some state ->
         clock env (ticks w) < next_sync state ->
         Application.trigger_middleware fuel request env w
         = (Ok (Response status_ok 200),
            MkWorld (Some (<[key := trigger_record request cal_url mail_url (next_sync state)]>
                             state_file))
                    (calls w) (logs w) (Datatypes.S (ticks w)))).
Proof.
  intros Hcal Hmail Hmiss key.
  assert (Hheaders : forall w0 : World Application.Store,
             exists k, Application.get_headers request env w0 = (Raise (KeyError k), w0)).
  { intros w0. unfold Application.get_headers. mrun.
    destruct (lookup_header "Authorization" (headers request)); [|eexists; reflexivity].
    mrun. destruct (lookup_header "Accept" (headers request)); [|eexists; reflexivity].
    mrun. destruct (lookup_header "Content-Type" (headers request)); [|eexists; reflexivity].
    destruct Hmiss as [H|[H|H]]; discriminate. }
  rewrite (Application_trigger_cases fuel env request cal_url mail_url Hcal Hmail w).
  fold key. split.
  - intros Hno. unfold no_state_on_file in Hno.
    assert (Hnone : store w ≫= (.!! key) = None).
    { destruct (store w); [exact Hno|reflexivity]. }
    rewrite Hnone. unfold Application_resync_request. unfold bind at 1.
    destruct (Hheaders (add_log WARNING (unexpected_hkey_warning cal_url mail_url) w))
      as [k ->].
    exists k. reflexivity.
  - intros state_file state Hw Hst Hlt. rewrite Hw. cbn [mbind option_bind]. rewrite Hst.
    destruct (Z.leb_spec (next_sync state) (clock env (ticks w))) as [Hle|_]; [lia|].
    cbn [Application_stored tick store calls logs ticks]. rewrite Hw. reflexivity.
Qed.

Lemma Application_trigger_headers_witness :
  exists k,
    Application.trigger_middleware 1 trigger_request quiet_env (MkWorld None [] [] 0)
    = (Raise (KeyError k),
       add_log WARNING
         (unexpected_hkey_warning "https://c.example/cal" "https://c.example/mail")
         (MkWorld None [] [] 0)).
Proof.
  destruct (Application_trigger_headers 1 quiet_env trigger_request
              "https://c.example/cal" "https://c.example/mail" (MkWorld None [] [] 0)
              eq_refl eq_refl (or_intror (or_introl eq_refl))) as [Hno _].
  apply Hno. exact I.
Defined.

(** ** The notification path *)

Section CallbackFacts.

Ltac sat_any :=
  repeat first
    [ eapply sat_weaken;
      [apply sat_App_parse_event with (Q := any); exact (fun _ _ => I)
      | intros ?; apply uses_incl; cbn [In]; intuition auto
      | auto | auto]
    | eapply sat_weaken;
      [apply sat_Application_parse_event with (Q := any); exact (fun _ _ => I)
      | intros ?; apply uses_incl; cbn [In]; intuition auto
      | auto | auto]
    | sat_graph ];
  try exact (fun _ _ => I); try exact I.

Lemma sat_App_process_message st mail manager_mail odata_id :
  satisfies (App.process_message st mail manager_mail odata_id) (uses [mGET; mPUT]) any any.
Proof. unfold App.process_message. sat_any. Qed.

Lemma sat_App_process_event st mail odata_id :
  satisfies (App.process_event st mail odata_id) (uses [mGET; mPUT]) any any.
Proof. unfold App.process_event. sat_any. Qed.

Lemma sat_Application_process_message st mail manager_mail odata_id :
  satisfies (Application.process_message st mail manager_mail odata_id)
            (uses [mGET; mPUT]) any any.
Proof. unfold Application.process_message. sat_any. Qed.

Lemma sat_Application_process_event st mail odata_id :
  satisfies (Application.process_event st mail odata_id) (uses [mGET; mPUT]) any any.
Proof. unfold Application.process_event. sat_any. Qed.

Lemma sat_App_get_data hkey : satisfies (App.get_data hkey) (uses [mGET; mDELETE; mPUT]) any any.
Proof.
  unfold App.get_data. eapply sat_bind with (R1 := any); [apply sat_get_store|].
  intros globalstate _. destruct (globalstate !! hkey); [now apply sat_ret|now apply sat_raise].
Qed.

Lemma sat_Application_get_data hkey :
  satisfies (Application.get_data hkey) (uses [mGET; mDELETE; mPUT]) any any.
Proof.
  unfold Application.get_data. eapply sat_bind with (R1 := any); [apply sat_get_store|].
  intros [data|] _; [|now apply sat_ret].
  destruct (data !! hkey); [now apply sat_ret|now apply sat_raise].
Qed.


Ltac lift_step :=
  eapply sat_bind with (R1 := any);
  [apply sat_lift_pure; [auto with pure | exact (fun _ _ => I)] | intros ? _].

Ltac ret_or_raise :=
  first [apply sat_ret; exact I | apply sat_raise; exact I
        | apply sat_raise_MiddlewareException; exact I].

Lemma sat_unpack3 {S} (l : list string) P :
  satisfies (S := S) (unpack3 l) P any any.
Proof. unfold unpack3. destruct l as [|a [|b [|c [|d l]]]]; ret_or_raise. Qed.

Lemma sat_index1 {S} (l : list string) P :
  satisfies (S := S) (index1 l) P any any.
Proof. unfold index1. destruct l as [|a [|b l]]; ret_or_raise. Qed.

Lemma sat_App_item subscription hkey1 value :
  satisfies (App._handle_subscription_callback_value subscription hkey1 value)
            (uses [mGET; mDELETE; mPUT]) any any.
Proof.
  unfold App._handle_subscription_callback_value.
  do 2 lift_step.
  eapply sat_bind with (R1 := any); [apply sat_unpack3|intros [[hkey0 mail] manager_mail] _].
  eapply sat_bind with (R1 := any).
  { eapply sat_try_except with (Q' := any).
    - eapply sat_bind with (R1 := any); [apply sat_App_get_data|intros; ret_or_raise].
    - intros [] _; try exact I.
      eapply sat_bind with (R1 := any); [apply sat_logging|intros; ret_or_raise]. }
  intros [globalstateentry|] _; [|ret_or_raise].
  do 3 lift_step.
  eapply sat_bind with (R1 := any); [apply sat_index1|intros shortid _].
  destruct (String.eqb subscription "messages"); [|destruct (String.eqb subscription "events")].
  - lift_step. destruct (Py.eq_str _ "deleted");
      (eapply sat_bind with (R1 := any); [|intros; ret_or_raise]).
    + apply sat_requests. solve_uses.
    + eapply sat_weaken; [apply sat_App_process_message|intros ?; apply uses_incl; cbn [In]; tauto|auto|auto].
  - lift_step. destruct (Py.eq_str _ "deleted");
      (eapply sat_bind with (R1 := any); [|intros; ret_or_raise]).
    + apply sat_requests. solve_uses.
    + eapply sat_weaken; [apply sat_App_process_event|intros ?; apply uses_incl; cbn [In]; tauto|auto|auto].
  - ret_or_raise.
Qed.


Lemma sat_Application_item subscription hkey1 value :
  satisfies (Application._handle_subscription_callback_value subscription hkey1 value)
            (uses [mGET; mDELETE; mPUT]) any any.
Proof.
  unfold Application._handle_subscription_callback_value.
  do 2 lift_step.
  eapply sat_bind with (R1 := any); [apply sat_unpack3|intros [[hkey0 mail] manager_mail] _].
  eapply sat_bind with (R1 := any).
  { eapply sat_try_except with (Q' := any).
    - eapply sat_bind with (R1 := any); [apply sat_Application_get_data|].
      intros [state|] _; ret_or_raise.
    - intros [] _; try exact I.
      eapply sat_bind with (R1 := any); [apply sat_logging|intros; ret_or_raise]. }
  intros [globalstateentry|] _; [|ret_or_raise].
  do 3 lift_step.
  eapply sat_bind with (R1 := any); [apply sat_index1|intros shortid _].
  destruct (String.eqb subscription "messages"); [|destruct (String.eqb subscription "events")].
  - lift_step. destruct (Py.eq_str _ "deleted");
      (eapply sat_bind with (R1 := any); [|intros; ret_or_raise]).
    + apply sat_requests. solve_uses.
    + eapply sat_weaken; [apply sat_Application_process_message|intros ?; apply uses_incl; cbn [In]; tauto|auto|auto].
  - lift_step. destruct (Py.eq_str _ "deleted");
      (eapply sat_bind with (R1 := any); [|intros; ret_or_raise]).
    + apply sat_requests. solve_uses.
    + eapply sat_weaken; [apply sat_Application_process_event|intros ?; apply uses_incl; cbn [In]; tauto|auto|auto].
  - ret_or_raise.
Qed.

Lemma sat_swallow {S} (m : M S unit) P :
  satisfies m P any any -> satisfies (swallow_MiddlewareException m) P any any.
Proof.
  intros Hm. unfold swallow_MiddlewareException.
  eapply sat_try_except with (Q' := any); [exact Hm|].
  intros [] _; try exact I. now apply sat_ret.
Qed.

Lemma sat_json_loads {S} (d : option Json) P : satisfies (S := S) (json_loads d) P any any.
Proof. unfold json_loads. destruct d; ret_or_raise. Qed.

Lemma sat_App_callback subscription hkey1 request :
  satisfies (App.handle_subscription_callback subscription hkey1 request)
            (uses [mGET; mDELETE; mPUT]) any any.
Proof.
  unfold App.handle_subscription_callback.
  destruct (lookup_arg "validationToken" (args request)); [ret_or_raise|].
  eapply sat_bind with (R1 := any); [apply sat_json_loads|intros jsonbody _].
  do 2 lift_step.
  eapply sat_bind with (R1 := any); [|intros; ret_or_raise].
  apply sat_for_each. intros value _.
  apply (sat_swallow (App._handle_subscription_callback_value subscription hkey1 value;; ret tt)).
  eapply sat_bind with (R1 := any); [apply sat_App_item|intros; ret_or_raise].
Qed.

Lemma sat_Application_callback subscription hkey1 request :
  satisfies (Application.handle_subscription_callback subscription hkey1 request)
            (uses [mGET; mDELETE; mPUT]) any any.
Proof.
  unfold Application.handle_subscription_callback.
  destruct (lookup_arg "validationToken" (args request)); [ret_or_raise|].
  eapply sat_bind with (R1 := any); [apply sat_json_loads|intros jsonbody _].
  do 2 lift_step.
  eapply sat_bind with (R1 := any); [|intros; ret_or_raise].
  apply sat_for_each. intros value _.
  apply (sat_swallow
           (Application._handle_subscription_callback_value subscription hkey1 value;; ret tt)).
  eapply sat_bind with (R1 := any); [apply sat_Application_item|intros; ret_or_raise].
Qed.

End CallbackFacts.

(** The methods of a notification: the fetch of the resource, and the update
    or removal of the cache entry. *)
Definition callback_methods : list Method := [mGET; mDELETE; mPUT].

(** X10.  The callback route only reads the state store: whatever the
    notification, the stored state and the upstream are, and whether the
    route answers or raises, both variants leave every record as it was, and
    the calls they add to the trace are GET, PUT and DELETE calls, never the
    POST that would create a subscription. *)
Theorem callback_reads_state_only
    (subscription hkey1 : string) (request : FlaskRequest) (env : Env) :
  (forall w : World App.Store,
      let w' := snd (App.handle_subscription_callback subscription hkey1 request env w) in
      store w' = store w
      /\ exists d, calls w' = calls w ++ d /\ Forall (uses callback_methods) d)
  /\ (forall w : World Application.Store,
         let w' :=
           snd (Application.handle_subscription_callback subscription hkey1 request env w) in
         store w' = store w
         /\ exists d, calls w' = calls w ++ d /\ Forall (uses callback_methods) d).
Proof.
  split; intros w w'.
  - destruct (sat_App_callback subscription hkey1 request env w) as (Hs & Hd & _). auto.
  - destruct (sat_Application_callback subscription hkey1 request env w) as (Hs & Hd & _).
    auto.
Qed.

Section LastSegment.

Lemma rsplit1_one (sep : ascii) (s : string) :
  has_char sep s = false -> PyStr.rsplit1 sep s = [s].
Proof.
  induction s as [|c s IH]; intros H; [reflexivity|].
  rewrite has_char_cons in H. apply orb_false_elim in H as [Hc Hs].
  cbn [PyStr.rsplit1]. rewrite (IH Hs), Ascii.eqb_sym, Hc. reflexivity.
Qed.

(** [s.rsplit(sep, 1)] cuts at the last separator. *)
Lemma rsplit1_cut (sep : ascii) (p s : string) :
  has_char sep s = false ->
  PyStr.rsplit1 sep (p +:+ String sep s) = [p; s].
Proof.
  intros Hs. induction p as [|c p IH].
  - change ("" +:+ String sep s) with (String sep s).
    cbn [PyStr.rsplit1]. rewrite (rsplit1_one sep s Hs), Ascii.eqb_refl. reflexivity.
  - rewrite append_cons. cbn [PyStr.rsplit1]. rewrite IH. reflexivity.
Qed.

(** A string that holds the separator has a last segment. *)
Lemma rsplit1_two (sep : ascii) (s : string) :
  has_char sep s = true ->
  exists p last, s = p +:+ String sep last /\ has_char sep last = false.
Proof.
  induction s as [|c s IH]; intros H; [discriminate|].
  rewrite has_char_cons in H.
  destruct (has_char sep s) eqn:Hs.
  - destruct (IH eq_refl) as (p & last & -> & Hl).
    exists (String c p), last. rewrite append_cons. auto.
  - rewrite orb_false_r in H. apply Ascii.eqb_eq in H. subst c.
    exists "", s. auto.
Qed.

End LastSegment.

(** The resource of a notification, as the callback reads it. *)
Definition resource_id (value : Json) (odata_id : string) : Prop :=
  exists resourceData,
    Py.getitem value "resourceData" = Ok resourceData
    /\ Py.getitem resourceData "@odata.id" = Ok (JStr odata_id).

Section DeletedItem.
Variables (hkey1 hkey0 mail manager_mail prefix shortid : string) (value : Json).
Variables (globalstateentry : State) (env : Env).
Hypothesis Hfields : client_state_fields value hkey0 mail manager_mail.
Hypothesis Hresource : resource_id value (prefix +:+ "/" +:+ shortid).
Hypothesis Hshort : has_char "/" shortid = false.
Hypothesis Hchange : Py.getitem value "changeType" = Ok (JStr "deleted").

(** The call that removes the entry [shortid] from the cache at [webhook]. *)
Definition removal (webhook : string) : Call := DELETE (webhook +:+ "/?id=" +:+ shortid) [].

Lemma App_deleted_run (w : World App.Store) :
  store w !! (hkey0 +:+ hkey1) = Some globalstateentry ->
  App._handle_subscription_callback_value "messages" hkey1 value env w
  = (Ok None, add_call (removal (email_webhook globalstateentry)) w)
  /\ App._handle_subscription_callback_value "events" hkey1 value env w
     = (Ok None, add_call (removal (calendar_webhook globalstateentry)) w).
Proof using Hfields Hresource Hshort Hchange.
  destruct Hfields as (client_state & Hcs & Hsplit).
  destruct Hresource as (resourceData & Hrd & Hid).
  assert (Hlast : PyStr.rsplit1 "/" (prefix +:+ "/" +:+ shortid) = [prefix; shortid])
    by (apply (rsplit1_cut "/" prefix shortid Hshort)).
  intros Hst. unfold removal.
  split; unfold App._handle_subscription_callback_value, App.get_data;
    mrun; rewrite Hcs; mrun; cbn [Py.str_method]; mrun; rewrite Hsplit; mrun;
    rewrite Hst; mrun; rewrite Hrd; mrun; rewrite Hid; mrun; cbn [Py.str_method]; mrun;
    rewrite Hlast; mrun; cbn [String.eqb Ascii.eqb Bool.eqb]; mrun; rewrite Hchange;
    reflexivity.
Qed.

Lemma Application_deleted_run (w : World Application.Store) (state_file : gmap string State) :
  store w = Some state_file ->
  state_file !! (hkey0 +:+ hkey1) = Some globalstateentry ->
  Application._handle_subscription_callback_value "messages" hkey1 value env w
  = (Ok None, add_call (removal (email_webhook globalstateentry)) w)
  /\ Application._handle_subscription_callback_value "events" hkey1 value env w
     = (Ok None, add_call (removal (calendar_webhook globalstateentry)) w).
Proof using Hfields Hresource Hshort Hchange.
  destruct Hfields as (client_state & Hcs & Hsplit).
  destruct Hresource as (resourceData & Hrd & Hid).
  assert (Hlast : PyStr.rsplit1 "/" (prefix +:+ "/" +:+ shortid) = [prefix; shortid])
    by (apply (rsplit1_cut "/" prefix shortid Hshort)).
  intros Hw Hst. unfold removal.
  split; unfold Application._handle_subscription_callback_value, Application.get_data;
    mrun; rewrite Hcs; mrun; cbn [Py.str_method]; mrun; rewrite Hsplit; mrun;
    rewrite Hw, Hst; mrun; rewrite Hrd; mrun; rewrite Hid; mrun; cbn [Py.str_method]; mrun;
    rewrite Hlast; mrun; cbn [String.eqb Ascii.eqb Bool.eqb]; mrun; rewrite Hchange;
    reflexivity.
Qed.

End DeletedItem.

(** X11.  A notification of a deletion, for a key that has a record, is sent
    on as one DELETE to the cache webhook of its kind (e-mail for [messages],
    calendar for [events]), at the webhook address followed by [/?id=] and
    the text after the last slash of the resource's [@odata.id], without any
    header; the resource is not fetched, the clientState's mails play no part,
    and the answer of the cache is not looked at: whatever it is, the item
    ends without a log record.  Both variants do the same. *)
Theorem deleted_item_leaves_the_cache
    (hkey1 hkey0 mail manager_mail prefix shortid : string) (value : Json)
    (globalstateentry : State) (env : Env) :
  client_state_fields value hkey0 mail manager_mail ->
  resource_id value (prefix +:+ "/" +:+ shortid) ->
  has_char "/" shortid = false ->
  Py.getitem value "changeType" = Ok (JStr "deleted") ->
  (forall w : World App.Store,
      store w !! (hkey0 +:+ hkey1) = Some globalstateentry ->
      App._handle_subscription_callback_value "messages" hkey1 value env w
      = (Ok None, add_call (removal shortid (email_webhook globalstateentry)) w)
      /\ App._handle_subscription_callback_value "events" hkey1 value env w
         = (Ok None, add_call (removal shortid (calendar_webhook globalstateentry)) w))
  /\ (forall (w : World Application.Store) state_file,
         store w = Some state_file ->
         state_file !! (hkey0 +:+ hkey1) = Some globalstateentry ->
         Application._handle_subscription_callback_value "messages" hkey1 value env w
         = (Ok None, add_call (removal shortid (email_webhook globalstateentry)) w)
         /\ Application._handle_subscription_callback_value "events" hkey1 value env w
            = (Ok None, add_call (removal shortid (calendar_webhook globalstateentry)) w)).
Proof.
  intros Hfields Hresource Hshort Hchange. split.
  - intros w Hst. now apply (App_deleted_run hkey1 hkey0 mail manager_mail prefix).
  - intros w state_file Hw Hst.
    now apply (Application_deleted_run hkey1 hkey0 mail manager_mail prefix) with state_file.
Qed.

Lemma deleted_item_leaves_the_cache_witness :
  App._handle_subscription_callback_value "messages" "ab6919a6" deleted_item quiet_env
    callback_world
  = (Ok None, add_call (DELETE "https://c.example/mail/?id=m2" []) callback_world).
Proof.
  assert (Hfields : client_state_fields deleted_item "6780fb97" "ann@x.org" "boss@x.org").
  { exists "6780fb97^ann@x.org^boss@x.org". split; reflexivity. }
  assert (Hres : resource_id deleted_item ("Users/u1/Messages" +:+ "/" +:+ "m2")).
  { exists (JObj [("@odata.id", JStr "Users/u1/Messages/m2")]). split; reflexivity. }
  destruct (deleted_item_leaves_the_cache "ab6919a6" "6780fb97" "ann@x.org" "boss@x.org"
              "Users/u1/Messages" "m2" deleted_item known_state quiet_env
              Hfields Hres eq_refl eq_refl) as (Happ & _).
  destruct (Happ callback_world (lookup_singleton_eq _ _)) as [Hmessages _].
  exact Hmessages.
Defined.

Definition event_url (graph_api_url odata_id : string) : string :=
  graph_api_url +:+ "/v1.0/" +:+ odata_id +:+ "?"
  +:+ "$select=id,subject,location,organizer,start,"
  +:+ "end,weblink,responsestatus,body,attendees,"
  +:+ "isCancelled".

(** The world after a fetch of [url] that the upstream answered with an error
    status, and after the [MiddlewareException] with message [msg] that follows. *)
Definition unresolved {S} (env : Env) (w : World S) (url : string) (hd : Headers)
    (msg : string) : World S :=
  add_log ERROR msg
    (add_log WARNING ("Fetch url " +:+ url +:+ " hit "
                      +:+ PyStr.of_Z (status_code (http env (calls w) (GET url hd))))
       (add_call (GET url hd) w)).

(** X12.  A notification of a change whose resource the upstream does not
    give (the fetch is answered with an error status, as when the resource
    was deleted meanwhile) costs one GET with the stored credential and
    nothing more: no call to a cache, a warning and an error in the log, and
    a [MiddlewareException] that the loop over the items swallows, so that
    the item ends like one that was handled.  Both variants, both kinds. *)
Theorem unresolved_item_is_dropped
    (hkey1 hkey0 mail manager_mail odata_id : string) (value change_type : Json)
    (globalstateentry : State) (env : Env) :
  client_state_fields value hkey0 mail manager_mail ->
  resource_id value odata_id ->
  has_char "/" odata_id = true ->
  Py.getitem value "changeType" = Ok change_type ->
  Py.eq_str change_type "deleted" = false ->
  let hd := [("Authorization", authorization globalstateentry);
             ("Content-type", Some "application/json")] in
  (forall w : World App.Store,
      store w !! (hkey0 +:+ hkey1) = Some globalstateentry ->
      (let url := message_url App.GRAPH_API_URL odata_id in
       ok (http env (calls w) (GET url hd)) = false ->
       App_item "messages" hkey1 value env w
       = (Ok tt, unresolved env w url hd
                   ("Failed to resolve message in process_message " +:+ odata_id)))
      /\ (let url := event_url App.GRAPH_API_URL odata_id in
          ok (http env (calls w) (GET url hd)) = false ->
          App_item "events" hkey1 value env w
          = (Ok tt, unresolved env w url hd
                      ("Failed to resolve event in process_event " +:+ odata_id))))
  /\ (forall (w : World Application.Store) state_file,
         store w = Some state_file ->
         state_file !! (hkey0 +:+ hkey1) = Some globalstateentry ->
         (let url := message_url Application.GRAPH_API_URL odata_id in
          ok (http env (calls w) (GET url hd)) = false ->
          Application_item "messages" hkey1 value env w
          = (Ok tt, unresolved env w url hd
                      ("Failed to resolve message in process_message " +:+ odata_id)))
         /\ (let url := event_url Application.GRAPH_API_URL odata_id in
             ok (http env (calls w) (GET url hd)) = false ->
             Application_item "events" hkey1 value env w
             = (Ok tt, unresolved env w url hd
                         ("Failed to resolve event in process_event " +:+ odata_id)))).
Proof.
  intros (client_state & Hcs & Hsplit) (resourceData & Hrd & Hid) Hslash Hchange Hnot hd.
  destruct (rsplit1_two "/" odata_id Hslash) as (prefix & shortid & Hcut & Hshort).
  assert (Hlast : PyStr.rsplit1 "/" odata_id = [prefix; shortid])
    by (rewrite Hcut; apply (rsplit1_cut "/" prefix shortid Hshort)).
  split.
  - intros w Hst. split; intros url Hfail.
    + unfold App_item, swallow_MiddlewareException, try_except. unfold bind at 1.
      unfold App._handle_subscription_callback_value, App.get_data.
      mrun. rewrite Hcs. mrun. cbn [Py.str_method]. mrun. rewrite Hsplit. mrun.
      rewrite Hst. mrun. rewrite Hrd. mrun. rewrite Hid. mrun. cbn [Py.str_method]. mrun.
      rewrite Hlast. mrun. cbn [String.eqb Ascii.eqb Bool.eqb]. mrun. rewrite Hchange, Hnot.
      unfold App.process_message. cbv zeta. unfold bind at 1.
      fold (message_url App.GRAPH_API_URL odata_id). fold url.
      change (App.get_headers (authorization globalstateentry)) with hd.
      rewrite (odata_getone_run url hd env w). cbv zeta. rewrite Hfail. cbn [negb].
      reflexivity.
    + unfold App_item, swallow_MiddlewareException, try_except. unfold bind at 1.
      unfold App._handle_subscription_callback_value, App.get_data.
      mrun. rewrite Hcs. mrun. cbn [Py.str_method]. mrun. rewrite Hsplit. mrun.
      rewrite Hst. mrun. rewrite Hrd. mrun. rewrite Hid. mrun. cbn [Py.str_method]. mrun.
      rewrite Hlast. mrun. cbn [String.eqb Ascii.eqb Bool.eqb]. mrun. rewrite Hchange, Hnot.
      unfold App.process_event. cbv zeta. unfold bind at 1.
      fold (event_url App.GRAPH_API_URL odata_id). fold url.
      change (App.get_headers (authorization globalstateentry)) with hd.
      rewrite (odata_getone_run url hd env w). cbv zeta. rewrite Hfail. cbn [negb].
      reflexivity.
  - intros w state_file Hw Hst. split; intros url Hfail.
    + unfold Application_item, swallow_MiddlewareException, try_except. unfold bind at 1.
      unfold Application._handle_subscription_callback_value, Application.get_data.
      mrun. rewrite Hcs. mrun. cbn [Py.str_method]. mrun. rewrite Hsplit. mrun.
      rewrite Hw, Hst. mrun. rewrite Hrd. mrun. rewrite Hid. mrun. cbn [Py.str_method]. mrun.
      rewrite Hlast. mrun. cbn [String.eqb Ascii.eqb Bool.eqb]. mrun. rewrite Hchange, Hnot.
      unfold Application.process_message. cbv zeta. unfold bind at 1.
      fold (message_url Application.GRAPH_API_URL odata_id). fold url.
      change (Application.state_headers globalstateentry) with hd.
      rewrite (odata_getone_run url hd env w). cbv zeta. rewrite Hfail. cbn [negb].
      reflexivity.
    + unfold Application_item, swallow_MiddlewareException, try_except. unfold bind at 1.
      unfold Application._handle_subscription_callback_value, Application.get_data.
      mrun. rewrite Hcs. mrun. cbn [Py.str_method]. mrun. rewrite Hsplit. mrun.
      rewrite Hw, Hst. mrun. rewrite Hrd. mrun. rewrite Hid. mrun. cbn [Py.str_method]. mrun.
      rewrite Hlast. mrun. cbn [String.eqb Ascii.eqb Bool.eqb]. mrun. rewrite Hchange, Hnot.
      unfold Application.process_event. cbv zeta. unfold bind at 1.
      fold (event_url Application.GRAPH_API_URL odata_id). fold url.
      change (Application.state_headers globalstateentry) with hd.
      rewrite (odata_getone_run url hd env w). cbv zeta. rewrite Hfail. cbn [negb].
      reflexivity.
Qed.

Definition changed_item : Json :=
  message_item "6780fb97^ann@x.org^boss@x.org" "updated" "Users/u1/Messages/m1".

Lemma unresolved_item_is_dropped_witness :
  exists w',
    App_item "messages" "ab6919a6" changed_item failing_env callback_world = (Ok tt, w')
    /\ calls w' = [GET (message_url App.GRAPH_API_URL "Users/u1/Messages/m1")
                       (App.get_headers (Some "Bearer t"))]
    /\ map fst (logs w') = [WARNING; ERROR].
Proof.
  assert (Hfields : client_state_fields changed_item "6780fb97" "ann@x.org" "boss@x.org").
  { exists "6780fb97^ann@x.org^boss@x.org". split; reflexivity. }
  assert (Hres : resource_id changed_item "Users/u1/Messages/m1").
  { exists (JObj [("@odata.id", JStr "Users/u1/Messages/m1")]). split; reflexivity. }
  destruct (unresolved_item_is_dropped "ab6919a6" "6780fb97" "ann@x.org" "boss@x.org"
              "Users/u1/Messages/m1" changed_item (JStr "updated") known_state failing_env
              Hfields Hres eq_refl eq_refl eq_refl) as (Happ & _).
  destruct (Happ callback_world (lookup_singleton_eq _ _)) as [Hmessages _].
  eexists. split; [apply Hmessages; reflexivity|]. split; reflexivity.
Defined.

(** ** The wipe of the subscriptions *)

(** A listed subscription is ours when its notification address starts with
    the callback address. *)
Definition ours (callback_url : string) (subscription : Json) : bool :=
  match Py.getitem subscription "notificationUrl" with
  | Ok (JStr notificationUrl) => PyStr.startswith callback_url notificationUrl
  | _ => false
  end.

(** The subscriptions that the wipe can go through: the notification address
    is a string, and the ones that are ours have an [id]. *)
Definition wipeable (callback_url : string) (subscription : Json) : Prop :=
  (exists notificationUrl,
      Py.getitem subscription "notificationUrl" = Ok (JStr notificationUrl))
  /\ (ours callback_url subscription = true -> exists id, Py.getitem subscription "id" = Ok id).

Definition subscription_id (subscription : Json) : string :=
  match Py.getitem subscription "id" with Ok id => Py.format id | _ => "" end.

(** The call that deletes a subscription. *)
Definition deletion (graph_api_url : string) (hd : Headers) (subscription : Json) : Call :=
  DELETE (graph_api_url +:+ "/v1.0/subscriptions/" +:+ subscription_id subscription) hd.

Definition add_calls {S} (cs : list Call) (w : World S) : World S :=
  MkWorld (store w) (calls w ++ cs) (logs w) (ticks w).

Section Wipe.
Context {S : Type}.
Variables (graph_api_url callback_url : string) (hd : Headers) (env : Env).

(** The body of the loop of [wipe_subscriptions]. *)
Definition wipe_one (subscription : Json) : M S unit :=
  notificationUrl <- lift (Py.getitem subscription "notificationUrl");;
  notificationUrl <- lift (Py.str_method notificationUrl);;
  if negb (PyStr.startswith callback_url notificationUrl) then ret tt
  else
    id <- lift (Py.getitem subscription "id");;
    r <- requests (DELETE (graph_api_url +:+ "/v1.0/subscriptions/" +:+ Py.format id) hd);;
    if negb (ok r) then
      raise_MiddlewareException ("Failed to delete subscription "
                                 +:+ Py.format id +:+ " due to "
                                 +:+ PyStr.of_Z (status_code r))
    else ret tt.

Lemma wipe_one_other (subscription : Json) (w : World S) :
  wipeable callback_url subscription ->
  ours callback_url subscription = false ->
  wipe_one subscription env w = (Ok tt, w).
Proof.
  intros [(u & Hu) _] Ho. unfold ours in Ho. rewrite Hu in Ho.
  unfold wipe_one. mrun. rewrite Hu. mrun. cbn [Py.str_method]. mrun. rewrite Ho.
  reflexivity.
Qed.

Lemma wipe_one_ours (subscription : Json) (w : World S) :
  wipeable callback_url subscription ->
  ours callback_url subscription = true ->
  let c := deletion graph_api_url hd subscription in
  wipe_one subscription env w
  = if ok (http env (calls w) c) then (Ok tt, add_call c w)
    else let msg := "Failed to delete subscription " +:+ subscription_id subscription
                    +:+ " due to " +:+ PyStr.of_Z (status_code (http env (calls w) c)) in
         (Raise (MiddlewareException msg), add_log ERROR msg (add_call c w)).
Proof.
  intros [(u & Hu) Hid] Ho c. destruct (Hid Ho) as (id & Hi).
  unfold ours in Ho. rewrite Hu in Ho.
  unfold c, deletion, subscription_id. rewrite Hi.
  unfold wipe_one. mrun. rewrite Hu. mrun. cbn [Py.str_method]. mrun. rewrite Ho.
  cbn [negb]. rewrite Hi. mrun.
  destruct (ok (http env (calls w) _)); reflexivity.
Qed.

(** When every deletion is accepted, the loop deletes the subscriptions that
    are ours, in the order of the listing, and nothing else. *)
Lemma wipe_loop_accepted (subscriptions : list Json) (w : World S) :
  Forall (wipeable callback_url) subscriptions ->
  (forall h c, method c = mDELETE -> ok (http env h c) = true) ->
  for_each subscriptions wipe_one env w
  = (Ok tt, add_calls (map (deletion graph_api_url hd)
                         (List.filter (ours callback_url) subscriptions)) w).
Proof.
  intros Hall Hok. revert w. induction Hall as [|s l Hs Hl IH]; intros w.
  - cbn. unfold add_calls. rewrite app_nil_r. destruct w; reflexivity.
  - cbn [for_each List.filter]. unfold bind.
    destruct (ours callback_url s) eqn:Ho.
    + rewrite (wipe_one_ours s w Hs Ho). cbv zeta. rewrite Hok by reflexivity.
      rewrite IH. cbn [map].
      unfold add_calls, add_call. cbn [store calls logs ticks].
      rewrite <- app_assoc. reflexivity.
    + rewrite (wipe_one_other s w Hs Ho). rewrite IH. reflexivity.
Qed.

(** The loop stops at the first deletion that is refused. *)
Lemma wipe_loop_refused (before after : list Json) (subscription : Json) (w : World S) :
  Forall (wipeable callback_url) before ->
  wipeable callback_url subscription ->
  ours callback_url subscription = true ->
  (forall h s, In s before -> ok (http env h (deletion graph_api_url hd s)) = true) ->
  let w1 := add_calls (map (deletion graph_api_url hd)
                         (List.filter (ours callback_url) before)) w in
  let c := deletion graph_api_url hd subscription in
  ok (http env (calls w1) c) = false ->
  let msg := "Failed to delete subscription " +:+ subscription_id subscription
             +:+ " due to " +:+ PyStr.of_Z (status_code (http env (calls w1) c)) in
  for_each (before ++ subscription :: after) wipe_one env w
  = (Raise (MiddlewareException msg), add_log ERROR msg (add_call c w1)).
Proof.
  intros Hall Hs Ho. revert w. induction Hall as [|s l Hw Hl IH]; intros w Hok w1 c Hno msg.
  - cbn [app for_each]. unfold bind. rewrite (wipe_one_ours subscription w Hs Ho). cbv zeta.
    assert (E : w1 = w) by (unfold w1, add_calls; cbn; rewrite app_nil_r; now destruct w).
    unfold msg, c in *. rewrite E in *. rewrite Hno. reflexivity.
  - cbn [app for_each]. unfold bind at 1.
    assert (Hok' : forall h s0, In s0 l -> ok (http env h (deletion graph_api_url hd s0)) = true)
      by (intros h s0 Hin; apply Hok; now right).
    destruct (ours callback_url s) eqn:Hos.
    + rewrite (wipe_one_ours s w Hw Hos). cbv zeta. rewrite (Hok _ s (or_introl eq_refl)).
      assert (E : w1 = add_calls (map (deletion graph_api_url hd)
                                    (List.filter (ours callback_url) l))
                         (add_call (deletion graph_api_url hd s) w)).
      { unfold w1. cbn [List.filter]. rewrite Hos. cbn [map].
        unfold add_calls, add_call. cbn [store calls logs ticks].
        rewrite <- app_assoc. reflexivity. }
      unfold msg, c in *. rewrite E in *. now apply IH.
    + rewrite (wipe_one_other s w Hw Hos).
      assert (E : w1 = add_calls (map (deletion graph_api_url hd)
                                    (List.filter (ours callback_url) l)) w).
      { unfold w1. cbn [List.filter]. rewrite Hos. reflexivity. }
      unfold msg, c in *. rewrite E in *. now apply IH.
Qed.

End Wipe.

(** The address at which the subscriptions are listed. *)
Definition subscriptions_url (graph_api_url : string) : string :=
  graph_api_url +:+ "/v1.0/subscriptions/?" +:+ "select=id,notificationUrl".

Lemma App_wipe_loop fuel authorization env (w w1 : World App.Store) subscriptions :
  odata_get fuel (subscriptions_url App.GRAPH_API_URL) (App.get_headers authorization) env w
  = (Ok (Some subscriptions), w1) ->
  App.wipe_subscriptions fuel authorization env w
  = for_each subscriptions
      (wipe_one App.GRAPH_API_URL App.SUBSCRIPTION_CALLBACK_URL (App.get_headers authorization))
      env w1.
Proof.
  intros Hlist. unfold App.wipe_subscriptions. cbv zeta. unfold bind at 1.
  unfold subscriptions_url in Hlist. rewrite Hlist. reflexivity.
Qed.

Lemma Application_wipe_loop fuel hd env (w w1 : World Application.Store) subscriptions :
  odata_get fuel (subscriptions_url Application.GRAPH_API_URL) hd env w
  = (Ok (Some subscriptions), w1) ->
  Application.wipe_subscriptions fuel hd env w
  = for_each subscriptions
      (wipe_one Application.GRAPH_API_URL Application.SUBSCRIPTION_CALLBACK_URL hd) env w1.
Proof.
  intros Hlist. unfold Application.wipe_subscriptions. unfold bind at 1.
  unfold subscriptions_url in Hlist. rewrite Hlist. reflexivity.
Qed.

(** X13.  When the upstream accepts every deletion, [wipe_subscriptions]
    deletes, of the subscriptions that the listing gave, exactly those whose
    notification address starts with the callback address of the variant, in
    the order of the listing, one DELETE each at the subscriptions address
    followed by the [id]; the other subscriptions get no call, and nothing is
    logged. *)
Theorem wipe_deletes_our_subscriptions
    (fuel : nat) (env : Env) (subscriptions : list Json) :
  (forall h c, method c = mDELETE -> ok (http env h c) = true) ->
  (forall authorization (w w1 : World App.Store),
      let hd := App.get_headers authorization in
      odata_get fuel (subscriptions_url App.GRAPH_API_URL) hd env w
      = (Ok (Some subscriptions), w1) ->
      Forall (wipeable App.SUBSCRIPTION_CALLBACK_URL) subscriptions ->
      App.wipe_subscriptions fuel authorization env w
      = (Ok tt, add_calls (map (deletion App.GRAPH_API_URL hd)
                             (List.filter (ours App.SUBSCRIPTION_CALLBACK_URL) subscriptions))
                  w1))
  /\ (forall hd (w w1 : World Application.Store),
         odata_get fuel (subscriptions_url Application.GRAPH_API_URL) hd env w
         = (Ok (Some subscriptions), w1) ->
         Forall (wipeable Application.SUBSCRIPTION_CALLBACK_URL) subscriptions ->
         Application.wipe_subscriptions fuel hd env w
         = (Ok tt, add_calls (map (deletion Application.GRAPH_API_URL hd)
                                (List.filter (ours Application.SUBSCRIPTION_CALLBACK_URL)
                                   subscriptions))
                     w1)).
Proof.
  intros Hok. split.
  - intros authorization w w1 hd Hlist Hall.
    rewrite (App_wipe_loop _ _ _ _ _ _ Hlist). now apply wipe_loop_accepted.
  - intros hd w w1 Hlist Hall.
    rewrite (Application_wipe_loop _ _ _ _ _ _ Hlist). now apply wipe_loop_accepted.
Qed.

Lemma wipe_deletes_our_subscriptions_witness :
  calls (snd (App.wipe_subscriptions 2 (Some "Bearer t") resync_env empty_world))
  = [GET (subscriptions_url App.GRAPH_API_URL) (App.get_headers (Some "Bearer t"));
     DELETE "https://graph.microsoft.com//v1.0/subscriptions/s1"
       (App.get_headers (Some "Bearer t"))].
Proof.
  assert (Hok : forall h c, method c = mDELETE -> ok (http resync_env h c) = true).
  { intros h [] H; try discriminate. reflexivity. }
  destruct (wipe_deletes_our_subscriptions 2 resync_env [our_subscription; other_subscription]
              Hok) as (Happ & _).
  rewrite (Happ (Some "Bearer t") empty_world
             (add_call (GET (subscriptions_url App.GRAPH_API_URL)
                          (App.get_headers (Some "Bearer t"))) empty_world)).
  - reflexivity.
  - vm_compute. reflexivity.
  - repeat constructor; try (eexists; reflexivity); try discriminate.
Defined.

(** X14.  [wipe_subscriptions] stops at the first deletion that the upstream
    refuses: it raises a [MiddlewareException] that names the subscription and
    the status, logged as an error, and the subscriptions listed after that
    one are left in place, whether they are ours or not. *)
Theorem wipe_stops_at_refusal
    (fuel : nat) (env : Env) (before after : list Json) (subscription : Json) :
  (forall authorization (w w1 : World App.Store),
      let hd := App.get_headers authorization in
      let cb := App.SUBSCRIPTION_CALLBACK_URL in
      odata_get fuel (subscriptions_url App.GRAPH_API_URL) hd env w
      = (Ok (Some (before ++ subscription :: after)), w1) ->
      Forall (wipeable cb) before ->
      wipeable cb subscription ->
      ours cb subscription = true ->
      (forall h s, In s before -> ok (http env h (deletion App.GRAPH_API_URL hd s)) = true) ->
      let w2 := add_calls (map (deletion App.GRAPH_API_URL hd) (List.filter (ours cb) before))
                  w1 in
      let c := deletion App.GRAPH_API_URL hd subscription in
      ok (http env (calls w2) c) = false ->
      let msg := "Failed to delete subscription " +:+ subscription_id subscription
                 +:+ " due to " +:+ PyStr.of_Z (status_code (http env (calls w2) c)) in
      App.wipe_subscriptions fuel authorization env w
      = (Raise (MiddlewareException msg), add_log ERROR msg (add_call c w2)))
  /\ (forall hd (w w1 : World Application.Store),
         let cb := Application.SUBSCRIPTION_CALLBACK_URL in
         odata_get fuel (subscriptions_url Application.GRAPH_API_URL) hd env w
         = (Ok (Some (before ++ subscription :: after)), w1) ->
         Forall (wipeable cb) before ->
         wipeable cb subscription ->
         ours cb subscription = true ->
         (forall h s, In s before ->
                      ok (http env h (deletion Application.GRAPH_API_URL hd s)) = true) ->
         let w2 := add_calls (map (deletion Application.GRAPH_API_URL hd)
                                (List.filter (ours cb) before)) w1 in
         let c := deletion Application.GRAPH_API_URL hd subscription in
         ok (http env (calls w2) c) = false ->
         let msg := "Failed to delete subscription " +:+ subscription_id subscription
                    +:+ " due to " +:+ PyStr.of_Z (status_code (http env (calls w2) c)) in
         Application.wipe_subscriptions fuel hd env w
         = (Raise (MiddlewareException msg), add_log ERROR msg (add_call c w2))).
Proof.
  split.
  - intros authorization w w1 hd cb Hlist Hall Hs Ho Hok w2 c Hno msg.
    rewrite (App_wipe_loop _ _ _ _ _ _ Hlist). now apply wipe_loop_refused.
  - intros hd w w1 cb Hlist Hall Hs Ho Hok w2 c Hno msg.
    rewrite (Application_wipe_loop _ _ _ _ _ _ Hlist). now apply wipe_loop_refused.
Qed.

Lemma wipe_stops_at_refusal_witness :
  App.wipe_subscriptions 2 (Some "Bearer t") wipe_failing_env empty_world
  = (Raise (MiddlewareException "Failed to delete subscription s1 due to 500"),
     add_log ERROR "Failed to delete subscription s1 due to 500"
       (add_calls [GET (subscriptions_url App.GRAPH_API_URL) (App.get_headers (Some "Bearer t"));
                   DELETE "https://graph.microsoft.com//v1.0/subscriptions/s1"
                     (App.get_headers (Some "Bearer t"))] empty_world)).
Proof.
  destruct (wipe_stops_at_refusal 2 wipe_failing_env [] [other_subscription] our_subscription)
    as (Happ & _).
  rewrite (Happ (Some "Bearer t") empty_world
             (add_call (GET (subscriptions_url App.GRAPH_API_URL)
                          (App.get_headers (Some "Bearer t"))) empty_world)).
  - reflexivity.
  - vm_compute. reflexivity.
  - constructor.
  - split; [eexists; reflexivity|intros _; eexists; reflexivity].
  - reflexivity.
  - intros h s [].
  - reflexivity.
Defined.

(** ** The directory of users *)

Lemma lower_char_idem (c : ascii) : PyStr.lower_char (PyStr.lower_char c) = PyStr.lower_char c.
Proof. destruct c as [[] [] [] [] [] [] [] []]; reflexivity. Qed.

Lemma lower_idem (s : string) : PyStr.lower (PyStr.lower s) = PyStr.lower s.
Proof.
  assert (E : forall c s, PyStr.lower (String c s)
                          = String (PyStr.lower_char c) (PyStr.lower s)) by reflexivity.
  induction s as [|c s IH]; [reflexivity|].
  now rewrite !E, lower_char_idem, IH.
Qed.

(** The address at which the manager of a user is asked. *)
Definition manager_url (graph_api_url : string) (uid : Json) : string :=
  graph_api_url +:+ "/v1.0/users/" +:+ Py.format uid +:+ "/" +:+ "manager?$select=mail".

Section Directory.
Context {S : Type}.
Variables (graph_api_url : string) (hd : Headers).

(** The body of the loop of [get_all_users]. *)
Definition with_manager_mail (user : Json) : M S Json :=
  uid <- lift (Py.getitem user "id");;
  manager <- odata_getone (JStr (graph_api_url +:+ "/v1.0/users/" +:+ Py.format uid +:+ "/"
                                 +:+ "manager?$select=mail")) hd;;
  has_mail <- match manager with
              | Some m => if Py.truthy m then lift (Py.contains "mail" m) else ret false
              | None => ret false
              end;;
  manager_mail <- match manager with
                  | Some m =>
                      if has_mail then
                        mail <- lift (Py.getitem m "mail");;
                        s <- lift (Py.str_method mail);;
                        ret (PyStr.lower s)
                      else ret ""
                  | None => ret ""
                  end;;
  lift (Py.setitem user "manager_mail" (JStr manager_mail)).

Lemma get_all_users_loop (fuel : nat) (env : Env) (w w1 : World S) (listing : list Json) :
  odata_get fuel (graph_api_url +:+ "/v1.0/users") hd env w = (Ok (Some listing), w1) ->
  get_all_users graph_api_url fuel hd env w = for_each_update listing with_manager_mail env w1.
Proof.
  intros Hlist. unfold get_all_users. unfold bind at 1. rewrite Hlist. reflexivity.
Qed.

(** What the loop makes of a user. *)
Definition manager_mail_set (user user' : Json) : Prop :=
  exists manager_mail,
    Py.setitem user "manager_mail" (JStr manager_mail) = Ok user'
    /\ PyStr.lower manager_mail = manager_mail.

Lemma with_manager_mail_sets (user user' : Json) (env : Env) (w w' : World S) :
  with_manager_mail user env w = (Ok user', w') -> manager_mail_set user user'.
Proof.
  unfold with_manager_mail. unfold bind at 1, lift at 1.
  destruct (Py.getitem user "id") as [uid| |]; try discriminate.
  unfold bind at 1.
  destruct (odata_getone _ hd env w) as [[[m|]| |] w1]; try discriminate.
  - destruct (Py.truthy m).
    + unfold bind at 1, lift at 1.
      destruct (Py.contains "mail" m) as [[]| |]; try discriminate.
      * mrun. destruct (Py.getitem m "mail") as [mail| |]; try discriminate.
        destruct (Py.str_method mail) as [s| |]; try discriminate.
        destruct (Py.setitem user "manager_mail" _) as [u| |] eqn:E; try discriminate.
        intros [= <- <-]. exists (PyStr.lower s). split; [exact E|apply lower_idem].
      * mrun. destruct (Py.setitem user "manager_mail" _) as [u| |] eqn:E; try discriminate.
        intros [= <- <-]. exists "". split; [exact E|reflexivity].
    + mrun. destruct (Py.setitem user "manager_mail" _) as [u| |] eqn:E; try discriminate.
      intros [= <- <-]. exists "". split; [exact E|reflexivity].
  - mrun. destruct (Py.setitem user "manager_mail" _) as [u| |] eqn:E; try discriminate.
    intros [= <- <-]. exists "". split; [exact E|reflexivity].
Qed.

Lemma for_each_update_Forall2 {A} (R : A -> A -> Prop) (body : A -> M S A) (env : Env) :
  (forall x y w w', body x env w = (Ok y, w') -> R x y) ->
  forall l ys w w', for_each_update l body env w = (Ok ys, w') -> Forall2 R l ys.
Proof.
  intros Hbody. induction l as [|x l IH]; intros ys w w' Hrun; cbn [for_each_update] in Hrun.
  - injection Hrun as <- _. constructor.
  - unfold bind at 1 in Hrun. destruct (body x env w) as [[y| |] w1] eqn:Hx; try discriminate.
    unfold bind at 1 in Hrun.
    destruct (for_each_update l body env w1) as [[ys'| |] w2] eqn:Hl; try discriminate.
    injection Hrun as <- _. constructor; [eapply Hbody; exact Hx|eapply IH; exact Hl].
Qed.

(** The call that asks for the manager of [user]. *)
Definition manager_call (user : Json) : Call :=
  GET (manager_url graph_api_url
         (match Py.getitem user "id" with Ok uid => uid | _ => JNull end)) hd.

(** The answer [r] to the lookup of a manager gives nothing to take a mail
    from: an error status, an object with an [error] key, an empty object, or
    an object without a [mail] key. *)
Definition unusable (r : HttpResponse) : Prop :=
  ok r = false
  \/ exists manager,
       ok r = true /\ json r = Some manager
       /\ (Py.contains "error" manager = Ok true
           \/ (Py.contains "error" manager = Ok false
               /\ (Py.truthy manager = false \/ Py.contains "mail" manager = Ok false))).

(** What the answer [r] to the lookup of the manager makes of [manager_mail]:
    the mail of the manager in lower case, or the empty string when the
    answer is of no use. *)
Definition manager_mail_of (r : HttpResponse) (manager_mail : string) : Prop :=
  (exists manager mail,
      ok r = true /\ json r = Some manager
      /\ Py.contains "error" manager = Ok false
      /\ Py.truthy manager = true
      /\ Py.contains "mail" manager = Ok true
      /\ Py.getitem manager "mail" = Ok (JStr mail)
      /\ manager_mail = PyStr.lower mail)
  \/ (unusable r /\ manager_mail = "").

Lemma with_manager_mail_run (user user' : Json) (env : Env) (w w' : World S) :
  with_manager_mail user env w = (Ok user', w') ->
  calls w' = calls w ++ [manager_call user]
  /\ exists manager_mail,
       Py.setitem user "manager_mail" (JStr manager_mail) = Ok user'
       /\ manager_mail_of (http env (calls w) (manager_call user)) manager_mail.
Proof.
  unfold with_manager_mail, manager_call. unfold bind at 1, lift at 1.
  destruct (Py.getitem user "id") as [uid| |]; try discriminate.
  unfold bind at 1. fold (manager_url graph_api_url uid).
  rewrite (odata_getone_run (manager_url graph_api_url uid) hd env w). cbv zeta.
  set (r := http env (calls w) (GET (manager_url graph_api_url uid) hd)).
  destruct (ok r) eqn:Hok; cbn [negb].
  - destruct (json r) as [m|] eqn:Hjson; [|discriminate].
    destruct (Py.contains "error" m) as [[]| |] eqn:Herr; try discriminate.
    + mrun. destruct (Py.setitem user "manager_mail" _) as [u| |] eqn:E; try discriminate.
      intros [= <- <-]. split; [reflexivity|]. exists "". split; [exact E|].
      right. split; [|reflexivity]. right. exists m. auto.
    + destruct (Py.truthy m) eqn:Htrue.
      * unfold bind at 1, lift at 1.
        destruct (Py.contains "mail" m) as [[]| |] eqn:Hmail; try discriminate.
        -- mrun. destruct (Py.getitem m "mail") as [mail| |] eqn:Hget; try discriminate.
           destruct mail as [| | |s| |]; try discriminate.
           cbn [Py.str_method].
           destruct (Py.setitem user "manager_mail" _) as [u| |] eqn:E; try discriminate.
           intros [= <- <-]. split; [reflexivity|]. exists (PyStr.lower s). split; [exact E|].
           left. exists m, s. auto 10.
        -- mrun. destruct (Py.setitem user "manager_mail" _) as [u| |] eqn:E; try discriminate.
           intros [= <- <-]. split; [reflexivity|]. exists "". split; [exact E|].
           right. split; [|reflexivity]. right. exists m. auto 10.
      * mrun. destruct (Py.setitem user "manager_mail" _) as [u| |] eqn:E; try discriminate.
        intros [= <- <-]. split; [reflexivity|]. exists "". split; [exact E|].
        right. split; [|reflexivity]. right. exists m. auto 10.
  - mrun. destruct (Py.setitem user "manager_mail" _) as [u| |] eqn:E; try discriminate.
    intros [= <- <-]. split; [reflexivity|]. exists "". split; [exact E|].
    right. split; [|reflexivity]. left. exact Hok.
Qed.

(** The loop asks for the manager of each user in turn, and each user gets
    the [manager_mail] that the answer to its own lookup gives. *)
Lemma manager_loop_run (env : Env) (l : list Json) :
  forall (us : list Json) (w w' : World S),
    for_each_update l with_manager_mail env w = (Ok us, w') ->
    calls w' = calls w ++ map manager_call l
    /\ forall (i : nat) (user user' : Json),
         l !! i = Some user -> us !! i = Some user' ->
         exists manager_mail,
           Py.setitem user "manager_mail" (JStr manager_mail) = Ok user'
           /\ manager_mail_of (http env (calls w ++ map manager_call (take i l))
                                 (manager_call user)) manager_mail.
Proof.
  induction l as [|x l IH]; intros us w w' Hrun; cbn [for_each_update] in Hrun.
  - injection Hrun as <- <-. split; [cbn; now rewrite app_nil_r|].
    intros i user user' Hi. destruct i; discriminate.
  - unfold bind at 1 in Hrun.
    destruct (with_manager_mail x env w) as [[y| |] w1] eqn:Hx; try discriminate.
    unfold bind at 1 in Hrun.
    destruct (for_each_update l with_manager_mail env w1) as [[ys| |] w2] eqn:Hl;
      try discriminate.
    injection Hrun as <- <-.
    destruct (with_manager_mail_run x y env w w1 Hx) as (Hc1 & Hy).
    destruct (IH ys w1 w2 Hl) as (Hc2 & Hrest).
    split.
    + rewrite Hc2, Hc1, <- app_assoc. reflexivity.
    + intros [|i] user user' Hi Hi'; cbn in Hi, Hi'.
      * injection Hi as <-. injection Hi' as <-. cbn [take map]. rewrite app_nil_r. exact Hy.
      * destruct (Hrest i user user' Hi Hi') as (s & Hs & Hm).
        exists s. split; [exact Hs|].
        rewrite Hc1, <- app_assoc in Hm. exact Hm.
Qed.

End Directory.

Lemma setitem_getitem (user user' : Json) (k : string) (v : Json) :
  Py.setitem user k v = Ok user' ->
  Py.getitem user' k = Ok v
  /\ forall k', k' <> k -> Py.getitem user' k' = Py.getitem user k'.
Proof.
  destruct user; cbn [Py.setitem]; try discriminate. intros [= <-]. split.
  - cbn [Py.getitem]. now rewrite assoc_set_assoc_eq.
  - intros k' Hne. cbn [Py.getitem]. rewrite assoc_set_assoc_ne by congruence. reflexivity.
Qed.

(** X15.  The users that [get_all_users] returns are the users of the
    listing, as many and in the same order, each with one field set,
    [manager_mail], every other field being as the listing has it.  The
    manager of each user is asked for once, in the order of the listing, and
    the [manager_mail] of a user is what the answer to its own lookup gives:
    the [mail] of the manager in lower case when the answer is an object with
    a [mail], and the empty string when the answer is of no use (an error
    status, an [error] key, an empty object, no [mail] key).  It is a string
    in lower case in either case, so [register_subscriptions] finds
    [manager_mail] in every user it is given. *)
Theorem get_all_users_sets_manager_mail
    (S : Type) (graph_api_url : string) (fuel : nat) (hd : Headers) (env : Env)
    (w w' : World S) (users : list Json) :
  get_all_users graph_api_url fuel hd env w = (Ok users, w') ->
  exists listing w1,
    odata_get fuel (graph_api_url +:+ "/v1.0/users") hd env w = (Ok (Some listing), w1)
    /\ length users = length listing
    /\ Forall2 (fun user user' =>
                  exists manager_mail,
                    Py.getitem user' "manager_mail" = Ok (JStr manager_mail)
                    /\ PyStr.lower manager_mail = manager_mail
                    /\ forall k, k <> "manager_mail" ->
                                 Py.getitem user' k = Py.getitem user k)
         listing users
    /\ calls w' = calls w1 ++ map (manager_call graph_api_url hd) listing
    /\ forall (i : nat) (user user' : Json),
         listing !! i = Some user -> users !! i = Some user' ->
         exists manager_mail,
           Py.getitem user' "manager_mail" = Ok (JStr manager_mail)
           /\ manager_mail_of
                (http env (calls w1 ++ map (manager_call graph_api_url hd) (take i listing))
                   (manager_call graph_api_url hd user))
                manager_mail.
Proof.
  intros Hrun.
  destruct (odata_get fuel (graph_api_url +:+ "/v1.0/users") hd env w)
    as [[[listing|]| |] w1] eqn:Hlist;
    try (unfold get_all_users in Hrun; unfold bind at 1 in Hrun; rewrite Hlist in Hrun;
         discriminate).
  rewrite (get_all_users_loop _ _ _ _ _ _ _ Hlist) in Hrun.
  pose proof (for_each_update_Forall2 manager_mail_set _ env
                  (fun x y w0 w0' => with_manager_mail_sets graph_api_url hd x y env w0 w0')
                  _ _ _ _ Hrun) as Hall.
  destruct (manager_loop_run graph_api_url hd env listing users w1 w' Hrun) as (Hcalls & Hmail).
  exists listing, w1. split; [reflexivity|]. split; [|split; [|split]].
  - symmetry. eapply Forall2_length. exact Hall.
  - eapply Forall2_impl; [exact Hall|].
    intros user user' (m & Hset & Hlow). exists m.
    destruct (setitem_getitem _ _ _ _ Hset) as [Hget Hother]. auto.
  - exact Hcalls.
  - intros i user user' Hi Hi'.
    destruct (Hmail i user user' Hi Hi') as (m & Hset & Hm).
    exists m. split; [|exact Hm].
    now destruct (setitem_getitem _ _ _ _ Hset) as [Hget _].
Qed.

(** An upstream that knows the manager of no user. *)
Definition no_manager_env : Env :=
  {| http := fun h c =>
       match c with
       | GET url _ =>
           if PyStr.contains "manager" url
           then {| status_code := 404; text := "no manager"; json := None |}
           else http resync_env h c
       | _ => http resync_env h c
       end;
     clock := clock resync_env |}.

Lemma get_all_users_sets_manager_mail_witness :
  (exists user', 
      fst (get_all_users App.GRAPH_API_URL 5 (App.get_headers (Some "Bearer t"))
             resync_env empty_world) = Ok [user']
      /\ Py.getitem user' "manager_mail" = Ok (JStr "boss@x.org"))
  /\ (exists user',
         fst (get_all_users App.GRAPH_API_URL 5 (App.get_headers (Some "Bearer t"))
                no_manager_env empty_world) = Ok [user']
         /\ Py.getitem user' "manager_mail" = Ok (JStr "")).
Proof.
  set (hd := App.get_headers (Some "Bearer t")).
  set (u1 := JObj [("id", JStr "u1"); ("mail", JStr "ann@x.org")]).
  assert (Hmanager : forall env (w1 : World App.Store) users w' (s : string),
             get_all_users App.GRAPH_API_URL 5 hd env empty_world = (Ok users, w') ->
             odata_get 5 (App.GRAPH_API_URL +:+ "/v1.0/users") hd env empty_world
             = (Ok (Some [u1]), w1) ->
             calls w1 = [GET (App.GRAPH_API_URL +:+ "/v1.0/users") hd] ->
             (forall m, manager_mail_of
                          (http env [GET (App.GRAPH_API_URL +:+ "/v1.0/users") hd]
                             (manager_call App.GRAPH_API_URL hd u1)) m -> m = s) ->
             exists user', users = [user'] /\ Py.getitem user' "manager_mail" = Ok (JStr s)).
  { intros env w1 users w' s Hrun Hlist Hc Hs.
    destruct (get_all_users_sets_manager_mail App.Store App.GRAPH_API_URL 5 hd env
                empty_world w' users Hrun)
      as (listing & w1' & Hlist' & Hlen & _ & _ & Hmail).
    rewrite Hlist in Hlist'. injection Hlist' as <- <-.
    destruct users as [|user' [|? ?]]; try discriminate.
    exists user'. split; [reflexivity|].
    destruct (Hmail 0%nat u1 user' eq_refl eq_refl) as (m & Hget & Hm).
    cbn [take map] in Hm. rewrite app_nil_r, Hc in Hm.
    rewrite <- (Hs m Hm). exact Hget. }
  split.
  - destruct (get_all_users App.GRAPH_API_URL 5 hd resync_env empty_world) as [o w'] eqn:Hrun.
    assert (Ho : exists users, o = Ok users).
    { assert (E : o = fst (get_all_users App.GRAPH_API_URL 5 hd resync_env empty_world))
        by (rewrite Hrun; reflexivity).
      rewrite E. vm_compute. eexists; reflexivity. }
    destruct Ho as (users & ->).
    destruct (Hmanager resync_env
                (add_call (GET (App.GRAPH_API_URL +:+ "/v1.0/users") hd) empty_world)
                users w' "boss@x.org" Hrun) as (user' & -> & Hget).
    + vm_compute. reflexivity.
    + reflexivity.
    + intros m [(mgr & mail & _ & Hj & _ & _ & _ & Hmail & ->)|(Hun & _)].
      * injection Hj as <-. injection Hmail as <-. reflexivity.
      * destruct Hun as [Hok|(mgr & _ & Hj & [He|(_ & [Ht|Hc])])];
          [discriminate| injection Hj as <-; discriminate ..].
    + exists user'. split; [reflexivity|exact Hget].
  - destruct (get_all_users App.GRAPH_API_URL 5 hd no_manager_env empty_world) as [o w'] eqn:Hrun.
    assert (Ho : exists users, o = Ok users).
    { assert (E : o = fst (get_all_users App.GRAPH_API_URL 5 hd no_manager_env empty_world))
        by (rewrite Hrun; reflexivity).
      rewrite E. vm_compute. eexists; reflexivity. }
    destruct Ho as (users & ->).
    destruct (Hmanager no_manager_env
                (add_call (GET (App.GRAPH_API_URL +:+ "/v1.0/users") hd) empty_world)
                users w' "" Hrun) as (user' & -> & Hget).
    + vm_compute. reflexivity.
    + reflexivity.
    + intros m [(mgr & mail & Hok & _)|(_ & ->)]; [discriminate|reflexivity].
    + exists user'. split; [reflexivity|exact Hget].
Defined.

Section DirectoryFailure.
Context {S : Type}.

Lemma for_each_update_stops {A} (body : A -> M S A) (env : Env) (before after : list A)
    (x : A) (before' : list A) (e : exn) (w w1 w2 : World S) :
  for_each_update before body env w = (Ok before', w1) ->
  body x env w1 = (Raise e, w2) ->
  for_each_update (before ++ x :: after) body env w = (Raise e, w2).
Proof.
  revert before' w. induction before as [|y l IH]; intros before' w Hb Hx.
  - cbn in Hb. injection Hb as _ <-. cbn [app for_each_update]. unfold bind at 1.
    rewrite Hx. reflexivity.
  - cbn [app for_each_update] in *. unfold bind at 1 in Hb. unfold bind at 1.
    destruct (body y env w) as [[y'| |] w0]; try discriminate.
    unfold bind at 1 in Hb. unfold bind at 1.
    destruct (for_each_update l body env w0) as [[l'| |] w3] eqn:Hl; try discriminate.
    injection Hb as _ <-. rewrite (IH l' w0 Hl Hx). reflexivity.
Qed.

End DirectoryFailure.

(** X16.  When the manager that the upstream gives for a user has a [mail]
    that is null, [get_all_users] ends in the [AttributeError] of
    [manager['mail'].lower()]: the key is there, so that the guard
    ['mail' in manager] lets the null through.  The users listed after that
    one are not looked at, and the resync that asked for the directory ends
    with it. *)
Theorem manager_without_mail_breaks_get_all_users
    (S : Type) (graph_api_url : string) (fuel : nat) (hd : Headers) (env : Env)
    (w w1 w2 : World S) (before before' after : list Json) (user uid manager : Json) :
  odata_get fuel (graph_api_url +:+ "/v1.0/users") hd env w
  = (Ok (Some (before ++ user :: after)), w1) ->
  for_each_update before (with_manager_mail graph_api_url hd) env w1 = (Ok before', w2) ->
  Py.getitem user "id" = Ok uid ->
  fetched env w2 (manager_url graph_api_url uid) hd manager ->
  Py.getitem manager "mail" = Ok JNull ->
  get_all_users graph_api_url fuel hd env w
  = (Raise AttributeError, add_call (GET (manager_url graph_api_url uid) hd) w2).
Proof.
  intros Hlist Hbefore Hid (Hok & Hjson & Herr & Htrue) Hmail.
  rewrite (get_all_users_loop _ _ _ _ _ _ _ Hlist).
  apply (for_each_update_stops _ env before after user before' AttributeError w1 w2 _ Hbefore).
  destruct (getitem_obj _ _ _ Hmail) as (kvs & -> & Hassoc).
  unfold with_manager_mail. unfold bind at 1, lift at 1. rewrite Hid.
  unfold bind at 1. fold (manager_url graph_api_url uid).
  rewrite (odata_getone_run (manager_url graph_api_url uid) hd env w2). cbv zeta.
  rewrite Hok, Hjson, Herr. cbn [negb]. rewrite Htrue.
  unfold bind at 1, lift at 1. cbn [Py.contains]. rewrite Hassoc.
  unfold bind at 1, bind at 1, lift at 1. rewrite Hmail. reflexivity.
Qed.

(** An upstream whose only user has a manager without mail. *)
Definition mailless_manager_env : Env :=
  {| http := fun h c =>
       match c with
       | GET url _ =>
           if PyStr.contains "manager" url then answer 200 (JObj [("mail", JNull)])
           else http resync_env h c
       | _ => http resync_env h c
       end;
     clock := clock resync_env |}.

Lemma manager_without_mail_breaks_get_all_users_witness :
  fst (get_all_users App.GRAPH_API_URL 5 (App.get_headers (Some "Bearer t"))
         mailless_manager_env empty_world)
  = Raise AttributeError.
Proof.
  set (hd := App.get_headers (Some "Bearer t")).
  pose (u := JObj [("id", JStr "u1"); ("mail", JStr "ann@x.org")]).
  rewrite (manager_without_mail_breaks_get_all_users App.Store App.GRAPH_API_URL 5 hd
             mailless_manager_env empty_world
             (add_call (GET (App.GRAPH_API_URL +:+ "/v1.0/users") hd) empty_world)
             (add_call (GET (App.GRAPH_API_URL +:+ "/v1.0/users") hd) empty_world)
             [] [] [] u (JStr "u1") (JObj [("mail", JNull)])).
  - reflexivity.
  - vm_compute. reflexivity.
  - reflexivity.
  - reflexivity.
  - repeat split; vm_compute; reflexivity.
  - reflexivity.
Defined.

(** ** Listings in pages *)

(** The upstream answers the GET of [url], after the calls [h], with the page
    [j] whose values are [p]. *)
Definition page_at (env : Env) (hd : Headers) (h : list Call) (url : string)
    (j : Json) (p : list Json) : Prop :=
  ok (http env h (GET url hd)) = true
  /\ json (http env h (GET url hd)) = Some j
  /\ Py.contains "error" j = Ok false
  /\ Py.truthy j = true
  /\ Py.getitem j "value" = Ok (JList p).

(** The page names no further one. *)
Definition no_next (j : Json) : Prop :=
  (exists k, Py.getitem j "@odata.nextLink" = Raise (KeyError k))
  \/ (exists next, Py.getitem j "@odata.nextLink" = Ok next /\ Py.truthy next = false).

(** From the address [url] on, after the calls [h], the upstream gives the
    pages [pages] one after the other, each naming the address of the next.
    When [broken] is false the last page names no further one: the listing is
    complete.  When [broken] is true the last page names one more address, and
    the fetch of that address is answered with an error status. *)
Fixpoint listing (env : Env) (hd : Headers) (h : list Call) (url : string)
    (pages : list (list Json)) (broken : bool) : Prop :=
  match pages with
  | [] => broken = true /\ ok (http env h (GET url hd)) = false
  | p :: rest =>
      exists j,
        page_at env hd h url j p
        /\ match rest, broken with
           | [], false => no_next j
           | _, _ =>
               exists next,
                 Py.getitem j "@odata.nextLink" = Ok (JStr next)
                 /\ next <> ""
                 /\ listing env hd (h ++ [GET url hd]) next rest broken
           end
  end.

(** The fetches of a listing: one for each page, and one more for the
    address that fails. *)
Definition fetches (pages : list (list Json)) (broken : bool) : nat :=
  (length pages + if broken then 1 else 0)%nat.

Section Pages.
Context {S : Type}.
Variables (env : Env) (hd : Headers).

Lemma truthy_url (url : string) : url <> "" -> Py.truthy (JStr url) = true.
Proof. intros Hu. cbn. destruct url; [congruence|reflexivity]. Qed.

Lemma listing_run (pages : list (list Json)) (broken : bool) :
  forall (fuel : nat) (url : string) (acc : list Json) (w : World S),
    url <> "" ->
    listing env hd (calls w) url pages broken ->
    (fetches pages broken <= fuel)%nat ->
    exists w',
      odata_get_loop fuel (JStr url) hd acc env w = (Ok (Some (acc ++ concat pages)), w')
      /\ store w' = store w
      /\ ticks w' = ticks w
      /\ (exists d, calls w' = calls w ++ GET url hd :: d
                    /\ length (GET url hd :: d) = fetches pages broken
                    /\ Forall (uses [mGET]) d)
      /\ (if broken then exists msg, logs w' = logs w ++ [(WARNING, msg)]
          else logs w' = logs w).
Proof.
  unfold fetches.
  induction pages as [|p rest IH]; intros fuel url acc w Hu Hl Hf; cbn [listing] in Hl.
  - destruct Hl as [-> Hno]. cbn [length] in Hf.
    destruct fuel as [|fuel]; [lia|]. cbn [odata_get_loop]. rewrite (truthy_url url Hu).
    unfold bind at 1. rewrite odata_getone_run. cbv zeta. rewrite Hno. cbn [negb].
    rewrite odata_get_loop_done by reflexivity.
    eexists. split; [cbn [concat]; rewrite app_nil_r; reflexivity|].
    cbn [add_log add_call store ticks calls logs].
    split; [reflexivity|]. split; [reflexivity|]. split; [|eauto].
    exists []. split; [reflexivity|]. split; [reflexivity|constructor].
  - destruct Hl as (j & (Hok & Hjson & Herr & Htrue & Hvalue) & Hrest).
    cbn [length] in Hf. destruct fuel as [|fuel]; [lia|].
    cbn [odata_get_loop]. rewrite (truthy_url url Hu).
    unfold bind at 1. rewrite odata_getone_run. cbv zeta.
    rewrite Hok, Hjson, Herr. cbn [negb]. rewrite Htrue.
    unfold bind at 1, lift at 1. rewrite Hvalue.
    unfold bind at 1, lift at 1. cbn [Py.iter].
    unfold bind at 1, try_except, lift at 1.
    assert (Hmore : forall next,
               Py.getitem j "@odata.nextLink" = Ok (JStr next) ->
               next <> "" ->
               listing env hd (calls w ++ [GET url hd]) next rest broken ->
               (length rest + (if broken then 1 else 0) <= fuel)%nat ->
               exists w',
                 odata_get_loop fuel (JStr next) hd (acc ++ p) env (add_call (GET url hd) w)
                 = (Ok (Some (acc ++ concat (p :: rest))), w')
                 /\ store w' = store w /\ ticks w' = ticks w
                 /\ (exists d, calls w' = calls w ++ GET url hd :: d
                               /\ length (GET url hd :: d)
                                  = (Datatypes.S (length rest) + if broken then 1 else 0)%nat
                               /\ Forall (uses [mGET]) d)
                 /\ (if broken then exists msg, logs w' = logs w ++ [(WARNING, msg)]
                     else logs w' = logs w)).
    { intros next Hn Hne Hl Hfuel.
      destruct (IH fuel next (acc ++ p) (add_call (GET url hd) w) Hne Hl Hfuel)
        as (w' & Hrun & Hs & Ht & (d & Hd & Hlen & HF) & Hlog).
      exists w'. rewrite Hrun. cbn [concat]. rewrite app_assoc.
      split; [reflexivity|]. split; [exact Hs|]. split; [exact Ht|]. split; [|exact Hlog].
      exists (GET next hd :: d). cbn [add_call calls] in Hd. rewrite Hd, <- app_assoc.
      split; [reflexivity|]. split; [cbn [length] in *; lia|].
      constructor; [|exact HF]. unfold uses. cbn. auto. }
    assert (Hdone : forall next,
               Py.truthy next = false -> rest = [] -> broken = false ->
               exists w',
                 odata_get_loop fuel next hd (acc ++ p) env (add_call (GET url hd) w)
                 = (Ok (Some (acc ++ concat (p :: rest))), w')
                 /\ store w' = store w /\ ticks w' = ticks w
                 /\ (exists d, calls w' = calls w ++ GET url hd :: d
                               /\ length (GET url hd :: d)
                                  = (Datatypes.S (length rest) + if broken then 1 else 0)%nat
                               /\ Forall (uses [mGET]) d)
                 /\ (if broken then exists msg, logs w' = logs w ++ [(WARNING, msg)]
                     else logs w' = logs w)).
    { intros next Ht -> ->. rewrite odata_get_loop_done by exact Ht.
      eexists. split; [cbn [concat]; rewrite app_nil_r; reflexivity|].
      cbn [add_call store ticks calls logs].
      split; [reflexivity|]. split; [reflexivity|]. split; [|reflexivity].
      exists []. split; [reflexivity|]. split; [reflexivity|constructor]. }
    destruct rest as [|q rest], broken;
      try (destruct Hrest as (next & Hn & Hne & Hl); rewrite Hn;
           apply (Hmore next Hn Hne Hl); cbn [length] in *; lia).
    destruct Hrest as [(k & Hk)|(next & Hn & Ht)].
    + rewrite Hk. now apply (Hdone JNull).
    + rewrite Hn. now apply (Hdone next).
Qed.

End Pages.

(** X17.  [odata_get] gives the values of all the pages of a listing, joined
    in the order of the pages: for an upstream that serves the pages one
    after the other, each naming the next and the last naming none, and when
    the loop may run once for each page, the result is the concatenation of
    the pages' values; one GET is made for each page, the first at the address
    asked for, all with the same headers, and nothing is logged. *)
Theorem odata_get_joins_pages
    (S : Type) (fuel : nat) (url : string) (hd : Headers) (env : Env) (w : World S)
    (pages : list (list Json)) :
  url <> "" ->
  listing env hd (calls w) url pages false ->
  (length pages <= fuel)%nat ->
  exists w',
    odata_get fuel url hd env w = (Ok (Some (concat pages)), w')
    /\ store w' = store w /\ ticks w' = ticks w /\ logs w' = logs w
    /\ exists d, calls w' = calls w ++ GET url hd :: d
                 /\ length (GET url hd :: d) = length pages
                 /\ Forall (uses [mGET]) d.
Proof.
  intros Hu Hl Hf.
  destruct (listing_run env hd pages false fuel url [] w Hu Hl) as
    (w' & Hrun & Hs & Ht & (d & Hd & Hlen & HF) & Hlog).
  { unfold fetches. lia. }
  exists w'. split; [exact Hrun|]. split; [exact Hs|]. split; [exact Ht|].
  split; [exact Hlog|]. exists d. unfold fetches in Hlen.
  split; [exact Hd|]. split; [lia|exact HF].
Qed.

Definition user_1 : Json := JObj [("id", JStr "u1"); ("mail", JStr "ann@x.org")].
Definition user_2 : Json := JObj [("id", JStr "u2"); ("mail", JStr "bob@x.org")].

Definition second_page_url : string := "https://graph.microsoft.com/v1.0/users?$skiptoken=2".

(** An upstream whose directory comes in two pages. *)
Definition two_page_env : Env :=
  {| http := fun _ c =>
       match c with
       | GET url _ =>
           if PyStr.contains "skiptoken" url then answer 200 (page [user_2])
           else answer 200 (JObj [("value", JList [user_1]);
                                  ("@odata.nextLink", JStr second_page_url)])
       | _ => answer 200 JNull
       end;
     clock := clock resync_env |}.

Lemma odata_get_joins_pages_witness :
  exists w',
    odata_get 2 "https://graph.microsoft.com/v1.0/users" [] two_page_env empty_world
    = (Ok (Some [user_1; user_2]), w')
    /\ calls w' = [GET "https://graph.microsoft.com/v1.0/users" []; GET second_page_url []].
Proof.
  destruct (odata_get_joins_pages App.Store 2 "https://graph.microsoft.com/v1.0/users" []
              two_page_env empty_world [[user_1]; [user_2]])
    as (w' & Hrun & _).
  - discriminate.
  - cbn [listing].
    exists (JObj [("value", JList [user_1]); ("@odata.nextLink", JStr second_page_url)]).
    split; [repeat split; reflexivity|].
    exists second_page_url. split; [reflexivity|]. split; [discriminate|].
    exists (page [user_2]). split; [repeat split; reflexivity|].
    left. exists "@odata.nextLink". reflexivity.
  - cbn. lia.
  - exists w'. split; [exact Hrun|].
    assert (E : w' = snd (odata_get 2 "https://graph.microsoft.com/v1.0/users" []
                            two_page_env empty_world)) by (rewrite Hrun; reflexivity).
    rewrite E. vm_compute. reflexivity.
Defined.

(** X18.  A listing that breaks on a later page is cut short without an
    error: when a page names a next address and the fetch of that address is
    answered with an error status, [odata_get] returns the values of the
    pages read so far, as it would for a listing that ends there; the only
    trace of the failure is one warning in the log.  (With no page read at
    all this is the empty list.) *)
Theorem odata_get_cuts_broken_listing
    (S : Type) (fuel : nat) (url : string) (hd : Headers) (env : Env) (w : World S)
    (pages : list (list Json)) :
  url <> "" ->
  listing env hd (calls w) url pages true ->
  (length pages < fuel)%nat ->
  exists w' msg,
    odata_get fuel url hd env w = (Ok (Some (concat pages)), w')
    /\ store w' = store w /\ ticks w' = ticks w
    /\ logs w' = logs w ++ [(WARNING, msg)]
    /\ exists d, calls w' = calls w ++ GET url hd :: d
                 /\ length (GET url hd :: d) = Datatypes.S (length pages)
                 /\ Forall (uses [mGET]) d.
Proof.
  intros Hu Hl Hf.
  destruct (listing_run env hd pages true fuel url [] w Hu Hl) as
    (w' & Hrun & Hs & Ht & (d & Hd & Hlen & HF) & (msg & Hlog)).
  { unfold fetches. lia. }
  exists w', msg. split; [exact Hrun|]. split; [exact Hs|]. split; [exact Ht|].
  split; [exact Hlog|]. exists d. unfold fetches in Hlen.
  split; [exact Hd|]. split; [lia|exact HF].
Qed.

(** The same directory, whose second page cannot be fetched. *)
Definition broken_page_env : Env :=
  {| http := fun h c =>
       match c with
       | GET url _ =>
           if PyStr.contains "skiptoken" url
           then {| status_code := 503; text := "unavailable"; json := None |}
           else http two_page_env h c
       | _ => http two_page_env h c
       end;
     clock := clock resync_env |}.

Lemma odata_get_cuts_broken_listing_witness :
  exists w',
    odata_get 2 "https://graph.microsoft.com/v1.0/users" [] broken_page_env empty_world
    = (Ok (Some [user_1]), w')
    /\ logs w' = [(WARNING, "Fetch url " +:+ second_page_url +:+ " hit 503")].
Proof.
  destruct (odata_get_cuts_broken_listing App.Store 2 "https://graph.microsoft.com/v1.0/users"
              [] broken_page_env empty_world [[user_1]])
    as (w' & msg & Hrun & _).
  - discriminate.
  - cbn [listing].
    exists (JObj [("value", JList [user_1]); ("@odata.nextLink", JStr second_page_url)]).
    split; [repeat split; reflexivity|].
    exists second_page_url. split; [reflexivity|]. split; [discriminate|].
    split; reflexivity.
  - cbn. lia.
  - exists w'. split; [exact Hrun|].
    assert (E : w' = snd (odata_get 2 "https://graph.microsoft.com/v1.0/users" []
                            broken_page_env empty_world)) by (rewrite Hrun; reflexivity).
    rewrite E. vm_compute. reflexivity.
Defined.

(** ** The meeting link of an event *)



Section MeetingLink.















End MeetingLink.



(** ** The log of a MiddlewareException *)

(** A run that ends in a [MiddlewareException] has its message in the log, at
    ERROR level. *)
Definition logs_failure {S A} (r : outcome A * World S) : Prop :=
  match r with
  | (Raise (MiddlewareException msg), w') => In (ERROR, msg) (logs w')
  | _ => True
  end.

Definition logged {S A} (m : M S A) : Prop := forall env w, logs_failure (m env w).

Section Logged.
Context {S : Type}.

Lemma logged_ret {A} (a : A) : logged (S := S) (ret a).
Proof. intros env w. exact I. Qed.

Lemma logged_raise {A} (e : exn) : ~ is_MiddlewareException e -> logged (S := S) (A := A) (raise e).
Proof. intros He env w. cbn. destruct e; try exact I. exfalso. now apply He. Qed.

Lemma logged_lift {A} (o : outcome A) : pure_outcome o -> logged (S := S) (lift o).
Proof.
  intros Ho env w. cbn. destruct o as [a|e|]; try exact I.
  destruct e; try exact I. exfalso. now apply Ho.
Qed.

Lemma logged_logging l msg : logged (S := S) (logging l msg).
Proof. intros env w. exact I. Qed.

Lemma logged_datetime_now : logged (S := S) datetime_now.
Proof. intros env w. exact I. Qed.

Lemma logged_requests c : logged (S := S) (requests c).
Proof. intros env w. exact I. Qed.

Lemma logged_get_store : logged (S := S) get_store.
Proof. intros env w. exact I. Qed.

Lemma logged_put_store s : logged (S := S) (put_store s).
Proof. intros env w. exact I. Qed.

Lemma logged_raise_MiddlewareException {A} (msg : string) :
  logged (S := S) (A := A) (raise_MiddlewareException msg).
Proof. intros env w. cbn. apply in_or_app. right. now left. Qed.

Lemma logged_bind {A B} (m : M S A) (k : A -> M S B) :
  logged m -> (forall a, logged (k a)) -> logged (bind m k).
Proof.
  intros Hm Hk env w. specialize (Hm env w). unfold bind.
  destruct (m env w) as [[a|e|] w1]; [apply Hk|exact Hm|exact I].
Qed.

Lemma logged_try_except {A} (m : M S A) (h : exn -> option (M S A)) :
  logged m ->
  (forall e, match h e with Some k => logged k | None => True end) ->
  logged (try_except m h).
Proof.
  intros Hm Hh env w. specialize (Hm env w). unfold try_except.
  destruct (m env w) as [[a|e|] w1]; [exact I| |exact I].
  specialize (Hh e). destruct (h e) as [k|]; [apply Hh|exact Hm].
Qed.

Lemma logged_for_each {A} (l : list A) (body : A -> M S unit) :
  (forall x, logged (body x)) -> logged (for_each l body).
Proof.
  intros Hb. induction l as [|x l IH]; cbn [for_each]; [apply logged_ret|].
  apply logged_bind; [apply Hb|intros _; exact IH].
Qed.

Lemma logged_for_each_update {A} (l : list A) (body : A -> M S A) :
  (forall x, logged (body x)) -> logged (for_each_update l body).
Proof.
  intros Hb. induction l as [|x l IH]; cbn [for_each_update]; [apply logged_ret|].
  apply logged_bind; [apply Hb|intros y].
  apply logged_bind; [exact IH|intros ys; apply logged_ret].
Qed.

Lemma logged_repeat_last {A} (n : nat) (m : M S A) (last : option A) :
  logged m -> logged (repeat_last n m last).
Proof.
  intros Hm. revert last. induction n as [|n IH]; intros last; cbn [repeat_last];
    [apply logged_ret|].
  apply logged_bind; [exact Hm|intros r; apply IH].
Qed.

End Logged.

Create HintDb logged discriminated.

Ltac other_exception := cbn; intros H; exact H.

Ltac logged_step :=
  lazymatch goal with
  | |- logged (bind _ _) => apply logged_bind; [|intros ?]
  | |- logged (ret _) => apply logged_ret
  | |- logged (lift _) => apply logged_lift; auto with pure
  | |- logged (logging _ _) => apply logged_logging
  | |- logged datetime_now => apply logged_datetime_now
  | |- logged (requests _) => apply logged_requests
  | |- logged get_store => apply logged_get_store
  | |- logged (put_store _) => apply logged_put_store
  | |- logged (raise _) => apply logged_raise; other_exception
  | |- logged (raise_MiddlewareException _) => apply logged_raise_MiddlewareException
  | |- logged (for_each _ _) => apply logged_for_each; intros ?
  | |- logged (for_each_update _ _) => apply logged_for_each_update; intros ?
  | |- logged (repeat_last _ _ _) => apply logged_repeat_last
  | |- logged (try_except _ _) => apply logged_try_except; [|intros []; try exact I]
  | |- logged (match ?x with _ => _ end) => destruct x
  | |- logged (let _ := _ in _) => cbv zeta
  | |- logged _ => solve [auto 1 with logged]
  end.

Section LoggedGraph.
Context {S : Type}.

Lemma logged_odata_getone (url : Json) (hd : Headers) : logged (S := S) (odata_getone url hd).
Proof. unfold odata_getone, requests_get, response_json. repeat logged_step. Qed.

Lemma logged_odata_get_loop (fuel : nat) (url : Json) (hd : Headers) (all_values : list Json) :
  logged (S := S) (odata_get_loop fuel url hd all_values).
Proof.
  revert url all_values. induction fuel as [|fuel IH]; intros url all_values;
    cbn [odata_get_loop]; destruct (Py.truthy url); try apply logged_ret.
  - intros env w. exact I.
  - apply logged_bind; [apply logged_odata_getone|]. intros [j|]; [|apply IH].
    destruct (Py.truthy j); [|apply IH].
    do 2 (apply logged_bind; [apply logged_lift; auto with pure|intros ?]).
    apply logged_bind; [|intros ?; apply IH].
    apply logged_try_except; [apply logged_lift; auto with pure|].
    intros []; try exact I. apply logged_ret.
Qed.

Lemma logged_odata_get (fuel : nat) (url : string) (hd : Headers) :
  logged (S := S) (odata_get fuel url hd).
Proof. apply logged_odata_get_loop. Qed.

End LoggedGraph.

#[local] Hint Resolve logged_odata_getone logged_odata_get : logged.

Lemma logged_get_all_users {S} (G : string) (fuel : nat) (hd : Headers) :
  logged (S := S) (get_all_users G fuel hd).
Proof. unfold get_all_users. repeat logged_step. Qed.

Lemma logged_unpack3 {S} (l : list string) : logged (S := S) (unpack3 l).
Proof. unfold unpack3. destruct l as [|a [|b [|c [|d l]]]]; logged_step. Qed.

Lemma logged_index1 {S} (l : list string) : logged (S := S) (index1 l).
Proof. unfold index1. destruct l as [|a [|b l]]; logged_step. Qed.

Lemma logged_parse_start {S} (s : string) : logged (S := S) (parse_start s).
Proof. unfold parse_start. repeat logged_step. Qed.

Lemma logged_outside_window {S} (t : DateTime.datetime) (d : Z) :
  logged (S := S) (outside_window t d).
Proof. unfold outside_window. repeat logged_step. Qed.

Lemma logged_args_getitem {S} request k : logged (S := S) (args_getitem request k).
Proof. unfold args_getitem. repeat logged_step. Qed.

Lemma logged_headers_getitem {S} request k : logged (S := S) (headers_getitem request k).
Proof. unfold headers_getitem. repeat logged_step. Qed.

#[local] Hint Resolve logged_get_all_users logged_unpack3 logged_index1 logged_parse_start
  logged_outside_window logged_args_getitem logged_headers_getitem : logged.

Lemma logged_App_parse_event event owner calendar_webhook :
  logged (App.parse_event event owner calendar_webhook).
Proof. unfold App.parse_event. repeat logged_step. Qed.

Lemma logged_Application_parse_event event owner calendar_webhook :
  logged (Application.parse_event event owner calendar_webhook).
Proof. unfold Application.parse_event. repeat logged_step. Qed.

#[local] Hint Resolve logged_App_parse_event logged_Application_parse_event : logged.

Lemma logged_App_process_message st mail manager_mail odata_id :
  logged (App.process_message st mail manager_mail odata_id).
Proof. unfold App.process_message. repeat logged_step. Qed.

Lemma logged_App_process_event st mail odata_id :
  logged (App.process_event st mail odata_id).
Proof. unfold App.process_event. repeat logged_step. Qed.

Lemma logged_Application_process_message st mail manager_mail odata_id :
  logged (Application.process_message st mail manager_mail odata_id).
Proof. unfold Application.process_message. repeat logged_step. Qed.

Lemma logged_Application_process_event st mail odata_id :
  logged (Application.process_event st mail odata_id).
Proof. unfold Application.process_event. repeat logged_step. Qed.

Lemma logged_App_update_calendar fuel authorization users calendar_webhook :
  logged (App.update_calendar fuel authorization users calendar_webhook).
Proof. unfold App.update_calendar. repeat logged_step. Qed.

Lemma logged_Application_update_calendar fuel hd users calendar_webhook :
  logged (Application.update_calendar fuel hd users calendar_webhook).
Proof. unfold Application.update_calendar. repeat logged_step. Qed.

Lemma logged_App_wipe_subscriptions fuel authorization :
  logged (App.wipe_subscriptions fuel authorization).
Proof. unfold App.wipe_subscriptions. repeat logged_step. Qed.

Lemma logged_Application_wipe_subscriptions fuel hd :
  logged (Application.wipe_subscriptions fuel hd).
Proof. unfold Application.wipe_subscriptions. repeat logged_step. Qed.

Lemma logged_App_register_subscriptions authorization hkey users calendar_webhook email_webhook :
  logged (App.register_subscriptions authorization hkey users calendar_webhook email_webhook).
Proof. unfold App.register_subscriptions. repeat logged_step. Qed.

Lemma logged_Application_register_subscriptions hd hkey users calendar_webhook email_webhook :
  logged (Application.register_subscriptions hd hkey users calendar_webhook email_webhook).
Proof. unfold Application.register_subscriptions. repeat logged_step. Qed.

Lemma logged_App_get_data hkey : logged (App.get_data hkey).
Proof. unfold App.get_data. repeat logged_step. Qed.

Lemma logged_Application_get_data hkey : logged (Application.get_data hkey).
Proof. unfold Application.get_data. repeat logged_step. Qed.

Lemma logged_App_store_data hkey state : logged (App.store_data hkey state).
Proof. unfold App.store_data. repeat logged_step. Qed.

Lemma logged_Application_store_data hkey state : logged (Application.store_data hkey state).
Proof. unfold Application.store_data. repeat logged_step. Qed.

Lemma logged_Application_get_headers request : logged (Application.get_headers request).
Proof. unfold Application.get_headers. repeat logged_step. Qed.

#[local] Hint Resolve logged_App_process_message logged_App_process_event
  logged_Application_process_message logged_Application_process_event
  logged_App_update_calendar logged_Application_update_calendar
  logged_App_wipe_subscriptions logged_Application_wipe_subscriptions
  logged_App_register_subscriptions logged_Application_register_subscriptions
  logged_App_get_data logged_Application_get_data
  logged_App_store_data logged_Application_store_data
  logged_Application_get_headers : logged.

Lemma logged_App_item subscription hkey1 value :
  logged (App._handle_subscription_callback_value subscription hkey1 value).
Proof. unfold App._handle_subscription_callback_value. repeat logged_step. Qed.

Lemma logged_Application_item subscription hkey1 value :
  logged (Application._handle_subscription_callback_value subscription hkey1 value).
Proof. unfold Application._handle_subscription_callback_value. repeat logged_step. Qed.

Lemma logged_App_trigger fuel request : logged (App.trigger_middleware fuel request).
Proof. unfold App.trigger_middleware. repeat logged_step. Qed.

Lemma logged_Application_trigger fuel request :
  logged (Application.trigger_middleware fuel request).
Proof. unfold Application.trigger_middleware. repeat logged_step. Qed.

Section Swallowed.

Definition not_MiddlewareException (e : exn) : Prop := ~ is_MiddlewareException e.

Lemma sat_swallowed {S} (m : M S unit) P :
  satisfies m P any any ->
  satisfies (swallow_MiddlewareException m) P not_MiddlewareException any.
Proof.
  intros Hm. unfold swallow_MiddlewareException.
  eapply sat_try_except with (Q' := any); [exact Hm|].
  intros [] _; try (now apply sat_ret); intros H; exact H.
Qed.

Lemma sat_App_callback_swallows subscription hkey1 request :
  satisfies (App.handle_subscription_callback subscription hkey1 request)
            (uses callback_methods) not_MiddlewareException any.
Proof.
  unfold App.handle_subscription_callback, json_loads.
  destruct (lookup_arg "validationToken" (args request)); [now apply sat_ret|].
  eapply sat_bind with (R1 := any).
  { destruct (data request); [now apply sat_ret|apply sat_raise; intros H; exact H]. }
  intros jsonbody _.
  eapply sat_bind with (R1 := any);
    [apply sat_lift_pure; [auto with pure|intros e H; exact H]|intros value _].
  eapply sat_bind with (R1 := any);
    [apply sat_lift_pure; [auto with pure|intros e H; exact H]|intros values _].
  eapply sat_bind with (R1 := any); [|intros; now apply sat_ret].
  apply sat_for_each. intros v _.
  apply (sat_swallowed (App._handle_subscription_callback_value subscription hkey1 v;; ret tt)).
  eapply sat_bind with (R1 := any); [apply sat_App_item|intros; now apply sat_ret].
Qed.

Lemma sat_Application_callback_swallows subscription hkey1 request :
  satisfies (Application.handle_subscription_callback subscription hkey1 request)
            (uses callback_methods) not_MiddlewareException any.
Proof.
  unfold Application.handle_subscription_callback, json_loads.
  destruct (lookup_arg "validationToken" (args request)); [now apply sat_ret|].
  eapply sat_bind with (R1 := any).
  { destruct (data request); [now apply sat_ret|apply sat_raise; intros H; exact H]. }
  intros jsonbody _.
  eapply sat_bind with (R1 := any);
    [apply sat_lift_pure; [auto with pure|intros e H; exact H]|intros value _].
  eapply sat_bind with (R1 := any);
    [apply sat_lift_pure; [auto with pure|intros e H; exact H]|intros values _].
  eapply sat_bind with (R1 := any); [|intros; now apply sat_ret].
  apply sat_for_each. intros v _.
  apply (sat_swallowed
           (Application._handle_subscription_callback_value subscription hkey1 v;; ret tt)).
  eapply sat_bind with (R1 := any); [apply sat_Application_item|intros; now apply sat_ret].
Qed.

End Swallowed.

(** X20.  A [MiddlewareException] never goes unrecorded, and never leaves the
    callback route.  When a trigger ends in a [MiddlewareException], in
    either variant, the log holds an error record with the message of that
    exception; the same holds for the handling of one item of a
    notification; and the callback route, which swallows the
    [MiddlewareException] of each item, never ends in one: what it can end
    with are the exceptions of a notification it could not read. *)
Theorem MiddlewareException_is_logged
    (fuel : nat) (subscription hkey1 : string) (request : FlaskRequest) (value : Json)
    (env : Env) (msg : string) :
  (forall w w' : World App.Store,
      App.trigger_middleware fuel request env w = (Raise (MiddlewareException msg), w') ->
      In (ERROR, msg) (logs w'))
  /\ (forall w w' : World Application.Store,
         Application.trigger_middleware fuel request env w
         = (Raise (MiddlewareException msg), w') ->
         In (ERROR, msg) (logs w'))
  /\ (forall w w' : World App.Store,
         App._handle_subscription_callback_value subscription hkey1 value env w
         = (Raise (MiddlewareException msg), w') ->
         In (ERROR, msg) (logs w'))
  /\ (forall w w' : World Application.Store,
         Application._handle_subscription_callback_value subscription hkey1 value env w
         = (Raise (MiddlewareException msg), w') ->
         In (ERROR, msg) (logs w'))
  /\ (forall w : World App.Store,
         fst (App.handle_subscription_callback subscription hkey1 request env w)
         <> Raise (MiddlewareException msg))
  /\ (forall w : World Application.Store,
         fst (Application.handle_subscription_callback subscription hkey1 request env w)
         <> Raise (MiddlewareException msg)).
Proof.
  repeat split.
  - intros w w' Hrun. pose proof (logged_App_trigger fuel request env w) as H.
    rewrite Hrun in H. exact H.
  - intros w w' Hrun. pose proof (logged_Application_trigger fuel request env w) as H.
    rewrite Hrun in H. exact H.
  - intros w w' Hrun. pose proof (logged_App_item subscription hkey1 value env w) as H.
    rewrite Hrun in H. exact H.
  - intros w w' Hrun.
    pose proof (logged_Application_item subscription hkey1 value env w) as H.
    rewrite Hrun in H. exact H.
  - intros w E.
    destruct (sat_App_callback_swallows subscription hkey1 request env w) as (_ & _ & H).
    rewrite E in H. now apply H.
  - intros w E.
    destruct (sat_Application_callback_swallows subscription hkey1 request env w)
      as (_ & _ & H).
    rewrite E in H. now apply H.
Qed.

Lemma MiddlewareException_is_logged_witness :
  In (ERROR, "Failed to delete subscription s1 due to 500")
     (logs (snd (App.trigger_middleware 2 trigger_request wipe_failing_env empty_world))).
Proof.
  destruct (MiddlewareException_is_logged 2 "messages" "ab6919a6" trigger_request deleted_item
              wipe_failing_env "Failed to delete subscription s1 due to 500") as (Happ & _).
  apply (Happ empty_world). vm_compute. reflexivity.
Defined.

(** ** A cache that refuses *)

(** The warning of a PUT that the cache answered with an error status. *)
Definition put_warning (webhook : string) (r : HttpResponse) : list (Level * string) :=
  if ok r then [] else [(WARNING, "Failed to put to " +:+ webhook +:+ ": " +:+ text r)].

(** X21.  What the calendar cache answers to the PUT of an event never makes
    the event path fail: for an event inside the window, [parse_event]
    returns whatever the answers are, and an answer with an error status
    costs one warning in the log, nothing else.  In application.py the answer
    is that of its one PUT; in app.py, which sends the PUT five times
    whatever the answers, only the answer to the fifth one is looked at. *)
Theorem cache_refusal_is_only_logged
    (event owner : Json) (calendar_webhook : string) (eventdt : DateTime.datetime) (env : Env)
    (astring : string) (meeting_link : option string) (id event' : Json) :
  event_start event eventdt ->
  event_text event astring ->
  extract_meetinglink astring = Ok meeting_link ->
  Py.getitem event "id" = Ok id ->
  Py.update event [("owner", owner); ("meetingLink", Py.of_option_str meeting_link)]
  = Ok event' ->
  let put := PUT calendar_webhook event' in
  (forall w : World App.Store,
      clock env (ticks w) - DateTime.timedelta_days 1 <= eventdt ->
      eventdt <= clock env (Datatypes.S (ticks w)) + DateTime.timedelta_days 8 ->
      exists w',
        App.parse_event event owner calendar_webhook env w = (Ok tt, w')
        /\ calls w' = calls w ++ repeat put 5
        /\ logs w' = logs w ++ put_warning calendar_webhook
                                 (http env (calls w ++ repeat put 4) put))
  /\ (forall w : World Application.Store,
         clock env (ticks w) - DateTime.timedelta_days 1 <= eventdt ->
         eventdt <= clock env (Datatypes.S (ticks w)) + DateTime.timedelta_days 8 ->
         exists w',
           Application.parse_event event owner calendar_webhook env w = (Ok tt, w')
           /\ calls w' = calls w ++ [put]
           /\ logs w' = logs w ++ put_warning calendar_webhook (http env (calls w) put)).
Proof.
  intros (start & dateTime & Hs & Hd & Hp)
         (location & displayName & body & content & Hl & Hdn & Hb & Hc & ->)
         Hlink Hid Hu put.
  destruct (update_two event "owner" "meetingLink" owner (Py.of_option_str meeting_link))
    as (j' & Hu' & _ & _ & Hrest); [discriminate|eauto|].
  rewrite Hu in Hu'. injection Hu' as <-.
  assert (Hid' : Py.getitem event' "id" = Ok id)
    by (apply Hrest; [discriminate|discriminate|exact Hid]).
  split; intros w Hlo Hhi.
  - unfold App.parse_event. mrun. rewrite Hs. mrun. rewrite Hd. mrun.
    cbn [Py.str_method]. mrun. rewrite Hp. mrun.
    destruct (Z.ltb_spec eventdt (clock env (ticks w) - DateTime.timedelta_days 1)); [lia|].
    mrun. unfold App.CALENDAR_DAYS_TO_CACHE.
    destruct (Z.ltb_spec (clock env (Datatypes.S (ticks w)) + DateTime.timedelta_days 8)
                eventdt); [lia|].
    rewrite Hl. mrun. rewrite Hdn. mrun. cbn [Py.str_operand]. mrun.
    rewrite Hb. mrun. rewrite Hc. mrun. cbn [Py.str_operand]. mrun.
    rewrite Hlink. mrun. rewrite Hu. mrun. rewrite Hid'. mrun.
    cbn [repeat_last]. mrun. fold put. unfold put_warning. cbn [repeat].
    rewrite <- !app_assoc. cbn [app].
    destruct (ok (http env (calls w ++ [put; put; put; put]) put));
      cbn [negb]; eexists; (split; [reflexivity|]); cbn [calls logs];
      rewrite <- ?app_assoc, ?app_nil_r; split; reflexivity.
  - unfold Application.parse_event. mrun. rewrite Hs. mrun. rewrite Hd. mrun.
    cbn [Py.str_method]. mrun. rewrite Hp. mrun.
    destruct (Z.ltb_spec eventdt (clock env (ticks w) - DateTime.timedelta_days 1)); [lia|].
    mrun. unfold Application.CALENDAR_DAYS_TO_CACHE.
    destruct (Z.ltb_spec (clock env (Datatypes.S (ticks w)) + DateTime.timedelta_days 8)
                eventdt); [lia|].
    rewrite Hl. mrun. rewrite Hdn. mrun. cbn [Py.str_operand]. mrun.
    rewrite Hb. mrun. rewrite Hc. mrun. cbn [Py.str_operand]. mrun.
    rewrite Hlink. mrun. rewrite Hu. mrun. rewrite Hid'. mrun.
    fold put. unfold put_warning.
    destruct (ok (http env (calls w) put));
      cbn [negb]; eexists; (split; [reflexivity|]); cbn [calls logs];
      rewrite ?app_nil_r; split; reflexivity.
Qed.

Definition sample_event_put : Json :=
  JObj [("id", JStr "ev1");
        ("start", JObj [("dateTime", JStr "2026-11-03T12:00:00.0000000")]);
        ("location", JObj [("displayName", JStr "Room A")]);
        ("body", JObj [("content", JStr "Join at https://foo.webex.com/meet now")]);
        ("owner", JStr "ann@x.org");
        ("meetingLink", JStr "https://foo.webex.com/meet")].

Lemma cache_refusal_is_only_logged_witness :
  exists w',
    Application.parse_event sample_event (JStr "ann@x.org") "https://c.example/cal"
      failing_env (MkWorld None [] [] 0) = (Ok tt, w')
    /\ calls w' = [PUT "https://c.example/cal" sample_event_put]
    /\ logs w' = [(WARNING, "Failed to put to https://c.example/cal: unavailable")].
Proof.
  assert (Hs : event_start sample_event (DateTime.make 2026 11 3 12 0 0 0)).
  { exists (JObj [("dateTime", JStr "2026-11-03T12:00:00.0000000")]),
      "2026-11-03T12:00:00.0000000".
    repeat split; vm_compute; reflexivity. }
  assert (Ht : event_text sample_event "Room A^Join at https://foo.webex.com/meet now").
  { exists (JObj [("displayName", JStr "Room A")]), "Room A",
      (JObj [("content", JStr "Join at https://foo.webex.com/meet now")]),
      "Join at https://foo.webex.com/meet now".
    repeat split; reflexivity. }
  destruct (cache_refusal_is_only_logged sample_event (JStr "ann@x.org")
              "https://c.example/cal" (DateTime.make 2026 11 3 12 0 0 0) failing_env
              "Room A^Join at https://foo.webex.com/meet now"
              (Some "https://foo.webex.com/meet") (JStr "ev1") sample_event_put
              Hs Ht ltac:(vm_compute; reflexivity) eq_refl eq_refl) as [_ Happl].
  destruct (Happl (MkWorld None [] [] 0) ltac:(vm_compute; discriminate)
              ltac:(vm_compute; discriminate)) as (w' & Hrun & Hcalls & Hlogs).
  exists w'. split; [exact Hrun|]. split; [exact Hcalls|exact Hlogs].
Defined.

(** ** The start time of an event *)

Section StartTime.

Lemma split1_one (sep : ascii) (s : string) :
  has_char sep s = false -> PyStr.split1 sep s = [s].
Proof.
  induction s as [|c s IH]; intros H; [reflexivity|].
  rewrite has_char_cons in H. apply orb_false_elim in H as [Hc Hs].
  cbn [PyStr.split1]. rewrite Ascii.eqb_sym, Hc, (IH Hs). reflexivity.
Qed.

Lemma split1_cut (sep : ascii) (a b : string) :
  has_char sep a = false -> PyStr.split1 sep (a +:+ String sep b) = [a; b].
Proof.
  induction a as [|c a IH]; intros H.
  - change ("" +:+ String sep b) with (String sep b).
    cbn [PyStr.split1]. now rewrite Ascii.eqb_refl.
  - rewrite has_char_cons in H. apply orb_false_elim in H as [Hc Ha].
    rewrite append_cons. cbn [PyStr.split1]. rewrite Ascii.eqb_sym, Hc, (IH Ha). reflexivity.
Qed.

End StartTime.

(** X22.  The start of an event is read from the text of [dateTime] before
    its first dot: the fraction of a second that the upstream writes, and
    whatever else follows the dot, plays no part, so that an event starts,
    for the window, at the whole second.  A text that the format
    [%Y-%m-%dT%H:%M:%S] does not match up to its end or to its first dot
    raises [ValueError]. *)
Theorem parse_start_drops_fraction (S : Type) (seconds fraction : string) :
  has_char "." seconds = false ->
  parse_start (S := S) (seconds +:+ "." +:+ fraction) = parse_start seconds
  /\ parse_start (S := S) seconds
     = match DateTime.strptime seconds with
       | Some t => ret t
       | None => raise (ValueError "time data does not match format")
       end.
Proof.
  intros Hdot. unfold parse_start.
  change (seconds +:+ "." +:+ fraction) with (seconds +:+ String "."%char fraction).
  rewrite (split1_cut "." seconds fraction Hdot), (split1_one "." seconds Hdot).
  split; reflexivity.
Qed.

Lemma parse_start_drops_fraction_witness :
  parse_start (S := App.Store) "2026-11-03T12:00:00.9999999+01:00" quiet_env empty_world
  = (Ok (DateTime.make 2026 11 3 12 0 0 0), empty_world).
Proof.
  change "2026-11-03T12:00:00.9999999+01:00"
    with ("2026-11-03T12:00:00" +:+ "." +:+ "9999999+01:00").
  destruct (parse_start_drops_fraction App.Store "2026-11-03T12:00:00" "9999999+01:00" eq_refl)
    as [-> ->].
  vm_compute. reflexivity.
Defined.

(** ** Where the calls of a resync go *)

Ltac addr_step :=
  lazymatch goal with
  | |- satisfies (bind _ _) _ _ _ => eapply sat_bind with (R1 := any); [|intros ? _]
  | |- satisfies (ret _) _ _ _ => apply sat_ret; exact I
  | |- satisfies (lift _) _ _ _ => apply sat_lift_pure; [auto with pure | intros; exact I]
  | |- satisfies (logging _ _) _ _ _ => apply sat_logging
  | |- satisfies datetime_now _ _ _ => apply sat_datetime_now
  | |- satisfies (requests _) _ _ _ => apply sat_requests; reflexivity
  | |- satisfies (raise _) _ _ _ => apply sat_raise; exact I
  | |- satisfies (raise_MiddlewareException _) _ _ _ =>
      apply sat_raise_MiddlewareException; exact I
  | |- satisfies (for_each _ _) _ _ _ => apply sat_for_each; intros ? _
  | |- satisfies (for_each_update _ _) _ _ _ => apply sat_for_each_update; intros ? _
  | |- satisfies (repeat_last _ _ _) _ _ _ => apply sat_repeat_last
  | |- satisfies (try_except _ _) _ _ _ =>
      eapply sat_try_except with (Q' := any); [|intros [] _; try exact I]
  | |- satisfies (match ?x with _ => _ end) _ _ _ => destruct x
  | |- satisfies (let _ := _ in _) _ _ _ => cbv zeta
  end.

Section Addressed.
Variables (hd : Headers) (webhook : string).

(** A call of a resync: to the upstream with the headers [hd], or a PUT to
    the cache at [webhook]. *)
Definition addressed (c : Call) : Prop :=
  match c with
  | GET _ h => h = hd
  | DELETE _ h => h = hd
  | POST _ h _ => h = hd
  | PUT url _ => url = webhook
  end.

Lemma addressed_odata_getone {S} (url : Json) :
  satisfies (S := S) (odata_getone url hd) addressed any any.
Proof. unfold odata_getone, requests_get, response_json. repeat addr_step. Qed.

Lemma addressed_odata_get_loop {S} (fuel : nat) (url : Json) (all_values : list Json) :
  satisfies (S := S) (odata_get_loop fuel url hd all_values) addressed any any.
Proof.
  revert url all_values. induction fuel as [|fuel IH]; intros url all_values;
    cbn [odata_get_loop]; destruct (Py.truthy url);
    try (apply sat_ret; exact I); try apply sat_out_of_fuel.
  eapply sat_bind with (R1 := any); [apply addressed_odata_getone|]. intros [j|] _; [|apply IH].
  destruct (Py.truthy j); [|apply IH].
  repeat (eapply sat_bind with (R1 := any);
          [apply sat_lift_pure; [auto with pure | intros; exact I]|intros ? _]).
  eapply sat_bind with (R1 := any); [|intros ? _; apply IH].
  eapply sat_try_except with (Q' := any);
    [apply sat_lift_pure; [auto with pure | intros; exact I]|].
  intros [] _; try exact I. apply sat_ret. exact I.
Qed.

Lemma addressed_odata_get {S} (fuel : nat) (url : string) :
  satisfies (S := S) (odata_get fuel url hd) addressed any any.
Proof. apply addressed_odata_get_loop. Qed.


Lemma addressed_get_all_users {S} (G : string) (fuel : nat) :
  satisfies (S := S) (get_all_users G fuel hd) addressed any any.
Proof.
  unfold get_all_users.
  eapply sat_bind with (R1 := any); [apply addressed_odata_get|intros [users|] _];
    [|addr_step].
  apply sat_for_each_update. intros user _.
  addr_step; [addr_step|].
  eapply sat_bind with (R1 := any); [apply addressed_odata_getone|intros manager _].
  repeat addr_step.
Qed.

Lemma addressed_App_parse_event event owner :
  satisfies (App.parse_event event owner webhook) addressed any any.
Proof. unfold App.parse_event, parse_start, outside_window. repeat addr_step. Qed.

Lemma addressed_Application_parse_event event owner :
  satisfies (Application.parse_event event owner webhook) addressed any any.
Proof. unfold Application.parse_event, parse_start, outside_window. repeat addr_step. Qed.

End Addressed.

Lemma addressed_App_update_calendar fuel authorization users webhook :
  satisfies (App.update_calendar fuel authorization users webhook)
            (addressed (App.get_headers authorization) webhook) any any.
Proof.
  unfold App.update_calendar.
  addr_step; [addr_step|]. cbv zeta. apply sat_for_each. intros user _.
  addr_step; [addr_step|].
  eapply sat_bind with (R1 := any); [apply addressed_odata_get|intros [events|] _];
    [|addr_step].
  addr_step; [addr_step|]. apply sat_for_each. intros event _.
  addr_step; [addr_step|]. apply addressed_App_parse_event.
Qed.

Lemma addressed_Application_update_calendar fuel hd users webhook :
  satisfies (Application.update_calendar fuel hd users webhook)
            (addressed hd webhook) any any.
Proof.
  unfold Application.update_calendar.
  addr_step; [addr_step|]. cbv zeta. apply sat_for_each. intros user _.
  addr_step; [addr_step|].
  eapply sat_bind with (R1 := any); [apply addressed_odata_get|intros [events|] _];
    [|addr_step].
  apply sat_for_each. intros event _.
  addr_step; [addr_step|]. apply addressed_Application_parse_event.
Qed.

Lemma addressed_App_wipe_subscriptions fuel authorization webhook :
  satisfies (App.wipe_subscriptions fuel authorization)
            (addressed (App.get_headers authorization) webhook) any any.
Proof.
  unfold App.wipe_subscriptions. cbv zeta.
  eapply sat_bind with (R1 := any); [apply addressed_odata_get|intros [subscriptions|] _];
    [|addr_step].
  repeat addr_step.
Qed.

Lemma addressed_Application_wipe_subscriptions fuel hd webhook :
  satisfies (Application.wipe_subscriptions fuel hd) (addressed hd webhook) any any.
Proof.
  unfold Application.wipe_subscriptions.
  eapply sat_bind with (R1 := any); [apply addressed_odata_get|intros [subscriptions|] _];
    [|addr_step].
  repeat addr_step.
Qed.

Lemma addressed_App_register_subscriptions authorization hkey users webhook email_webhook :
  satisfies (App.register_subscriptions authorization hkey users webhook email_webhook)
            (addressed (App.get_headers authorization) webhook) any any.
Proof. unfold App.register_subscriptions. repeat addr_step. Qed.

Lemma addressed_Application_register_subscriptions hd hkey users webhook email_webhook :
  satisfies (Application.register_subscriptions hd hkey users webhook email_webhook)
            (addressed hd webhook) any any.
Proof. unfold Application.register_subscriptions. repeat addr_step. Qed.

Lemma addressed_App_resync fuel request cal_url mail_url :
  satisfies (App_resync fuel request cal_url mail_url)
            (addressed (App.get_headers (lookup_header "Authorization" (headers request)))
               cal_url) any any.
Proof.
  unfold App_resync.
  eapply sat_bind with (R1 := any); [apply addressed_get_all_users|intros users _].
  eapply sat_bind with (R1 := any); [apply addressed_App_update_calendar|intros _ _].
  eapply sat_bind with (R1 := any); [apply addressed_App_wipe_subscriptions|intros _ _].
  eapply sat_bind with (R1 := any); [apply addressed_App_register_subscriptions|intros _ _].
  repeat addr_step.
Qed.

Lemma addressed_Application_resync fuel request cal_url mail_url bearer accept content_type :
  lookup_header "Authorization" (headers request) = Some bearer ->
  lookup_header "Accept" (headers request) = Some accept ->
  lookup_header "Content-Type" (headers request) = Some content_type ->
  satisfies (Application_resync_request fuel request cal_url mail_url)
            (addressed (request_headers bearer accept content_type) cal_url) any any.
Proof.
  intros Ha Hb Hc. unfold Application_resync_request.
  eapply sat_bind with (R1 := fun hd => hd = request_headers bearer accept content_type).
  { intros env w.
    rewrite (Application_get_headers_run request bearer accept content_type env w Ha Hb Hc).
    cbn. split; [reflexivity|]. split; [|reflexivity].
    exists []. rewrite app_nil_r. split; [reflexivity|constructor]. }
  intros hd ->.
  eapply sat_bind with (R1 := any); [apply addressed_get_all_users|intros users _].
  eapply sat_bind with (R1 := any); [apply addressed_Application_update_calendar|intros _ _].
  eapply sat_bind with (R1 := any); [apply addressed_Application_wipe_subscriptions|intros _ _].
  eapply sat_bind with (R1 := any);
    [apply addressed_Application_register_subscriptions|intros _ _].
  repeat addr_step.
Qed.

(** X23.  Every call that a trigger makes goes where the request says: the
    calls to the upstream (GET, DELETE, POST) carry the headers made of the
    request's Authorization (in application.py, of its Authorization, Accept
    and Content-Type), not a stored credential, and every PUT goes to the
    calendar webhook of the request.  This holds for every trigger, whether
    it answers or not. *)
Theorem trigger_calls_are_addressed
    (fuel : nat) (env : Env) (request : FlaskRequest) (cal_url mail_url : string) :
  lookup_arg "calendar_webhook" (args request) = Some cal_url ->
  lookup_arg "email_webhook" (args request) = Some mail_url ->
  (forall w : World App.Store,
      exists d,
        calls (snd (App.trigger_middleware fuel request env w)) = calls w ++ d
        /\ Forall (addressed (App.get_headers (lookup_header "Authorization"
                                                 (headers request))) cal_url) d)
  /\ (forall bearer accept content_type,
         lookup_header "Authorization" (headers request) = Some bearer ->
         lookup_header "Accept" (headers request) = Some accept ->
         lookup_header "Content-Type" (headers request) = Some content_type ->
         forall w : World Application.Store,
           exists d,
             calls (snd (Application.trigger_middleware fuel request env w)) = calls w ++ d
             /\ Forall (addressed (request_headers bearer accept content_type) cal_url) d).
Proof.
  intros Hcal Hmail. split.
  - intros w. rewrite (App_trigger_cases fuel env request cal_url mail_url Hcal Hmail w).
    assert (Hend : forall w0 : World App.Store,
               calls w0 = calls w ->
               exists d,
                 calls (snd (App_stored request cal_url mail_url
                               (App_resync fuel request cal_url mail_url env w0)))
                 = calls w ++ d
                 /\ Forall (addressed (App.get_headers (lookup_header "Authorization"
                                                          (headers request))) cal_url) d).
    { intros w0 H0.
      destruct (addressed_App_resync fuel request cal_url mail_url env w0)
        as (_ & (d & Hd & HF) & _).
      exists d. split; [|exact HF]. rewrite <- H0, <- Hd.
      destruct (App_resync fuel request cal_url mail_url env w0) as [[t|e|] w4]; reflexivity. }
    destruct (store w !! full_hkey cal_url mail_url) as [state|]; [|now apply Hend].
    destruct (next_sync state <=? clock env (ticks w)); [now apply Hend|].
    exists []. cbn. rewrite app_nil_r. split; [reflexivity|constructor].
  - intros bearer accept content_type Ha Hb Hc w.
    rewrite (Application_trigger_cases fuel env request cal_url mail_url Hcal Hmail w).
    assert (Hend : forall w0 : World Application.Store,
               calls w0 = calls w ->
               exists d,
                 calls (snd (Application_stored request cal_url mail_url
                               (Application_resync_request fuel request cal_url mail_url
                                  env w0)))
                 = calls w ++ d
                 /\ Forall (addressed (request_headers bearer accept content_type) cal_url) d).
    { intros w0 H0.
      destruct (addressed_Application_resync fuel request cal_url mail_url bearer accept
                  content_type Ha Hb Hc env w0) as (_ & (d & Hd & HF) & _).
      exists d. split; [|exact HF]. rewrite <- H0, <- Hd.
      destruct (Application_resync_request fuel request cal_url mail_url env w0)
        as [[t|e|] w4]; reflexivity. }
    destruct (store w ≫= _) as [state|]; [|now apply Hend].
    destruct (next_sync state <=? clock env (ticks w)); [now apply Hend|].
    exists []. cbn. rewrite app_nil_r. split; [reflexivity|constructor].
Qed.

Lemma trigger_calls_are_addressed_witness :
  exists d,
    calls (snd (App.trigger_middleware 5 trigger_request resync_env empty_world)) = d
    /\ Forall (addressed (App.get_headers (Some "Bearer new")) "https://c.example/cal") d.
Proof.
  destruct (trigger_calls_are_addressed 5 resync_env trigger_request
              "https://c.example/cal" "https://c.example/mail" eq_refl eq_refl)
    as (Happ & _).
  destruct (Happ empty_world) as (d & Hd & HF).
  exists d. split; [exact Hd|exact HF].
Defined.

(** ** From the trigger to the notification *)

(** X24.  The trigger and the callback fit together.  After a trigger that
    answered, a notification of a deletion that carries the clientState
    written by [register_subscriptions] for that trigger's key (prefix, mail
    and manager's mail without a caret), and that arrives at the address with
    the key's suffix, finds the record of the trigger: the entry is removed
    with one DELETE at the e-mail webhook, or at the calendar webhook, that
    the trigger request named (addresses stored before for the same key no
    longer count), in every later world whose state store is the one the
    trigger left, and whatever the upstream and the clock are by then. *)
Theorem trigger_then_deletion_reaches_the_cache
    (fuel : nat) (env env' : Env) (request : FlaskRequest) (cal_url mail_url : string)
    (mail manager_mail prefix shortid : string) (value : Json) :
  lookup_arg "calendar_webhook" (args request) = Some cal_url ->
  lookup_arg "email_webhook" (args request) = Some mail_url ->
  let hkey := derive cal_url mail_url in
  Py.getitem value "clientState"
  = Ok (JStr (fst hkey +:+ "^" +:+ mail +:+ "^" +:+ manager_mail)) ->
  has_char "^" mail = false ->
  has_char "^" manager_mail = false ->
  resource_id value (prefix +:+ "/" +:+ shortid) ->
  has_char "/" shortid = false ->
  Py.getitem value "changeType" = Ok (JStr "deleted") ->
  (forall (w w' w2 : World App.Store) (resp : FlaskResponse),
      App.trigger_middleware fuel request env w = (Ok resp, w') ->
      store w2 = store w' ->
      App._handle_subscription_callback_value "messages" (snd hkey) value env' w2
      = (Ok None, add_call (removal shortid mail_url) w2)
      /\ App._handle_subscription_callback_value "events" (snd hkey) value env' w2
         = (Ok None, add_call (removal shortid cal_url) w2))
  /\ (forall (w w' w2 : World Application.Store) (resp : FlaskResponse),
         Application.trigger_middleware fuel request env w = (Ok resp, w') ->
         store w2 = store w' ->
         Application._handle_subscription_callback_value "messages" (snd hkey) value env' w2
         = (Ok None, add_call (removal shortid mail_url) w2)
         /\ Application._handle_subscription_callback_value "events" (snd hkey) value env' w2
            = (Ok None, add_call (removal shortid cal_url) w2)).
Proof.
  intros Hcal Hmail hkey Hcs Hm Hmm Hres Hshort Hchange.
  assert (Hfields : client_state_fields value (fst hkey) mail manager_mail).
  { exists (fst hkey +:+ "^" +:+ mail +:+ "^" +:+ manager_mail). split; [exact Hcs|].
    destruct (derive_hex cal_url mail_url) as [H0 _]. fold hkey in H0.
    change (fst hkey +:+ "^" +:+ mail +:+ "^" +:+ manager_mail)
      with (fst hkey +:+ String "^"%char (mail +:+ String "^"%char manager_mail)).
    rewrite split_cut by (apply all_hex_has_char; [reflexivity|exact H0]).
    rewrite split_cut by exact Hm.
    rewrite split_one by exact Hmm. reflexivity. }
  assert (Hkey : fst hkey +:+ snd hkey = full_hkey cal_url mail_url)
    by (unfold hkey, derive, split_hkey; cbn [fst snd]; apply take_drop).
  split.
  - intros w w' w2 resp Hrun Hw2.
    pose proof (App_trigger_store fuel env request cal_url mail_url w Hcal Hmail) as H.
    rewrite Hrun in H. destruct H as (_ & t & Hst).
    apply (App_deleted_run (snd hkey) (fst hkey) mail manager_mail prefix shortid value
             (trigger_record request cal_url mail_url t) env' Hfields Hres Hshort Hchange w2).
    rewrite Hw2, Hst, Hkey. apply lookup_insert_eq.
  - intros w w' w2 resp Hrun Hw2.
    pose proof (Application_trigger_store fuel env request cal_url mail_url w Hcal Hmail)
      as H.
    rewrite Hrun in H. destruct H as (_ & t & Hst).
    apply (Application_deleted_run (snd hkey) (fst hkey) mail manager_mail prefix shortid value
             (trigger_record request cal_url mail_url t) env' Hfields Hres Hshort Hchange w2
             (<[full_hkey cal_url mail_url := trigger_record request cal_url mail_url t]>
                (default ∅ (store w)))).
    + rewrite Hw2. exact Hst.
    + rewrite Hkey. apply lookup_insert_eq.
Qed.

Lemma trigger_then_deletion_reaches_the_cache_witness :
  App._handle_subscription_callback_value "messages"
    (snd (derive "https://c.example/cal" "https://c.example/mail"))
    (message_item (fst (derive "https://c.example/cal" "https://c.example/mail")
                   +:+ "^ann@x.org^boss@x.org") "deleted" "Users/u1/Messages/m2")
    failing_env
    (snd (App.trigger_middleware 1 trigger_request quiet_env in_sync_world))
  = (Ok None,
     add_call (DELETE "https://c.example/mail/?id=m2" [])
       (snd (App.trigger_middleware 1 trigger_request quiet_env in_sync_world))).
Proof.
  set (w' := snd (App.trigger_middleware 1 trigger_request quiet_env in_sync_world)).
  assert (Hrun : App.trigger_middleware 1 trigger_request quiet_env in_sync_world
                 = (Ok (Response status_ok 200), w')).
  { unfold w'.
    rewrite (App_trigger_cases 1 quiet_env trigger_request "https://c.example/cal"
               "https://c.example/mail" eq_refl eq_refl in_sync_world).
    unfold in_sync_world. cbn [store]. rewrite lookup_singleton_eq. reflexivity. }
  assert (Hres : resource_id
                   (message_item (fst (derive "https://c.example/cal" "https://c.example/mail")
                                  +:+ "^ann@x.org^boss@x.org") "deleted"
                      "Users/u1/Messages/m2")
                   ("Users/u1/Messages" +:+ "/" +:+ "m2")).
  { exists (JObj [("@odata.id", JStr "Users/u1/Messages/m2")]). split; reflexivity. }
  destruct (trigger_then_deletion_reaches_the_cache 1 quiet_env failing_env trigger_request
              "https://c.example/cal" "https://c.example/mail" "ann@x.org" "boss@x.org"
              "Users/u1/Messages" "m2"
              (message_item (fst (derive "https://c.example/cal" "https://c.example/mail")
                             +:+ "^ann@x.org^boss@x.org") "deleted" "Users/u1/Messages/m2")
              eq_refl eq_refl eq_refl eq_refl eq_refl Hres eq_refl eq_refl) as (Happ & _).
  destruct (Happ in_sync_world w' w' (Response status_ok 200) Hrun eq_refl) as [Hmessages _].
  exact Hmessages.
Defined.

(** ** A notification of another kind *)

(** X25.  A notification that arrives at the callback address of a kind other
    than [messages] and [events], for a key that has a record and with a
    resource whose [@odata.id] holds a slash, makes no call at all: the item
    ends in the [MiddlewareException] "Unknown subscription type", logged as
    an error, which the loop over the items swallows.  The [changeType] of
    the item is not read.  Both variants. *)
Theorem unknown_subscription_type_is_dropped
    (subscription hkey1 hkey0 mail manager_mail odata_id : string) (value : Json)
    (globalstateentry : State) (env : Env) :
  subscription <> "messages" ->
  subscription <> "events" ->
  client_state_fields value hkey0 mail manager_mail ->
  resource_id value odata_id ->
  has_char "/" odata_id = true ->
  let msg := "Unknown subscription type" in
  (forall w : World App.Store,
      store w !! (hkey0 +:+ hkey1) = Some globalstateentry ->
      App._handle_subscription_callback_value subscription hkey1 value env w
      = (Raise (MiddlewareException msg), add_log ERROR msg w)
      /\ App_item subscription hkey1 value env w = (Ok tt, add_log ERROR msg w))
  /\ (forall (w : World Application.Store) (state_file : gmap string State),
         store w = Some state_file ->
         state_file !! (hkey0 +:+ hkey1) = Some globalstateentry ->
         Application._handle_subscription_callback_value subscription hkey1 value env w
         = (Raise (MiddlewareException msg), add_log ERROR msg w)
         /\ Application_item subscription hkey1 value env w = (Ok tt, add_log ERROR msg w)).
Proof.
  intros Hm He (client_state & Hcs & Hsplit) (resourceData & Hrd & Hid) Hslash msg.
  destruct (rsplit1_two "/" odata_id Hslash) as (prefix & shortid & Hcut & Hshort).
  assert (Hlast : PyStr.rsplit1 "/" odata_id = [prefix; shortid])
    by (rewrite Hcut; apply (rsplit1_cut "/" prefix shortid Hshort)).
  apply String.eqb_neq in Hm. apply String.eqb_neq in He.
  split.
  - intros w Hst.
    assert (Hitem : App._handle_subscription_callback_value subscription hkey1 value env w
                    = (Raise (MiddlewareException msg), add_log ERROR msg w)).
    { unfold App._handle_subscription_callback_value, App.get_data.
      mrun. rewrite Hcs. mrun. cbn [Py.str_method]. mrun. rewrite Hsplit. mrun.
      rewrite Hst. mrun. rewrite Hrd. mrun. rewrite Hid. mrun. cbn [Py.str_method]. mrun.
      rewrite Hlast. mrun. rewrite Hm, He. reflexivity. }
    split; [exact Hitem|].
    unfold App_item, swallow_MiddlewareException, try_except. unfold bind at 1.
    rewrite Hitem. reflexivity.
  - intros w state_file Hw Hst.
    assert (Hitem : Application._handle_subscription_callback_value subscription hkey1 value
                      env w
                    = (Raise (MiddlewareException msg), add_log ERROR msg w)).
    { unfold Application._handle_subscription_callback_value, Application.get_data.
      mrun. rewrite Hcs. mrun. cbn [Py.str_method]. mrun. rewrite Hsplit. mrun.
      rewrite Hw, Hst. mrun. rewrite Hrd. mrun. rewrite Hid. mrun. cbn [Py.str_method]. mrun.
      rewrite Hlast. mrun. rewrite Hm, He. reflexivity. }
    split; [exact Hitem|].
    unfold Application_item, swallow_MiddlewareException, try_except. unfold bind at 1.
    rewrite Hitem. reflexivity.
Qed.

Lemma unknown_subscription_type_is_dropped_witness :
  App.handle_subscription_callback "contacts" "ab6919a6"
    (notification_request [deleted_item]) quiet_env callback_world
  = (Ok (Response "" 202), add_log ERROR "Unknown subscription type" callback_world).
Proof.
  assert (Hfields : client_state_fields deleted_item "6780fb97" "ann@x.org" "boss@x.org").
  { exists "6780fb97^ann@x.org^boss@x.org". split; reflexivity. }
  assert (Hres : resource_id deleted_item "Users/u1/Messages/m2").
  { exists (JObj [("@odata.id", JStr "Users/u1/Messages/m2")]). split; reflexivity. }
  destruct (unknown_subscription_type_is_dropped "contacts" "ab6919a6" "6780fb97" "ann@x.org"
              "boss@x.org" "Users/u1/Messages/m2" deleted_item known_state quiet_env
              ltac:(discriminate) ltac:(discriminate) Hfields Hres eq_refl) as (Happ & _).
  destruct (Happ callback_world (lookup_singleton_eq _ _)) as [_ Hitem].
  rewrite (App_callback_loop "contacts" "ab6919a6" _ (JObj [("value", JList [deleted_item])])
             [deleted_item]) by reflexivity.
  cbn [for_each]. unfold bind at 1. rewrite Hitem. reflexivity.
Defined.
